(** * rwkv.cpp: the model-file codec, the single-step graph, the evaluator
      and the quantizer, as a shallow embedding of [rwkv.cpp]

    The development follows the order of the source file: error handling,
    file utilities, the type registry and the two header readers, the model
    structure, the element-wise operators, the graph builder, the public
    entry points.  The tensor backend (ggml) and the public header [rwkv.h]
    are not part of the sources; what the code uses of them is gathered in
    the two classes [rwkv_h] and [ggml_backend] below.

    Numbers.  A [uint32_t] read from a file is an integer in [0, 2^32);
    arithmetic the code does in [uint32_t] is written with its wrap-around.
    Byte counts, element counts and file offsets ([size_t], [int64_t],
    [off_t]) measure objects the process holds and are kept as unbounded
    integers.

    Resources.  [fopen] is given by its result; [fstat] and the allocations
    ([new (std::nothrow)], [ggml_init], the tensors of a context) are taken
    to succeed, so the byte counts of the sizing planner, which only size
    the arena, are not carried.  [rwkv_free] and
    [rwkv_get_system_info_string] are not embedded. *)

From stdpp Require Import prelude gmap strings pretty.
From Stdlib Require Import ZArith Lia Strings.Byte.

Local Open Scope Z_scope.

(** ** The public header [rwkv.h]

    [rwkv.cpp] includes [rwkv.h] for the file magic, the supported format
    versions and the enumeration [rwkv_error_flags].  The header is not
    among the sources, so the values are parameters of the development. *)

Class rwkv_h := {
  RWKV_FILE_MAGIC : Z;
  RWKV_FILE_VERSION_0 : Z;
  RWKV_FILE_VERSION_1 : Z;
  RWKV_FILE_VERSION_MIN : Z;
  RWKV_FILE_VERSION_MAX : Z;
  RWKV_FILE_VERSION : Z;
  RWKV_ERROR_NONE : Z;
  RWKV_ERROR_ARGS : Z;
  RWKV_ERROR_FILE : Z;
  RWKV_ERROR_MODEL_PARAMS : Z;
  RWKV_ERROR_GRAPH : Z;
  RWKV_ERROR_CTX : Z;
  RWKV_ERROR_ALLOC : Z;
  RWKV_ERROR_FILE_OPEN : Z;
  RWKV_ERROR_FILE_STAT : Z;
  RWKV_ERROR_FILE_READ : Z;
  RWKV_ERROR_FILE_WRITE : Z;
  RWKV_ERROR_FILE_MAGIC : Z;
  RWKV_ERROR_FILE_VERSION : Z;
  RWKV_ERROR_DATA_TYPE : Z;
  RWKV_ERROR_UNSUPPORTED : Z;
  RWKV_ERROR_SHAPE : Z;
  RWKV_ERROR_DIMENSION : Z;
  RWKV_ERROR_KEY : Z;
  RWKV_ERROR_DATA : Z;
  RWKV_ERROR_PARAM_MISSING : Z
}.

(** The values the released [rwkv.h] gives these names: the magic "ggmf",
    the two format versions 100 and 101, of which both are supported and the
    later is the current one, and the error flags (a category in the high
    byte, a detail in the low one).  Only the closed examples at the end of
    the file use them. *)
Definition released_rwkv_h : rwkv_h := {|
  RWKV_FILE_MAGIC := 0x67676d66;
  RWKV_FILE_VERSION_0 := 100;
  RWKV_FILE_VERSION_1 := 101;
  RWKV_FILE_VERSION_MIN := 100;
  RWKV_FILE_VERSION_MAX := 101;
  RWKV_FILE_VERSION := 101;
  RWKV_ERROR_NONE := 0;
  RWKV_ERROR_ARGS := Z.shiftl 1 8;
  RWKV_ERROR_FILE := Z.shiftl 2 8;
  RWKV_ERROR_MODEL_PARAMS := Z.shiftl 4 8;
  RWKV_ERROR_GRAPH := Z.shiftl 5 8;
  RWKV_ERROR_CTX := Z.shiftl 6 8;
  RWKV_ERROR_ALLOC := 1;
  RWKV_ERROR_FILE_OPEN := 2;
  RWKV_ERROR_FILE_STAT := 3;
  RWKV_ERROR_FILE_READ := 4;
  RWKV_ERROR_FILE_WRITE := 5;
  RWKV_ERROR_FILE_MAGIC := 6;
  RWKV_ERROR_FILE_VERSION := 7;
  RWKV_ERROR_DATA_TYPE := 8;
  RWKV_ERROR_UNSUPPORTED := 9;
  RWKV_ERROR_SHAPE := 10;
  RWKV_ERROR_DIMENSION := 11;
  RWKV_ERROR_KEY := 12;
  RWKV_ERROR_DATA := 13;
  RWKV_ERROR_PARAM_MISSING := 14
|}.

(** ** Output streams

    The code reports through [fprintf (stderr, ...)] and, once, through
    [printf].  A printed line is kept as its format string, with the escapes
    as the source writes them and [PRId32] as [d], and its arguments; a
    floating-point argument [a / b] is kept as the pair. *)

Inductive printf_arg :=
| arg_int (n : Z)
| arg_str (s : string)
| arg_quot (num den : Z).

Record printed := fprintf { format : string; arguments : list printf_arg }.

(** ** Error handling *)

(** The thread-local variables [global_last_error] and
    [global_print_errors], together with the two output streams. *)
Record rwkv_globals := mk_globals {
  global_last_error : Z;
  global_print_errors : bool;
  stderr : list printed;
  stdout : list printed
}.

(** [global_last_error |= ERR_VAL] *)
Definition global_or_error (ERR_VAL : Z) (g : rwkv_globals) : rwkv_globals :=
  mk_globals (Z.lor (global_last_error g) ERR_VAL) (global_print_errors g)
    (stderr g) (stdout g).

Definition global_set_error (value : Z) (g : rwkv_globals) : rwkv_globals :=
  mk_globals value (global_print_errors g) (stderr g) (stdout g).

(** [RWKV_MSG (...)]: prints when [global_print_errors] is set. *)
Definition RWKV_MSG (msg : printed) (g : rwkv_globals) : rwkv_globals :=
  if global_print_errors g
  then mk_globals (global_last_error g) (global_print_errors g)
         (stderr g ++ [msg]) (stdout g)
  else g.

(** The second line every [..._MSG] macro prints: ["\n%s:%d: %s\n"] with
    [__FILE__], [__LINE__] and the text of the failed condition.  The line is
    the one the check starts on and the text is the condition as the source
    spells it (the preprocessor may print macro names in it expanded). *)
Definition location (line : Z) (condition : string) : printed :=
  fprintf "\n%s:%d: %s\n" [arg_str "rwkv.cpp"; arg_int line; arg_str condition].

(** The failing branch of [RWKV_ASSERT]: adds [ERR_VAL] to the last error. *)
Definition RWKV_ASSERT_fails (ERR_VAL : Z) (g : rwkv_globals) : rwkv_globals :=
  global_or_error ERR_VAL g.

(** The failing branch of [RWKV_ASSERT_MSG]: adds [ERR_VAL] to the last
    error and prints the message, then the location. *)
Definition RWKV_ASSERT_MSG_fails (ERR_VAL : Z) (msg : printed) (line : Z)
    (condition : string) (g : rwkv_globals) : rwkv_globals :=
  RWKV_MSG (location line condition) (RWKV_MSG msg (global_or_error ERR_VAL g)).

(** The failing branch of [RWKV_ENSURE_MSG]: prints only. *)
Definition RWKV_ENSURE_MSG_fails (msg : printed) (line : Z)
    (condition : string) (g : rwkv_globals) : rwkv_globals :=
  RWKV_MSG (location line condition) (RWKV_MSG msg g).

(** [(e & flag) == flag] *)
Definition has_error (e flag : Z) : Prop := Z.land e flag = flag.

(** ** Utilities: files

    A [FILE] opened for reading is its contents and the read position; all
    streams are unbuffered ([setvbuf (..., _IONBF, 0)]).  File sizes and
    offsets are 64-bit in the code and are kept as unbounded integers. *)

Record FILE := mk_FILE { contents : list byte; position : Z }.

Definition ftell (file : FILE) : Z := position file.

(** [st_size] as [fstat] reports it. *)
Definition st_size (file : FILE) : Z := Z.of_nat (length (contents file)).

(** [fseek (file, offset, SEEK_CUR) == 0]: a seek past the end of a regular
    file succeeds; only a negative target is refused. *)
Definition fseek_cur (file : FILE) (offset : Z) : bool * FILE :=
  if 0 <=? position file + offset
  then (true, mk_FILE (contents file) (position file + offset))
  else (false, file).

(** [fseek (file, offset, SEEK_SET) == 0] *)
Definition fseek_set (file : FILE) (offset : Z) : bool * FILE :=
  if 0 <=? offset then (true, mk_FILE (contents file) offset) else (false, file).

(** Reads a single data buffer from a file: [fread (dest, length, 1, file) == 1].
    [fread] returns 0 when [length] is 0 (a [size_t] is never negative), and
    when fewer than [length] bytes are left (it then has consumed what was
    left). *)
Definition fread_data (file : FILE) (length : Z) : option (list byte) * FILE :=
  let left := drop (Z.to_nat (position file)) (contents file) in
  if length <=? 0 then (None, file)
  else if length <=? Z.of_nat (List.length left)
  then (Some (take (Z.to_nat length) left),
        mk_FILE (contents file) (position file + length))
  else (None, mk_FILE (contents file) (Z.max (position file) (st_size file))).

(** The value of four bytes read into a [uint32_t] (little-endian). *)
Definition uint32_of_bytes (bs : list byte) : Z :=
  foldr (fun b acc => Z.of_N (Byte.to_N b) + 256 * acc) 0 bs.

Definition byte_of_Z (v : Z) : byte :=
  default x00 (Byte.of_N (Z.to_N (v mod 256))).

(** The four bytes of a [uint32_t] in memory. *)
Definition bytes_of_uint32 (v : Z) : list byte :=
  [byte_of_Z v; byte_of_Z (v / 256); byte_of_Z (v / 65536); byte_of_Z (v / 16777216)].

(** Reads a single uint32 value from a file. *)
Definition fread_uint32 (file : FILE) : option Z * FILE :=
  let '(r, file) := fread_data file 4 in (uint32_of_bytes <$> r, file).

(** Reads a single string value from a file. *)
Definition fread_string (file : FILE) (length : Z) : option string * FILE :=
  let '(r, file) := fread_data file length in
  (String.string_of_list_byte <$> r, file).

(** A [FILE] opened for writing: what has been written so far.
    [fwrite (data, length, 1, file) == 1] fails when [length] is 0. *)
Definition fwrite_data (file : list byte) (data : list byte) (length : Z)
    : bool * list byte :=
  if length <=? 0 then (false, file)
  else (true, file ++ take (Z.to_nat length) data).

(** Writes a single string value to a file. *)
Definition fwrite_string (file : list byte) (value : string) : bool * list byte :=
  fwrite_data file (String.list_byte_of_string value) (Z.of_nat (String.length value)).

(** ** File data structures: the type registry *)

(** [enum ggml_type], in the order the table [type_from_ggml] lists it. *)
Inductive ggml_type :=
| GGML_TYPE_F32 | GGML_TYPE_F16
| GGML_TYPE_Q4_0 | GGML_TYPE_Q4_1 | GGML_TYPE_Q4_2 | GGML_TYPE_Q4_3
| GGML_TYPE_Q5_0 | GGML_TYPE_Q5_1 | GGML_TYPE_Q8_0 | GGML_TYPE_Q8_1
| GGML_TYPE_I8 | GGML_TYPE_I16 | GGML_TYPE_I32
| GGML_TYPE_COUNT.

#[global] Instance ggml_type_eq_dec : EqDecision ggml_type.
Proof. solve_decision. Defined.

Definition GGML_TYPE_UNKNOWN : ggml_type := GGML_TYPE_COUNT.

(** [ggml_is_quantized], as the backend defines it: the block formats. *)
Definition ggml_is_quantized (type : ggml_type) : bool :=
  match type with
  | GGML_TYPE_Q4_0 | GGML_TYPE_Q4_1 | GGML_TYPE_Q4_2 | GGML_TYPE_Q4_3
  | GGML_TYPE_Q5_0 | GGML_TYPE_Q5_1 | GGML_TYPE_Q8_0 | GGML_TYPE_Q8_1 => true
  | _ => false
  end.

(** [enum rwkv_type]: the on-disk type codes. *)
Definition TYPE_F32 : Z := 0.
Definition TYPE_F16 : Z := 1.
Definition TYPE_Q4_0 : Z := 2.
Definition TYPE_Q4_1 : Z := 3.
Definition TYPE_Q4_1_O : Z := 4.
Definition TYPE_Q4_2 : Z := 5.
Definition TYPE_Q4_3 : Z := 6.
Definition TYPE_Q5_0 : Z := 7.
Definition TYPE_Q5_1 : Z := 8.
Definition TYPE_Q8_0 : Z := 9.
Definition TYPE_COUNT : Z := 10.
Definition TYPE_UNKNOWN : Z := TYPE_COUNT.

(** The table [type_to_ggml[TYPE_COUNT + 1]]. *)
Definition type_to_ggml_table : list ggml_type :=
  [ GGML_TYPE_F32; GGML_TYPE_F16; GGML_TYPE_Q4_0; GGML_TYPE_Q4_1;
    GGML_TYPE_UNKNOWN; GGML_TYPE_UNKNOWN; GGML_TYPE_UNKNOWN;
    GGML_TYPE_Q5_0; GGML_TYPE_Q5_1; GGML_TYPE_Q8_0; GGML_TYPE_COUNT ].

(** [type_to_ggml[type]]; the code indexes the table only below its length. *)
Definition type_to_ggml (type : Z) : ggml_type :=
  default GGML_TYPE_COUNT (type_to_ggml_table !! Z.to_nat type).

(** The table [type_to_string[TYPE_COUNT]]. *)
Definition type_to_string_table : list string :=
  ["f32"; "f16"; "Q4_0"; "Q4_1"; "Q4_1_O"; "Q4_2"; "Q4_3"; "Q5_0"; "Q5_1"; "Q8_0"].

Definition type_to_string (type : Z) : string :=
  default EmptyString (type_to_string_table !! Z.to_nat type).

(** [type_from_string]: the first ordinal whose name is [str], else
    [TYPE_UNKNOWN]. *)
Fixpoint type_from_string_loop (str : string) (ord : Z) (names : list string) : Z :=
  match names with
  | [] => TYPE_UNKNOWN
  | name :: names =>
      if String.eqb str name then ord else type_from_string_loop str (ord + 1) names
  end.

Definition type_from_string (str : string) : Z :=
  type_from_string_loop str 0 type_to_string_table.

(** ** File data structures: the file header *)

Module file_header.
Record t := mk {
  magic : Z;
  version : Z;
  n_vocab : Z;
  n_embed : Z;
  n_layer : Z;
  data_type : Z
}.

(** [sizeof (struct file_header)] *)
Definition sizeof : Z := 24.

(** The structure as the bytes read over it. *)
Definition of_bytes (bs : list byte) : t :=
  mk (uint32_of_bytes (take 4 bs))
     (uint32_of_bytes (take 4 (drop 4 bs)))
     (uint32_of_bytes (take 4 (drop 8 bs)))
     (uint32_of_bytes (take 4 (drop 12 bs)))
     (uint32_of_bytes (take 4 (drop 16 bs)))
     (uint32_of_bytes (take 4 (drop 20 bs))).

Definition to_bytes (h : t) : list byte :=
  bytes_of_uint32 (magic h) ++ bytes_of_uint32 (version h)
  ++ bytes_of_uint32 (n_vocab h) ++ bytes_of_uint32 (n_embed h)
  ++ bytes_of_uint32 (n_layer h) ++ bytes_of_uint32 (data_type h).
End file_header.

Module tensor_header.
Record t := mk {
  dim_count : Z;
  key_length : Z;
  data_type : Z;
  width : Z;
  height : Z
}.

(** [sizeof (struct tensor_header)] *)
Definition sizeof : Z := 20.

(** The first four fields as the bytes read over them; [height] is set by
    the reader. *)
Definition of_bytes (bs : list byte) (height : Z) : t :=
  mk (uint32_of_bytes (take 4 bs))
     (uint32_of_bytes (take 4 (drop 4 bs)))
     (uint32_of_bytes (take 4 (drop 8 bs)))
     (uint32_of_bytes (take 4 (drop 12 bs)))
     height.

Definition to_bytes (h : t) : list byte :=
  bytes_of_uint32 (dim_count h) ++ bytes_of_uint32 (key_length h)
  ++ bytes_of_uint32 (data_type h) ++ bytes_of_uint32 (width h)
  ++ bytes_of_uint32 (height h).

Definition set_data_type (h : t) (type : Z) : t :=
  mk (dim_count h) (key_length h) type (width h) (height h).

Definition set_height (h : t) (v : Z) : t :=
  mk (dim_count h) (key_length h) (data_type h) (width h) v.
End tensor_header.

(** The two messages of [fread_file_header] about a data type that cannot
    be loaded (escapes are kept as the source writes them). *)
Definition format_removed_message (data_type : Z) : printed :=
  fprintf
    ("Models in %s format cannot be loaded anymore because the format was removed.\n"
     +:+ "You need to quantize the model into another format or use an older version of rwkv.cpp.\n"
     +:+ "See https://github.com/saharNooby/rwkv.cpp#compatibility for more info")
    [arg_str (type_to_string data_type)].

Definition old_quantizer_message (data_type : Z) : printed :=
  fprintf
    ("The quantized model file in %s format was created with an old version of rwkv.cpp and can not be loaded anymore.\n"
     +:+ "You need to requantize the model or use an older version of rwkv.cpp.\n"
     +:+ "See https://github.com/saharNooby/rwkv.cpp#compatibility for more info")
    [arg_str (type_to_string data_type)].

Section Codec.
Context `{!rwkv_h}.

Definition is_file_version_in_range (version : Z) : bool :=
  (RWKV_FILE_VERSION_MIN <=? version) && (version <=? RWKV_FILE_VERSION_MAX).

(** [fread_file_header (file, header, verify_data_type)].  The result is
    [Some header] when the C++ function returns [true]. *)
Definition fread_file_header (file : FILE) (verify_data_type : bool)
    (g : rwkv_globals) : option file_header.t * FILE * rwkv_globals :=
  match fread_data file file_header.sizeof with
  | (None, file) => (None, file, RWKV_ASSERT_fails RWKV_ERROR_FILE_READ g)
  | (Some bytes, file) =>
    let header := file_header.of_bytes bytes in
    if negb (file_header.magic header =? RWKV_FILE_MAGIC) then
      (None, file, RWKV_ASSERT_fails RWKV_ERROR_FILE_MAGIC g)
    else if negb (is_file_version_in_range (file_header.version header)) then
      (None, file,
       RWKV_ASSERT_MSG_fails RWKV_ERROR_FILE_VERSION
         (fprintf "unsupported file version %d" [arg_int (file_header.version header)])
         241 "is_file_version_in_range(header.version)" g)
    else if negb (file_header.data_type header <? TYPE_COUNT) then
      (None, file,
       RWKV_ASSERT_MSG_fails RWKV_ERROR_DATA_TYPE
         (fprintf "model data type out of range (%d > %d)"
            [arg_int (file_header.data_type header); arg_int (TYPE_COUNT - 1)])
         242 "header.data_type < TYPE_COUNT" g)
    else if verify_data_type then
      let ggml_type := type_to_ggml (file_header.data_type header) in
      if negb (bool_decide (ggml_type ≠ GGML_TYPE_UNKNOWN)) then
        (None, file,
         RWKV_ASSERT_MSG_fails RWKV_ERROR_DATA_TYPE
           (format_removed_message (file_header.data_type header))
           247 "ggml_type != GGML_TYPE_UNKNOWN" g)
      else if negb (negb (ggml_is_quantized ggml_type)
                    || (file_header.version header =? RWKV_FILE_VERSION_1)) then
        (None, file,
         RWKV_ASSERT_MSG_fails RWKV_ERROR_DATA_TYPE
           (old_quantizer_message (file_header.data_type header))
           256 "(!ggml_is_quantized(ggml_type) || header.version == RWKV_FILE_VERSION_1)" g)
      else (Some header, file, g)
    else (Some header, file, g)
  end.

Definition fwrite_file_header (file : list byte) (header : file_header.t)
    (g : rwkv_globals) : bool * list byte * rwkv_globals :=
  match fwrite_data file (file_header.to_bytes header) file_header.sizeof with
  | (false, file) => (false, file, RWKV_ASSERT_fails RWKV_ERROR_FILE_WRITE g)
  | (true, file) => (true, file, g)
  end.

(** [fread_tensor_header (file, header)] *)
Definition fread_tensor_header (file : FILE) (g : rwkv_globals)
    : option tensor_header.t * FILE * rwkv_globals :=
  match fread_data file (tensor_header.sizeof - 4) with
  | (None, file) => (None, file, RWKV_ASSERT_fails RWKV_ERROR_FILE_READ g)
  | (Some bytes, file) =>
    let header := tensor_header.of_bytes bytes 1 in
    if negb ((tensor_header.dim_count header =? 1)
             || (tensor_header.dim_count header =? 2)) then
      (None, file,
       RWKV_ASSERT_MSG_fails RWKV_ERROR_SHAPE
         (fprintf "tensor has an invalid shape (%d dimensions)"
            [arg_int (tensor_header.dim_count header)])
         285 "header.dim_count == 1 || header.dim_count == 2" g)
    else if negb (tensor_header.data_type header <? TYPE_COUNT) then
      (None, file,
       RWKV_ASSERT_MSG_fails RWKV_ERROR_DATA_TYPE
         (fprintf "tensor data type out of range (%d > %d)"
            [arg_int (tensor_header.data_type header); arg_int (TYPE_COUNT - 1)])
         286 "header.data_type < TYPE_COUNT" g)
    else if negb (bool_decide
                    (type_to_ggml (tensor_header.data_type header) ≠ GGML_TYPE_UNKNOWN)) then
      (None, file,
       RWKV_ASSERT_MSG_fails RWKV_ERROR_DATA_TYPE
         (fprintf "tensor data type (%s) is no longer supported"
            [arg_str (type_to_string (tensor_header.data_type header))])
         287 "type_to_ggml[header.data_type] != GGML_TYPE_UNKNOWN" g)
    else if tensor_header.dim_count header =? 2 then
      match fread_uint32 file with
      | (None, file) => (None, file, RWKV_ASSERT_fails RWKV_ERROR_FILE_READ g)
      | (Some height, file) => (Some (tensor_header.set_height header height), file, g)
      end
    else (Some header, file, g)
  end.

(** [fwrite_tensor_header]: the [height] field is left out of a 1-D record. *)
Definition fwrite_tensor_header (file : list byte) (header : tensor_header.t)
    (g : rwkv_globals) : bool * list byte * rwkv_globals :=
  match fwrite_data file (tensor_header.to_bytes header)
          (tensor_header.sizeof
           - (if tensor_header.dim_count header =? 1 then 4 else 0)) with
  | (false, file) => (false, file, RWKV_ASSERT_fails RWKV_ERROR_FILE_WRITE g)
  | (true, file) => (true, file, g)
  end.

End Codec.

(** ** The tensor backend

    What [rwkv.cpp] uses of ggml.  Single-precision numbers are an abstract
    type with the operations the code applies to them; no property of the
    arithmetic is assumed.  The kernels whose results depend on the storage
    format (normalisation, dot product, decoding of stored parameters,
    half-to-float conversion, block quantization) are operations of the
    backend as well. *)

Class ggml_backend := {
  float : Type;
  f_zero : float;     (* 0.0F *)
  f_one : float;      (* 1.0F *)
  f_neg_1e30 : float; (* -1e30f *)
  fadd : float -> float -> float;
  fsub : float -> float -> float;
  fmul : float -> float -> float;
  fdiv : float -> float -> float;
  fneg : float -> float;
  expf : float -> float;
  fmaxf : float -> float -> float;
  (* ggml's relu on one element *)
  f_relu : float -> float;
  (* ggml_norm on one row: (x - mean) / sqrt (variance + eps) *)
  ggml_norm_row : list float -> list float;
  (* the dot product of a stored row with an activation row *)
  ggml_vec_dot : list float -> list float -> float;
  (* the numbers a stored tensor of a given type holds *)
  ggml_to_float : ggml_type -> list byte -> list float;
  (* ggml_nbytes of a tensor of a block-quantized type with ne[0] and ne[1];
     a size_t, so never negative *)
  ggml_quantized_nbytes : ggml_type -> Z -> Z -> Z;
  ggml_quantized_nbytes_nonneg :
    forall type ne0 ne1, 0 <= ggml_quantized_nbytes type ne0 ne1;
  (* ggml_fp16_to_fp32_row (x, y, n): the buffer y after the call *)
  ggml_fp16_to_fp32_row : list byte -> list byte -> Z -> list byte;
  (* ggml_quantize_chunk (type, src, dst, start, n, hist): the buffer dst and
     the histogram after the call *)
  ggml_quantize_chunk :
    ggml_type -> list byte -> list byte -> Z -> Z -> list Z -> list byte * list Z
}.

(** A function pointer handed to [ggml_map_unary_f32] or
    [ggml_map_binary_f32] is the function it points to. *)
Inductive ggml_unary_op_f32_t :=
| ptr_rwkv_exp_impl | ptr_rwkv_1_minus_x_impl | ptr_rwkv_sigmoid_impl.

Inductive ggml_binary_op_f32_t :=
| ptr_rwkv_max_impl.

(** [struct ggml_tensor *]: a node of the compute graph.  A tensor made by
    [ggml_new_tensor_1d] or [ggml_new_tensor_2d] owns data in the context and
    is named by the index of its object there; every other node is the
    operation that made it, applied to its sources. *)
Inductive ggml_tensor :=
| ggml_null
| ggml_new_tensor (object : nat) (type : ggml_type) (n_dims : Z) (ne0 ne1 : Z)
| ggml_view_1d (a : ggml_tensor) (ne0 : Z) (offset : Z)
| ggml_get_rows (a b : ggml_tensor)
| ggml_norm (a : ggml_tensor)
| ggml_add (a b : ggml_tensor)
| ggml_add_inplace (a b : ggml_tensor)
| ggml_sub (a b : ggml_tensor)
| ggml_mul (a b : ggml_tensor)
| ggml_div (a b : ggml_tensor)
| ggml_mul_mat (a b : ggml_tensor)
| ggml_relu (a : ggml_tensor)
| ggml_sqr (a : ggml_tensor)
| ggml_map_unary_f32 (a : ggml_tensor) (fun_ : ggml_unary_op_f32_t)
| ggml_map_binary_f32 (a b : ggml_tensor) (fun_ : ggml_binary_op_f32_t).

(** [tensor->ne[0]] *)
Fixpoint ggml_ne0 (t : ggml_tensor) : Z :=
  match t with
  | ggml_null => 0
  | ggml_new_tensor _ _ _ ne0 _ => ne0
  | ggml_view_1d _ ne0 _ => ne0
  | ggml_get_rows a _ => ggml_ne0 a
  | ggml_mul_mat a _ => ggml_ne1 a
  | ggml_norm a | ggml_relu a | ggml_sqr a | ggml_map_unary_f32 a _ => ggml_ne0 a
  | ggml_add a _ | ggml_add_inplace a _ | ggml_sub a _ | ggml_mul a _
  | ggml_div a _ | ggml_map_binary_f32 a _ _ => ggml_ne0 a
  end
with ggml_ne1 (t : ggml_tensor) : Z :=
  match t with
  | ggml_null => 0
  | ggml_new_tensor _ _ _ _ ne1 => ne1
  | ggml_view_1d _ _ _ => 1
  | ggml_get_rows _ b => ggml_ne0 b
  | ggml_mul_mat _ b => ggml_ne1 b
  | ggml_norm a | ggml_relu a | ggml_sqr a | ggml_map_unary_f32 a _ => ggml_ne1 a
  | ggml_add a _ | ggml_add_inplace a _ | ggml_sub a _ | ggml_mul a _
  | ggml_div a _ | ggml_map_binary_f32 a _ _ => ggml_ne1 a
  end.

(** [tensor->n_dims] of a tensor that owns its data. *)
Definition ggml_n_dims (t : ggml_tensor) : Z :=
  match t with
  | ggml_new_tensor _ _ n_dims _ _ => n_dims
  | _ => 0
  end.

(** ** Model definition *)

Module rwkv_layer.
Record t := mk {
  ln1_weight : ggml_tensor;
  ln1_bias : ggml_tensor;
  (* RWKV, also called "attention" by the author. *)
  att_time_mix_k : ggml_tensor;
  att_time_mix_v : ggml_tensor;
  att_time_mix_r : ggml_tensor;
  att_time_first : ggml_tensor;
  att_time_decay : ggml_tensor;
  att_key : ggml_tensor;
  att_value : ggml_tensor;
  att_receptance : ggml_tensor;
  att_output : ggml_tensor;
  ln2_weight : ggml_tensor;
  ln2_bias : ggml_tensor;
  (* FFN. *)
  ffn_time_mix_k : ggml_tensor;
  ffn_time_mix_r : ggml_tensor;
  ffn_key : ggml_tensor;
  ffn_value : ggml_tensor;
  ffn_receptance : ggml_tensor;
  (* Output state parts *)
  ffn_xx : ggml_tensor;
  att_xx : ggml_tensor;
  att_aa : ggml_tensor;
  att_bb : ggml_tensor;
  att_pp : ggml_tensor
}.

(** [new struct rwkv_layer]: no field set. *)
Definition unset : t :=
  mk ggml_null ggml_null ggml_null ggml_null ggml_null ggml_null ggml_null
     ggml_null ggml_null ggml_null ggml_null ggml_null ggml_null ggml_null
     ggml_null ggml_null ggml_null ggml_null ggml_null ggml_null ggml_null
     ggml_null ggml_null.

(** Assignments to the five state parts. *)
Definition set_ffn_xx (l : t) (v : ggml_tensor) : t :=
  mk (ln1_weight l) (ln1_bias l) (att_time_mix_k l) (att_time_mix_v l)
     (att_time_mix_r l) (att_time_first l) (att_time_decay l) (att_key l)
     (att_value l) (att_receptance l) (att_output l) (ln2_weight l) (ln2_bias l)
     (ffn_time_mix_k l) (ffn_time_mix_r l) (ffn_key l) (ffn_value l)
     (ffn_receptance l) v (att_xx l) (att_aa l) (att_bb l) (att_pp l).

Definition set_att_xx (l : t) (v : ggml_tensor) : t :=
  mk (ln1_weight l) (ln1_bias l) (att_time_mix_k l) (att_time_mix_v l)
     (att_time_mix_r l) (att_time_first l) (att_time_decay l) (att_key l)
     (att_value l) (att_receptance l) (att_output l) (ln2_weight l) (ln2_bias l)
     (ffn_time_mix_k l) (ffn_time_mix_r l) (ffn_key l) (ffn_value l)
     (ffn_receptance l) (ffn_xx l) v (att_aa l) (att_bb l) (att_pp l).

Definition set_att_aa (l : t) (v : ggml_tensor) : t :=
  mk (ln1_weight l) (ln1_bias l) (att_time_mix_k l) (att_time_mix_v l)
     (att_time_mix_r l) (att_time_first l) (att_time_decay l) (att_key l)
     (att_value l) (att_receptance l) (att_output l) (ln2_weight l) (ln2_bias l)
     (ffn_time_mix_k l) (ffn_time_mix_r l) (ffn_key l) (ffn_value l)
     (ffn_receptance l) (ffn_xx l) (att_xx l) v (att_bb l) (att_pp l).

Definition set_att_bb (l : t) (v : ggml_tensor) : t :=
  mk (ln1_weight l) (ln1_bias l) (att_time_mix_k l) (att_time_mix_v l)
     (att_time_mix_r l) (att_time_first l) (att_time_decay l) (att_key l)
     (att_value l) (att_receptance l) (att_output l) (ln2_weight l) (ln2_bias l)
     (ffn_time_mix_k l) (ffn_time_mix_r l) (ffn_key l) (ffn_value l)
     (ffn_receptance l) (ffn_xx l) (att_xx l) (att_aa l) v (att_pp l).

Definition set_att_pp (l : t) (v : ggml_tensor) : t :=
  mk (ln1_weight l) (ln1_bias l) (att_time_mix_k l) (att_time_mix_v l)
     (att_time_mix_r l) (att_time_first l) (att_time_decay l) (att_key l)
     (att_value l) (att_receptance l) (att_output l) (ln2_weight l) (ln2_bias l)
     (ffn_time_mix_k l) (ffn_time_mix_r l) (ffn_key l) (ffn_value l)
     (ffn_receptance l) (ffn_xx l) (att_xx l) (att_aa l) (att_bb l) v.
End rwkv_layer.

Module rwkv_model.
Record t := mk {
  header : file_header.t;
  emb : ggml_tensor;
  ln0_weight : ggml_tensor;
  ln0_bias : ggml_tensor;
  layers : list rwkv_layer.t;
  ln_out_weight : ggml_tensor;
  ln_out_bias : ggml_tensor;
  head : ggml_tensor
}.
End rwkv_model.

(** ** Operators *)

Section Operators.
Context `{!ggml_backend}.

#[global] Instance float_inhabited : Inhabited float := populate f_zero.

(** [for (int i = 0; i < n_cols; i++) dest[i] = ...] *)
Definition for_cols (n_cols : Z) (body : nat -> float) (dest : list float) : list float :=
  foldl (fun dest i => <[i := body i]> dest) dest (seq 0 (Z.to_nat n_cols)).

Definition rwkv_exp_impl (n_cols : Z) (dest src : list float) : list float :=
  for_cols n_cols (fun i => expf (src !!! i)) dest.

Definition rwkv_1_minus_x_impl (n_cols : Z) (dest src : list float) : list float :=
  for_cols n_cols (fun i => fsub f_one (src !!! i)) dest.

Definition rwkv_sigmoid_impl (n_cols : Z) (dest src : list float) : list float :=
  for_cols n_cols (fun i => fdiv f_one (fadd f_one (expf (fneg (src !!! i))))) dest.

Definition rwkv_max_impl (n_cols : Z) (dest src0 src1 : list float) : list float :=
  for_cols n_cols (fun i => fmaxf (src0 !!! i) (src1 !!! i)) dest.

End Operators.

Definition rwkv_exp (x : ggml_tensor) : ggml_tensor :=
  ggml_map_unary_f32 x ptr_rwkv_exp_impl.

Definition rwkv_1_minus_x (x : ggml_tensor) : ggml_tensor :=
  ggml_map_unary_f32 x ptr_rwkv_1_minus_x_impl.

Definition rwkv_sigmoid (x : ggml_tensor) : ggml_tensor :=
  ggml_map_unary_f32 x ptr_rwkv_sigmoid_impl.

Definition rwkv_max (x y : ggml_tensor) : ggml_tensor :=
  ggml_map_binary_f32 x y ptr_rwkv_max_impl.

(** LayerNorm in RWKV is [x = (x - mean(x)) / sqrt(variance(x) + 1e-5) * weight + bias];
    [ggml_norm] does the first part. *)
Definition rwkv_layer_norm (x weight bias : ggml_tensor) : ggml_tensor :=
  ggml_add_inplace (ggml_mul (ggml_norm x) weight) bias.

(** ** Implementation: the graph *)

Module rwkv_graph.
Record t := mk {
  input_state : ggml_tensor;
  output_state : list ggml_tensor;
  token_index : ggml_tensor;
  logits : ggml_tensor;
  (* the graph: its thread count and the tensors it was expanded from *)
  cgraph_n_threads : Z;
  cgraph : list ggml_tensor
}.
End rwkv_graph.

(** [rwkv_single_att (ctx, x, layer)]: the result and [layer] as the
    function leaves it. *)
Definition rwkv_single_att (x : ggml_tensor) (layer : rwkv_layer.t)
    : ggml_tensor * rwkv_layer.t :=
  (* self.layer_norm(x, self.w.blocks[i].ln1) *)
  let x0 := rwkv_layer_norm x (rwkv_layer.ln1_weight layer) (rwkv_layer.ln1_bias layer) in
  (* xk = x * time_mix_k + state[5 * i + 1] * (1 - time_mix_k) *)
  let xk := ggml_add_inplace
              (ggml_mul x0 (rwkv_layer.att_time_mix_k layer))
              (ggml_mul (rwkv_layer.att_xx layer)
                 (rwkv_1_minus_x (rwkv_layer.att_time_mix_k layer))) in
  (* xv = x * time_mix_v + state[5 * i + 1] * (1 - time_mix_v) *)
  let xv := ggml_add_inplace
              (ggml_mul x0 (rwkv_layer.att_time_mix_v layer))
              (ggml_mul (rwkv_layer.att_xx layer)
                 (rwkv_1_minus_x (rwkv_layer.att_time_mix_v layer))) in
  (* xr = x * time_mix_r + state[5 * i + 1] * (1 - time_mix_r) *)
  let xr := ggml_add_inplace
              (ggml_mul x0 (rwkv_layer.att_time_mix_r layer))
              (ggml_mul (rwkv_layer.att_xx layer)
                 (rwkv_1_minus_x (rwkv_layer.att_time_mix_r layer))) in
  (* r = torch.sigmoid(rw @ xr) *)
  let r := rwkv_sigmoid (ggml_mul_mat (rwkv_layer.att_receptance layer) xr) in
  (* k = kw @ xk *)
  let k := ggml_mul_mat (rwkv_layer.att_key layer) xk in
  (* v = vw @ xv *)
  let v := ggml_mul_mat (rwkv_layer.att_value layer) xv in
  (* ww = time_first + k *)
  let ww := ggml_add (rwkv_layer.att_time_first layer) k in
  (* qq = torch.maximum(pp, ww) *)
  let qq := rwkv_max (rwkv_layer.att_pp layer) ww in
  (* e1 = torch.exp(pp - qq) *)
  let e1 := rwkv_exp (ggml_sub (rwkv_layer.att_pp layer) qq) in
  (* e2 = torch.exp(ww - qq) *)
  let e2 := rwkv_exp (ggml_sub ww qq) in
  (* a = e1 * aa + e2 * v *)
  let a := ggml_add_inplace (ggml_mul e1 (rwkv_layer.att_aa layer)) (ggml_mul e2 v) in
  (* b = e1 * bb + e2 *)
  let b := ggml_add_inplace (ggml_mul e1 (rwkv_layer.att_bb layer)) e2 in
  (* ww = pp + time_decay *)
  let ww := ggml_add (rwkv_layer.att_pp layer) (rwkv_layer.att_time_decay layer) in
  (* qq = torch.maximum(ww, k) *)
  let qq := rwkv_max ww k in
  (* e1 = torch.exp(ww - qq) *)
  let e1 := rwkv_exp (ggml_sub ww qq) in
  (* e2 = torch.exp(k - qq) *)
  let e2 := rwkv_exp (ggml_sub k qq) in
  (* state[5 * i + 1] = x0
     state[5 * i + 2] = e1 * aa + e2 * v
     state[5 * i + 3] = e1 * bb + e2
     state[5 * i + 4] = qq *)
  let layer := rwkv_layer.set_att_xx layer x0 in
  let layer := rwkv_layer.set_att_aa layer
                 (ggml_add_inplace (ggml_mul e1 (rwkv_layer.att_aa layer)) (ggml_mul e2 v)) in
  let layer := rwkv_layer.set_att_bb layer
                 (ggml_add_inplace (ggml_mul e1 (rwkv_layer.att_bb layer)) e2) in
  let layer := rwkv_layer.set_att_pp layer qq in
  (* wkv = a / b *)
  let wkv := ggml_div a b in
  (* ow @ (r * wkv) *)
  (ggml_add_inplace x (ggml_mul_mat (rwkv_layer.att_output layer) (ggml_mul r wkv)), layer).

(** [rwkv_single_ffn (ctx, x, layer)] *)
Definition rwkv_single_ffn (x : ggml_tensor) (layer : rwkv_layer.t)
    : ggml_tensor * rwkv_layer.t :=
  (* self.layer_norm(x, self.w.blocks[i].ln2) *)
  let x0 := rwkv_layer_norm x (rwkv_layer.ln2_weight layer) (rwkv_layer.ln2_bias layer) in
  (* xk = x * time_mix_k + state[5 * i + 0] * (1 - time_mix_k) *)
  let xk := ggml_add_inplace
              (ggml_mul x0 (rwkv_layer.ffn_time_mix_k layer))
              (ggml_mul (rwkv_layer.ffn_xx layer)
                 (rwkv_1_minus_x (rwkv_layer.ffn_time_mix_k layer))) in
  (* xr = x * time_mix_r + state[5 * i + 0] * (1 - time_mix_r) *)
  let xr := ggml_add_inplace
              (ggml_mul x0 (rwkv_layer.ffn_time_mix_r layer))
              (ggml_mul (rwkv_layer.ffn_xx layer)
                 (rwkv_1_minus_x (rwkv_layer.ffn_time_mix_r layer))) in
  (* state[5 * i + 0] = x *)
  let layer := rwkv_layer.set_ffn_xx layer x0 in
  (* r = torch.sigmoid(rw @ xr) *)
  let r := rwkv_sigmoid (ggml_mul_mat (rwkv_layer.ffn_receptance layer) xr) in
  (* k = torch.square(torch.relu(kw @ xk)) *)
  let k := ggml_sqr (ggml_relu (ggml_mul_mat (rwkv_layer.ffn_key layer) xk)) in
  (* r * (vw @ k) *)
  (ggml_add_inplace x (ggml_mul r (ggml_mul_mat (rwkv_layer.ffn_value layer) k)), layer).

(** ** The backend context and what a graph computes *)

Section Backend.
Context `{!ggml_backend}.

(** The data a tensor owns: raw bytes as read from a model file, floats, or
    32-bit integers. *)
Inductive ggml_data :=
| data_bytes (bs : list byte)
| data_f32 (fs : list float)
| data_i32 (vs : list Z).

(** [struct ggml_context]: the number of tensors made in it by
    [ggml_new_tensor_1d] and [ggml_new_tensor_2d], their data (absent until
    written), and how many times [ggml_graph_compute] ran on it. *)
Record ggml_context := mk_ggml_context {
  ggml_objects : nat;
  ggml_mem : gmap nat ggml_data;
  ggml_graph_runs : nat
}.

(** [ggml_init] *)
Definition ggml_init : ggml_context := mk_ggml_context 0%nat ∅ 0%nat.

Definition ggml_new_tensor_1d (ctx : ggml_context) (type : ggml_type) (ne0 : Z)
    : ggml_tensor * ggml_context :=
  (ggml_new_tensor (ggml_objects ctx) type 1 ne0 1,
   mk_ggml_context (S (ggml_objects ctx)) (ggml_mem ctx) (ggml_graph_runs ctx)).

Definition ggml_new_tensor_2d (ctx : ggml_context) (type : ggml_type) (ne0 ne1 : Z)
    : ggml_tensor * ggml_context :=
  (ggml_new_tensor (ggml_objects ctx) type 2 ne0 ne1,
   mk_ggml_context (S (ggml_objects ctx)) (ggml_mem ctx) (ggml_graph_runs ctx)).

(** Writing [tensor->data] of a tensor that owns its data. *)
Definition ggml_store (ctx : ggml_context) (tensor : ggml_tensor) (d : ggml_data)
    : ggml_context :=
  match tensor with
  | ggml_new_tensor object _ _ _ _ =>
      mk_ggml_context (ggml_objects ctx) (<[object := d]> (ggml_mem ctx))
        (ggml_graph_runs ctx)
  | _ => ctx
  end.

(** [ggml_nbytes] of a tensor of a given type with [ne[0]] and [ne[1]]:
    the element size times the element count for [float], half and the
    integer types, the backend's block layout for the quantized ones. *)
Definition ggml_nbytes_of (type : ggml_type) (ne0 ne1 : Z) : Z :=
  match type with
  | GGML_TYPE_F32 | GGML_TYPE_I32 => 4 * (ne0 * ne1)
  | GGML_TYPE_F16 | GGML_TYPE_I16 => 2 * (ne0 * ne1)
  | GGML_TYPE_I8 => ne0 * ne1
  | _ => ggml_quantized_nbytes type ne0 ne1
  end.

(** [ggml_nbytes (tensor)] *)
Definition ggml_nbytes (tensor : ggml_tensor) : Z :=
  match tensor with
  | ggml_new_tensor _ type _ ne0 ne1 => ggml_nbytes_of type ne0 ne1
  | _ => ggml_nbytes_of GGML_TYPE_F32 (ggml_ne0 tensor) (ggml_ne1 tensor)
  end.

(** [ggml_graph_compute]: the values of the nodes are functions of the data
    the context holds (below); the call itself is counted. *)
Definition ggml_graph_compute (ctx : ggml_context) : ggml_context :=
  mk_ggml_context (ggml_objects ctx) (ggml_mem ctx) (S (ggml_graph_runs ctx)).

(** The function a pointer of [ggml_unary_op_f32_t] points to. *)
Definition call_unary (fun_ : ggml_unary_op_f32_t)
    : Z -> list float -> list float -> list float :=
  match fun_ with
  | ptr_rwkv_exp_impl => rwkv_exp_impl
  | ptr_rwkv_1_minus_x_impl => rwkv_1_minus_x_impl
  | ptr_rwkv_sigmoid_impl => rwkv_sigmoid_impl
  end.

Definition call_binary (fun_ : ggml_binary_op_f32_t)
    : Z -> list float -> list float -> list float -> list float :=
  match fun_ with
  | ptr_rwkv_max_impl => rwkv_max_impl
  end.

(** Row [i] of a tensor whose rows have [ne0] elements. *)
Definition ggml_row (data : list float) (ne0 : Z) (i : Z) : list float :=
  take (Z.to_nat ne0) (drop (Z.to_nat (i * ne0)) data).

(** The 32-bit integers a tensor holds. *)
Definition ggml_get_i32 (mem : gmap nat ggml_data) (t : ggml_tensor) : list Z :=
  match t with
  | ggml_new_tensor object _ _ _ _ =>
      match mem !! object with Some (data_i32 vs) => vs | _ => [] end
  | _ => []
  end.

(** The numbers in [tensor->data] once the graph has been computed, for
    the data [mem] the context holds.  Every tensor the graph maps or
    combines element by element is one row; an [_inplace] operation computes
    what the plain operation computes.  The destination row handed to a
    mapped function has the length of its source. *)
Fixpoint ggml_get_data (mem : gmap nat ggml_data) (t : ggml_tensor) : list float :=
  match t with
  | ggml_null => []
  | ggml_new_tensor object type _ _ _ =>
      match mem !! object with
      | Some (data_bytes bs) => ggml_to_float type bs
      | Some (data_f32 fs) => fs
      | _ => []
      end
  | ggml_view_1d a ne0 offset =>
      take (Z.to_nat ne0) (drop (Z.to_nat (offset / 4)) (ggml_get_data mem a))
  | ggml_get_rows a b =>
      concat (map (ggml_row (ggml_get_data mem a) (ggml_ne0 a)) (ggml_get_i32 mem b))
  | ggml_norm a => ggml_norm_row (ggml_get_data mem a)
  | ggml_add a b | ggml_add_inplace a b =>
      zip_with fadd (ggml_get_data mem a) (ggml_get_data mem b)
  | ggml_sub a b => zip_with fsub (ggml_get_data mem a) (ggml_get_data mem b)
  | ggml_mul a b => zip_with fmul (ggml_get_data mem a) (ggml_get_data mem b)
  | ggml_div a b => zip_with fdiv (ggml_get_data mem a) (ggml_get_data mem b)
  | ggml_mul_mat a b =>
      map (fun i => ggml_vec_dot (ggml_row (ggml_get_data mem a) (ggml_ne0 a) (Z.of_nat i))
                      (ggml_get_data mem b))
          (seq 0 (Z.to_nat (ggml_ne1 a)))
  | ggml_relu a => map f_relu (ggml_get_data mem a)
  | ggml_sqr a => map (fun x => fmul x x) (ggml_get_data mem a)
  | ggml_map_unary_f32 a fun_ =>
      let src := ggml_get_data mem a in
      call_unary fun_ (Z.of_nat (length src)) (replicate (length src) f_zero) src
  | ggml_map_binary_f32 a b fun_ =>
      let src0 := ggml_get_data mem a in
      call_binary fun_ (Z.of_nat (length src0)) (replicate (length src0) f_zero)
        src0 (ggml_get_data mem b)
  end.

(** [rwkv_single_graph (ctx, model, n_threads, out)].  The two allocations
    with [new (std::nothrow)] are taken to succeed. *)
Definition rwkv_single_graph_layer (model : rwkv_model.t) (input_state : ggml_tensor)
    (n_embed output_part_size : Z) (i : nat)
    (acc : ggml_tensor * list ggml_tensor) : ggml_tensor * list ggml_tensor :=
  let '(x, output_state) := acc in
  let layer := default rwkv_layer.unset (rwkv_model.layers model !! i) in
  let state_index := (Z.of_nat i * 5)%Z in
  let layer := rwkv_layer.set_ffn_xx layer
    (ggml_view_1d input_state n_embed (output_part_size * (state_index + 0))) in
  let layer := rwkv_layer.set_att_xx layer
    (ggml_view_1d input_state n_embed (output_part_size * (state_index + 1))) in
  let layer := rwkv_layer.set_att_aa layer
    (ggml_view_1d input_state n_embed (output_part_size * (state_index + 2))) in
  let layer := rwkv_layer.set_att_bb layer
    (ggml_view_1d input_state n_embed (output_part_size * (state_index + 3))) in
  let layer := rwkv_layer.set_att_pp layer
    (ggml_view_1d input_state n_embed (output_part_size * (state_index + 4))) in
  let '(x, layer) := rwkv_single_att x layer in
  let '(x, layer) := rwkv_single_ffn x layer in
  let output_state := <[Z.to_nat (state_index + 0) := rwkv_layer.ffn_xx layer]> output_state in
  let output_state := <[Z.to_nat (state_index + 1) := rwkv_layer.att_xx layer]> output_state in
  let output_state := <[Z.to_nat (state_index + 2) := rwkv_layer.att_aa layer]> output_state in
  let output_state := <[Z.to_nat (state_index + 3) := rwkv_layer.att_bb layer]> output_state in
  let output_state := <[Z.to_nat (state_index + 4) := rwkv_layer.att_pp layer]> output_state in
  (x, output_state).

Definition rwkv_single_graph (ctx : ggml_context) (model : rwkv_model.t) (n_threads : Z)
    : rwkv_graph.t * ggml_context :=
  let n_embed := file_header.n_embed (rwkv_model.header model) in
  let n_layer := file_header.n_layer (rwkv_model.header model) in
  let '(input_state, ctx) := ggml_new_tensor_1d ctx GGML_TYPE_F32 (n_layer * 5 * n_embed) in
  (* We collect parts of new state here. Each part is (n_embed) vector. *)
  let output_state := replicate (Z.to_nat (n_layer * 5)) ggml_null in
  let output_part_size := n_embed * 4 in
  (* x = self.w.emb.weight[token] *)
  let '(token_index, ctx) := ggml_new_tensor_1d ctx GGML_TYPE_I32 1 in
  let x := ggml_get_rows (rwkv_model.emb model) token_index in
  (* x = self.layer_norm(x, self.w.blocks[0].ln0) *)
  let x := rwkv_layer_norm x (rwkv_model.ln0_weight model) (rwkv_model.ln0_bias model) in
  let '(x, output_state) :=
    foldl (fun acc i =>
             rwkv_single_graph_layer model input_state n_embed output_part_size i acc)
          (x, output_state) (seq 0 (Z.to_nat n_layer)) in
  (* x = self.layer_norm(x, self.w.ln_out) *)
  let x := rwkv_layer_norm x (rwkv_model.ln_out_weight model) (rwkv_model.ln_out_bias model) in
  (* x = (self.w.head.weight @ x).float() *)
  let logits := ggml_mul_mat (rwkv_model.head model) x in
  (rwkv_graph.mk input_state output_state token_index logits n_threads
     (logits :: output_state),
   ctx).

End Backend.

(** ** The context *)

Module rwkv_context.
Section Defs.
Context `{!ggml_backend}.

(** [struct rwkv_context]; the scratch buffer it owns carries no data of
    its own and is left out. *)
Record t := mk {
  model : rwkv_model.t;
  ctx : ggml_context;
  graph : rwkv_graph.t;
  last_error : Z;
  print_errors : bool
}.

Definition set_last_error (c : t) (value : Z) : t :=
  mk (model c) (ctx c) (graph c) value (print_errors c).

Definition set_print_errors (c : t) (value : bool) : t :=
  mk (model c) (ctx c) (graph c) (last_error c) value.

Definition set_ctx (c : t) (value : ggml_context) : t :=
  mk (model c) value (graph c) (last_error c) (print_errors c).

End Defs.
End rwkv_context.

Section Api.
Context `{!rwkv_h, !ggml_backend}.

(** [fprintf (stderr, ...)] *)
Definition print_stderr (msg : printed) (g : rwkv_globals) : rwkv_globals :=
  mk_globals (global_last_error g) (global_print_errors g) (stderr g ++ [msg]) (stdout g).

(** [RWKV_CTX_MSG (ctx, ...)] *)
Definition RWKV_CTX_MSG (ctx : rwkv_context.t) (msg : printed) (g : rwkv_globals)
    : rwkv_globals :=
  if rwkv_context.print_errors ctx then print_stderr msg g else g.

(** The failing branch of [RWKV_CTX_ASSERT_MSG]: adds [ERR_VAL] to the
    context's last error and prints the message, then the location. *)
Definition RWKV_CTX_ASSERT_MSG_fails (ctx : rwkv_context.t) (ERR_VAL : Z)
    (msg : printed) (line : Z) (condition : string) (g : rwkv_globals)
    : rwkv_context.t * rwkv_globals :=
  let ctx := rwkv_context.set_last_error ctx (Z.lor (rwkv_context.last_error ctx) ERR_VAL) in
  (ctx, RWKV_CTX_MSG ctx (location line condition) (RWKV_CTX_MSG ctx msg g)).

(** [rwkv_set_print_errors (ctx, print_errors)]; [ctx = None] is the null
    pointer. *)
Definition rwkv_set_print_errors (ctx : option rwkv_context.t) (print_errors : bool)
    (g : rwkv_globals) : option rwkv_context.t * rwkv_globals :=
  match ctx with
  | Some c => (Some (rwkv_context.set_print_errors c print_errors), g)
  | None => (None, mk_globals (global_last_error g) print_errors (stderr g) (stdout g))
  end.

Definition rwkv_get_print_errors (ctx : option rwkv_context.t) (g : rwkv_globals) : bool :=
  match ctx with
  | Some c => rwkv_context.print_errors c
  | None => global_print_errors g
  end.

(** [rwkv_get_last_error (ctx)]: the value returned, and the context and the
    thread's variables after the call. *)
Definition rwkv_get_last_error (ctx : option rwkv_context.t) (g : rwkv_globals)
    : Z * option rwkv_context.t * rwkv_globals :=
  match ctx with
  | Some c =>
      let value := rwkv_context.last_error c in
      (value, Some (rwkv_context.set_last_error c RWKV_ERROR_NONE), g)
  | None =>
      let value := global_last_error g in
      (value, None, global_set_error RWKV_ERROR_NONE g)
  end.

(** A [uint32_t] stored into an [int32_t]. *)
Definition as_int32 (v : Z) : Z := if v <? 2147483648 then v else v - 4294967296.

(** [memcpy (dest + offset, src, ...)] on arrays of [float]; the caller's
    array is taken to be large enough. *)
Definition memcpy_at (dest : list float) (offset : Z) (src : list float) : list float :=
  take (Z.to_nat offset) dest ++ src
  ++ drop (Z.to_nat offset + length src) dest.

(** [for (cur = data + start, end = cur + n_embed; cur < end; *cur++ = -1e30f);] *)
Definition fill_att_pp (n_embed : Z) (start : Z) (data : list float) : list float :=
  foldl (fun data j => <[(Z.to_nat start + j)%nat := f_neg_1e30]> data) data
        (seq 0 (Z.to_nat n_embed)).

(** The branch [state_in == NULL] of [rwkv_eval]: [ggml_set_f32] to zero,
    then the loop over the layers. *)
Definition fresh_input_state (header : file_header.t) (input_state : ggml_tensor)
    : list float :=
  let data := replicate (Z.to_nat (ggml_ne0 input_state * ggml_ne1 input_state)) f_zero in
  foldl (fun data layer =>
           fill_att_pp (file_header.n_embed header)
             (file_header.n_embed header * (Z.of_nat layer * 5 + 4)) data)
        data (seq 0 (Z.to_nat (file_header.n_layer header))).

(** The loop that copies the state parts out. *)
Definition copy_state_out (header : file_header.t) (mem : gmap nat ggml_data)
    (output_state : list ggml_tensor) (state_out : list float) : list float :=
  foldl (fun state_out i =>
           let part := default ggml_null (output_state !! i) in
           memcpy_at state_out (Z.of_nat i * file_header.n_embed header)
             (take (Z.to_nat (ggml_nbytes part / 4)) (ggml_get_data mem part)))
        state_out
        (seq 0 (Z.to_nat ((file_header.n_layer header * 5) mod 4294967296))).

(** [rwkv_eval (ctx, token, state_in, state_out, logits_out)].  A buffer
    argument is [None] for a null pointer and the contents of the caller's
    array otherwise.  The result is the returned value, the context, the
    caller's two output arrays and the thread's variables after the call. *)
Definition rwkv_eval (ctx : rwkv_context.t) (token : Z)
    (state_in state_out logits_out : option (list float)) (g : rwkv_globals)
    : bool * rwkv_context.t * option (list float) * option (list float) * rwkv_globals :=
  let ctx := rwkv_context.set_last_error ctx RWKV_ERROR_NONE in
  let header := rwkv_model.header (rwkv_context.model ctx) in
  match state_out with
  | None =>
      let '(ctx, g) :=
        RWKV_CTX_ASSERT_MSG_fails ctx RWKV_ERROR_ARGS (fprintf "state_out is NULL" [])
          933 "state_out != NULL" g in
      (false, ctx, state_out, logits_out, g)
  | Some state_out_data =>
    if negb (token <? file_header.n_vocab header) then
      let '(ctx, g) :=
        RWKV_CTX_ASSERT_MSG_fails ctx RWKV_ERROR_ARGS
          (fprintf "Token is out of range 0..%d"
             [arg_int (as_int32 ((file_header.n_vocab header - 1) mod 4294967296))])
          934 "token < header.n_vocab" g in
      (false, ctx, state_out, logits_out, g)
    else
      let graph := rwkv_context.graph ctx in
      let ggml := rwkv_context.ctx ctx in
      let ggml := ggml_store ggml (rwkv_graph.token_index graph) (data_i32 [as_int32 token]) in
      let ggml :=
        match state_in with
        | None =>
            ggml_store ggml (rwkv_graph.input_state graph)
              (data_f32 (fresh_input_state header (rwkv_graph.input_state graph)))
        | Some state_in_data =>
            ggml_store ggml (rwkv_graph.input_state graph)
              (data_f32 (take (Z.to_nat (ggml_nbytes (rwkv_graph.input_state graph) / 4))
                           state_in_data))
        end in
      let ggml := ggml_graph_compute ggml in
      let state_out_data :=
        copy_state_out header (ggml_mem ggml) (rwkv_graph.output_state graph)
          state_out_data in
      let logits_out :=
        match logits_out with
        | Some logits_out_data =>
            Some (memcpy_at logits_out_data 0
                    (take (Z.to_nat (ggml_nbytes (rwkv_graph.logits graph) / 4))
                       (ggml_get_data (ggml_mem ggml) (rwkv_graph.logits graph))))
        | None => None
        end in
      (true, rwkv_context.set_ctx ctx ggml, Some state_out_data, logits_out, g)
  end.

Definition rwkv_get_state_buffer_element_count (ctx : rwkv_context.t) : Z :=
  (file_header.n_layer (rwkv_model.header (rwkv_context.model ctx)) * 5
   * file_header.n_embed (rwkv_model.header (rwkv_context.model ctx))) mod 4294967296.

Definition rwkv_get_logits_buffer_element_count (ctx : rwkv_context.t) : Z :=
  file_header.n_vocab (rwkv_model.header (rwkv_context.model ctx)).

End Api.

(** ** Loading a model *)

Section Loader.
Context `{!rwkv_h, !ggml_backend}.

(** [tensor_bytes (header)] *)
Definition tensor_bytes (header : tensor_header.t) : Z :=
  ggml_nbytes_of (type_to_ggml (tensor_header.data_type header))
    (tensor_header.width header) (tensor_header.height header).

Definition fskip_tensor_data (file : FILE) (header : tensor_header.t) : bool * FILE :=
  fseek_cur file (tensor_header.key_length header + tensor_bytes header).

Definition fread_tensor_key (file : FILE) (header : tensor_header.t)
    : option (list byte) * FILE :=
  fread_data file (tensor_header.key_length header).

Definition fread_tensor_data (file : FILE) (header : tensor_header.t)
    : option (list byte) * FILE :=
  fread_data file (tensor_bytes header).

(** [fread_ggml_tensor_data (file, header, ctx, name, tensor)]; the tensor
    is allocated in [ctx] ([ggml_new_tensor_1d] and [_2d] do not return
    null). *)
Definition fread_ggml_tensor_data (file : FILE) (header : tensor_header.t)
    (ctx : ggml_context) (g : rwkv_globals)
    : option (string * ggml_tensor) * FILE * ggml_context * rwkv_globals :=
  match fread_string file (tensor_header.key_length header) with
  | (None, file) =>
      (None, file, ctx,
       RWKV_ASSERT_MSG_fails RWKV_ERROR_FILE_READ (fprintf "failed to read tensor name" [])
         446 "fread_string(file, header.key_length, name)" g)
  | (Some name, file) =>
    let ggml_type := type_to_ggml (tensor_header.data_type header) in
    if negb (bool_decide (ggml_type ≠ GGML_TYPE_UNKNOWN)) then
      (None, file, ctx,
       RWKV_ASSERT_MSG_fails RWKV_ERROR_UNSUPPORTED
         (fprintf "unsupported tensor data type %s from %s"
            [arg_str (type_to_string (tensor_header.data_type header)); arg_str name])
         449 "ggml_type != GGML_TYPE_UNKNOWN" g)
    else
      let '(tensor, ctx) :=
        if tensor_header.dim_count header =? 1
        then ggml_new_tensor_1d ctx ggml_type (tensor_header.width header)
        else ggml_new_tensor_2d ctx ggml_type (tensor_header.width header)
               (tensor_header.height header) in
      match fread_data file (ggml_nbytes tensor) with
      | (None, file) =>
          (None, file, ctx,
           RWKV_ASSERT_MSG_fails RWKV_ERROR_FILE_READ
             (fprintf "failed to read tensor data from %s" [arg_str name])
             458 "fread_data(file, ggml_nbytes(tensor), tensor->data)" g)
      | (Some bytes, file) =>
          (Some (name, tensor), file, ggml_store ctx tensor (data_bytes bytes), g)
      end
  end.

Definition fread_ggml_tensor (file : FILE) (ctx : ggml_context) (g : rwkv_globals)
    : option (string * ggml_tensor) * FILE * ggml_context * rwkv_globals :=
  match fread_tensor_header file g with
  | (None, file, g) =>
      (None, file, ctx,
       RWKV_ENSURE_MSG_fails (fprintf "invalid tensor header" [])
         464 "fread_tensor_header(file, header)" g)
  | (Some header, file, g) => fread_ggml_tensor_data file header ctx g
  end.

(** A callback of [rwkv_set_params]: the tensor it assigns to [dest], or
    [None] when it returns [false]. *)
Definition set_params_callback : Type :=
  string -> rwkv_globals -> option ggml_tensor * rwkv_globals.

(** [RWKV_ENSURE_OR_FALSE (callback (key, dest));] followed by the rest. *)
Definition ensure_callback {A : Type} (callback : set_params_callback) (key : string)
    (rest : ggml_tensor -> rwkv_globals -> option A * rwkv_globals)
    (g : rwkv_globals) : option A * rwkv_globals :=
  match callback key g with
  | (Some tensor, g) => rest tensor g
  | (None, g) => (None, g)
  end.

(** The body of the loop of [rwkv_set_params] for layer [i]. *)
Definition rwkv_set_params_layer (callback : set_params_callback) (i : Z)
    : rwkv_globals -> option rwkv_layer.t * rwkv_globals :=
  let buffer := "blocks." +:+ pretty (as_int32 i) +:+ "." in
  ensure_callback callback (buffer +:+ "ln1.weight") (fun ln1_weight =>
  ensure_callback callback (buffer +:+ "ln1.bias") (fun ln1_bias =>
  ensure_callback callback (buffer +:+ "att.time_mix_k") (fun att_time_mix_k =>
  ensure_callback callback (buffer +:+ "att.time_mix_v") (fun att_time_mix_v =>
  ensure_callback callback (buffer +:+ "att.time_mix_r") (fun att_time_mix_r =>
  ensure_callback callback (buffer +:+ "att.time_first") (fun att_time_first =>
  ensure_callback callback (buffer +:+ "att.time_decay") (fun att_time_decay =>
  ensure_callback callback (buffer +:+ "att.key.weight") (fun att_key =>
  ensure_callback callback (buffer +:+ "att.value.weight") (fun att_value =>
  ensure_callback callback (buffer +:+ "att.receptance.weight") (fun att_receptance =>
  ensure_callback callback (buffer +:+ "att.output.weight") (fun att_output =>
  ensure_callback callback (buffer +:+ "ln2.weight") (fun ln2_weight =>
  ensure_callback callback (buffer +:+ "ln2.bias") (fun ln2_bias =>
  ensure_callback callback (buffer +:+ "ffn.time_mix_k") (fun ffn_time_mix_k =>
  ensure_callback callback (buffer +:+ "ffn.time_mix_r") (fun ffn_time_mix_r =>
  ensure_callback callback (buffer +:+ "ffn.key.weight") (fun ffn_key =>
  ensure_callback callback (buffer +:+ "ffn.value.weight") (fun ffn_value =>
  ensure_callback callback (buffer +:+ "ffn.receptance.weight") (fun ffn_receptance g =>
    (Some (rwkv_layer.mk ln1_weight ln1_bias att_time_mix_k att_time_mix_v
             att_time_mix_r att_time_first att_time_decay att_key att_value
             att_receptance att_output ln2_weight ln2_bias ffn_time_mix_k
             ffn_time_mix_r ffn_key ffn_value ffn_receptance
             ggml_null ggml_null ggml_null ggml_null ggml_null), g)
  )))))))))))))))))).

(** [for (uint32_t i = 0; i < n_layer; i++)] of [rwkv_set_params]. *)
Fixpoint rwkv_set_params_layers (callback : set_params_callback) (indices : list nat)
    (layers : list rwkv_layer.t) (g : rwkv_globals)
    : option (list rwkv_layer.t) * rwkv_globals :=
  match indices with
  | [] => (Some layers, g)
  | i :: indices =>
      match rwkv_set_params_layer callback (Z.of_nat i) g with
      | (Some layer, g) =>
          rwkv_set_params_layers callback indices (<[i := layer]> layers) g
      | (None, g) => (None, g)
      end
  end.

(** [rwkv_set_params (model, callback)]; the array of layers is taken to be
    allocated. *)
Definition rwkv_set_params (model : rwkv_model.t) (callback : set_params_callback)
    : rwkv_globals -> option rwkv_model.t * rwkv_globals :=
  ensure_callback callback "emb.weight" (fun emb =>
  ensure_callback callback "blocks.0.ln0.weight" (fun ln0_weight =>
  ensure_callback callback "blocks.0.ln0.bias" (fun ln0_bias g =>
    let n_layer := file_header.n_layer (rwkv_model.header model) in
    match rwkv_set_params_layers callback (seq 0 (Z.to_nat n_layer))
            (replicate (Z.to_nat n_layer) rwkv_layer.unset) g with
    | (None, g) => (None, g)
    | (Some layers, g) =>
      ensure_callback callback "ln_out.weight" (fun ln_out_weight =>
      ensure_callback callback "ln_out.bias" (fun ln_out_bias =>
      ensure_callback callback "head.weight" (fun head g =>
        (Some (rwkv_model.mk (rwkv_model.header model) emb ln0_weight ln0_bias layers
                 ln_out_weight ln_out_bias head), g)))) g
    end))).

(** The first loop of [rwkv_init_from_file], which scans the tensor records
    for their sizes and for [ffn_key].  The byte counts it adds up only size
    the arena and are not kept.  [fuel] bounds the number of iterations;
    the result is [None] when it runs out, [Some (None, ...)] when the
    function returns [NULL] from inside the loop. *)
Fixpoint sizing_pass (fuel : nat) (file : FILE) (size : Z) (ffn_key : Z)
    (g : rwkv_globals) : option (option Z * FILE * rwkv_globals) :=
  match fuel with
  | O => None
  | S fuel =>
    if ftell file <? size then
      match fread_tensor_header file g with
      | (None, file, g) =>
          Some (None, file,
                RWKV_ASSERT_MSG_fails RWKV_ERROR_MODEL_PARAMS
                  (fprintf "invalid tensor header" [])
                  855 "fread_tensor_header(file, header)" g)
      | (Some header, file, g) =>
        match fread_string file (tensor_header.key_length header) with
        | (None, file) =>
            Some (None, file,
                  RWKV_ASSERT_MSG_fails RWKV_ERROR_MODEL_PARAMS
                    (fprintf "failed to read tensor name" [])
                    856 "fread_string(file, header.key_length, name)" g)
        | (Some name, file) =>
          match fseek_cur file (tensor_bytes header) with
          | (false, file) =>
              Some (None, file,
                    RWKV_ASSERT_MSG_fails (Z.lor RWKV_ERROR_FILE RWKV_ERROR_FILE_READ)
                      (fprintf "failed to read tensor data" [])
                      857 "fseek(file, tensor_bytes(header), SEEK_CUR) == 0" g)
          | (true, file) =>
              let ffn_key :=
                if (ffn_key =? 0) && String.eqb name "blocks.0.ffn.key.weight"
                then tensor_header.height header else ffn_key in
              sizing_pass fuel file size ffn_key g
          end
        end
      end
    else Some (Some ffn_key, file, g)
  end.

(** The second loop of [rwkv_init_from_file], which reads every tensor into
    the context and records it under its name. *)
Fixpoint binding_pass (fuel : nat) (file : FILE) (size : Z) (ctx : ggml_context)
    (parameters : gmap string ggml_tensor) (g : rwkv_globals)
    : option (option (gmap string ggml_tensor) * FILE * ggml_context * rwkv_globals) :=
  match fuel with
  | O => None
  | S fuel =>
    if ftell file <? size then
      match fread_ggml_tensor file ctx g with
      | (None, file, ctx, g) =>
          Some (None, file, ctx,
                RWKV_ASSERT_MSG_fails RWKV_ERROR_MODEL_PARAMS
                  (fprintf "failed to read model params" [])
                  886 "fread_ggml_tensor(file, ctx, name, tensor)" g)
      | (Some (name, tensor), file, ctx, g) =>
          binding_pass fuel file size ctx (<[name := tensor]> parameters) g
      end
    else Some (Some parameters, file, ctx, g)
  end.

(** Iterations that are always enough: a record takes at least one byte. *)
Definition enough_fuel (file : FILE) : nat := S (length (contents file)).

(** [rwkv_init_from_file (file_path, n_threads)].  [opened] is the contents
    of the file when [fopen] succeeds.  [fstat] and the allocations are
    taken to succeed. *)
Definition rwkv_init_from_file (file_path : string) (opened : option (list byte))
    (n_threads : Z) (g : rwkv_globals) : option rwkv_context.t * rwkv_globals :=
  let g := global_set_error RWKV_ERROR_NONE g in
  match opened with
  | None =>
      (None,
       RWKV_ASSERT_MSG_fails (Z.lor RWKV_ERROR_FILE RWKV_ERROR_FILE_OPEN)
         (fprintf "failed to open file %s" [arg_str file_path]) 836 "file" g)
  | Some bytes =>
    let file := mk_FILE bytes 0 in
    let size := st_size file in
    match fread_file_header file true g with
    | (None, file, g) =>
        (None,
         RWKV_ASSERT_MSG_fails RWKV_ERROR_FILE (fprintf "invalid file header" [])
           846 "fread_file_header(file, header)" g)
    | (Some header, file, g) =>
      let tensors_start := ftell file in
      match sizing_pass (enough_fuel file) file size 0 g with
      | None => (None, g)
      | Some (None, file, g) => (None, g)
      | Some (Some ffn_key, file, g) =>
        if ffn_key =? 0 then
          (None,
           RWKV_ASSERT_MSG_fails (Z.lor RWKV_ERROR_MODEL_PARAMS RWKV_ERROR_PARAM_MISSING)
             (fprintf "model is missing parameter blocks.0.ffn.key.weight" [])
             865 "ffn_key" g)
        else
          match fseek_set file tensors_start with
          | (false, file) =>
              (None,
               RWKV_ASSERT_MSG_fails (Z.lor RWKV_ERROR_FILE RWKV_ERROR_FILE_READ)
                 (fprintf "failed to seek in file" [])
                 871 "fseek(file, tensors_start, SEEK_SET) == 0" g)
          | (true, file) =>
            let ctx := ggml_init in
            match binding_pass (enough_fuel file) file size ctx ∅ g with
            | None => (None, g)
            | Some (None, file, ctx, g) => (None, g)
            | Some (Some parameters, file, ctx, g) =>
              let model :=
                rwkv_model.mk header ggml_null ggml_null ggml_null [] ggml_null
                  ggml_null ggml_null in
              let callback : set_params_callback := fun key g =>
                match parameters !! key with
                | Some tensor => (Some tensor, g)
                | None =>
                    (None,
                     RWKV_ENSURE_MSG_fails (fprintf "parameter %s not found" [arg_str key])
                       898 "tensor" g)
                end in
              match rwkv_set_params model callback g with
              | (None, g) =>
                  (None,
                   RWKV_ASSERT_fails
                     (Z.lor RWKV_ERROR_MODEL_PARAMS RWKV_ERROR_PARAM_MISSING) g)
              | (Some model, g) =>
                (* Verify order of dimensions *)
                let emb := rwkv_model.emb model in
                if negb (ggml_n_dims emb =? 2) then
                  (None,
                   RWKV_ASSERT_MSG_fails (Z.lor RWKV_ERROR_MODEL_PARAMS RWKV_ERROR_SHAPE)
                     (fprintf "unexpected dimension count of embedding matrix %d"
                        [arg_int (ggml_n_dims emb)])
                     905 "emb->n_dims == 2" g)
                else if negb (ggml_ne0 emb =? file_header.n_embed header) then
                  (None,
                   RWKV_ASSERT_MSG_fails (Z.lor RWKV_ERROR_MODEL_PARAMS RWKV_ERROR_DIMENSION)
                     (fprintf "unexpected dimension of embedding matrix %d"
                        [arg_int (ggml_ne0 emb)])
                     906 "emb->ne[0] == header.n_embed" g)
                else if negb (ggml_ne1 emb =? file_header.n_vocab header) then
                  (None,
                   RWKV_ASSERT_MSG_fails (Z.lor RWKV_ERROR_MODEL_PARAMS RWKV_ERROR_DIMENSION)
                     (fprintf "unexpected dimension of embedding matrix %d"
                        [arg_int (ggml_ne1 emb)])
                     907 "emb->ne[1] == header.n_vocab" g)
                else
                  (* Build graph *)
                  let '(graph, ctx) := rwkv_single_graph ctx model n_threads in
                  (Some (rwkv_context.mk model ctx graph RWKV_ERROR_NONE
                           (global_print_errors g)), g)
              end
            end
          end
      end
    end
  end.

End Loader.

(** ** Quantizing a model file *)

Section Quantizer.
Context `{!rwkv_h, !ggml_backend}.

(** [std::vector<uint8_t>::resize] *)
Definition vector_resize (v : list byte) (n : Z) : list byte :=
  take (Z.to_nat n) v ++ replicate (Z.to_nat n - length v) x00.

(** The local state of the loop of [rwkv_quantize_model_file]: the output
    written so far, the two byte buffers behind [container] and [scratch],
    the two totals and the aggregate histogram. *)
Record quantize_state := mk_quantize_state {
  output : list byte;
  container : list byte;
  scratch : list byte;
  orig_total_size : Z;
  new_total_size : Z;
  hist_all : list Z
}.

(** What the loop body has in hand when it reaches the three writes: the
    header to write, the buffer [container] points to, [scratch], and
    [new_size]. *)
Record converted := mk_converted {
  out_header : tensor_header.t;
  out_container : list byte;
  out_scratch : list byte;
  new_size : Z;
  hist_cur : list Z
}.

(** The test that selects the branch [quantizing...]. *)
Definition quantize_selected (header : tensor_header.t) (name : string) : bool :=
  let orig_type := tensor_header.data_type header in
  ((orig_type =? TYPE_F32) || (orig_type =? TYPE_F16))
  && (tensor_header.dim_count header =? 2)
  && negb (String.eqb name "emb.weight")
  && negb (String.eqb name "head.weight").

(** The branch [quantizing...], up to and including the second swap. *)
Definition quantize_tensor (target_type : Z) (target_ggml : ggml_type)
    (header : tensor_header.t) (container scratch : list byte) : converted :=
  let orig_type := tensor_header.data_type header in
  let nelements := tensor_header.width header * tensor_header.height header in
  let '(header, container, scratch) :=
    if orig_type =? TYPE_F16 then
      let header := tensor_header.set_data_type header TYPE_F32 in
      let scratch := vector_resize scratch (tensor_bytes header) in
      let scratch := ggml_fp16_to_fp32_row container scratch nelements in
      (* std::swap(container, scratch) *)
      (header, scratch, container)
    else (header, container, scratch) in
  let header := tensor_header.set_data_type header target_type in
  let new_size := tensor_bytes header in
  let scratch := vector_resize scratch new_size in
  let '(scratch, hist_cur) :=
    ggml_quantize_chunk target_ggml container scratch 0 nelements (replicate 16 0) in
  (* std::swap(container, scratch) *)
  mk_converted header scratch container new_size hist_cur.

(** The messages of the branch [quantizing...]. *)
Definition quantize_messages (name : string) (header : tensor_header.t)
    (orig_size : Z) (c : converted) (g : rwkv_globals) : rwkv_globals :=
  let nelements := tensor_header.width header * tensor_header.height header in
  let g := RWKV_MSG (fprintf "quantizing... " []) g in
  let g := RWKV_MSG (fprintf "size = %8.2f MB -> %8.2f MB | hist: "
                       [arg_quot orig_size (1024 * 1024);
                        arg_quot (new_size c) (1024 * 1024)]) g in
  let g := foldl (fun g h => RWKV_MSG (fprintf "%5.3f " [arg_quot h nelements]) g)
                 g (hist_cur c) in
  RWKV_MSG (fprintf "\n" []) g.

(** One iteration of the loop of [rwkv_quantize_model_file]: whether the
    function goes on ([false]: it returns [false] from inside the
    iteration), and the local state, the input and the thread's variables
    at that point. *)
Definition quantize_step (target_type : Z) (target_ggml : ggml_type) (input : FILE)
    (st : quantize_state) (g : rwkv_globals)
    : bool * quantize_state * FILE * rwkv_globals :=
  match fread_tensor_header input g with
  | (None, input, g) =>
      (false, st, input,
       RWKV_ASSERT_MSG_fails RWKV_ERROR_MODEL_PARAMS (fprintf "invalid tensor header" [])
         1028 "fread_tensor_header(input, header)" g)
  | (Some header, input, g) =>
    match fread_tensor_key input header with
    | (None, input) =>
        (false, st, input,
         RWKV_ASSERT_MSG_fails RWKV_ERROR_KEY (fprintf "failed to read tensor name" [])
           1032 "fread_tensor_key(input, header, name.c_str())" g)
    | (Some key, input) =>
      let name := String.string_of_list_byte key in
      match fread_tensor_data input header with
      | (None, input) =>
          (false, st, input,
           RWKV_ASSERT_MSG_fails RWKV_ERROR_DATA
             (fprintf "failed to read tensor data of %s" [arg_str name])
             1035 "fread_tensor_data(input, header, container->data())" g)
      | (Some data, input) =>
        (* container->resize(tensor_bytes(header)), filled by the read *)
        let g := RWKV_MSG (fprintf "%48s - [%5d, %5d], type = %6s "
                             [arg_str name; arg_int (tensor_header.width header);
                              arg_int (tensor_header.height header);
                              arg_str (type_to_string (tensor_header.data_type header))]) g in
        let orig_size := tensor_bytes header in
        let '(c, g) :=
          if quantize_selected header name then
            let c := quantize_tensor target_type target_ggml header data (scratch st) in
            (c, quantize_messages name header orig_size c g)
          else
            (mk_converted header data (scratch st) orig_size (replicate 16 0),
             RWKV_MSG (fprintf "size = %8.3f MB\n" [arg_quot orig_size (1024 * 1024)]) g) in
        let st :=
          mk_quantize_state (output st) (out_container c) (out_scratch c)
            (orig_total_size st + orig_size) (new_total_size st + new_size c)
            (zip_with Z.add (hist_all st) (hist_cur c)) in
        let written (bytes : list byte) :=
          mk_quantize_state bytes (container st) (scratch st) (orig_total_size st)
            (new_total_size st) (hist_all st) in
        match fwrite_tensor_header (output st) (out_header c) g with
        | (false, bytes, g) =>
            (false, written bytes, input,
             RWKV_ASSERT_MSG_fails RWKV_ERROR_FILE_WRITE
               (fprintf "failed to write tensor header of %s" [arg_str name])
               1081 "fwrite_tensor_header(output, header)" g)
        | (true, bytes, g) =>
          match fwrite_string bytes name with
          | (false, bytes) =>
              (false, written bytes, input,
               RWKV_ASSERT_MSG_fails RWKV_ERROR_FILE_WRITE
                 (fprintf "failed to write tensor name of %s" [arg_str name])
                 1082 "fwrite_string(output, name)" g)
          | (true, bytes) =>
            match fwrite_data bytes (out_container c) (new_size c) with
            | (false, bytes) =>
                (false, written bytes, input,
                 RWKV_ASSERT_MSG_fails RWKV_ERROR_FILE_WRITE
                   (fprintf "failed to write tensor data of %s" [arg_str name])
                   1083 "fwrite_data(output, container->data(), new_size)" g)
            | (true, bytes) => (true, written bytes, input, g)
            end
          end
        end
      end
    end
  end.

(** [while (ftell (input) < stat.st_size)].  [fuel] bounds the number of
    iterations; the result is [None] when it runs out, and otherwise tells
    whether the loop ran to its end. *)
Fixpoint quantize_loop (fuel : nat) (target_type : Z) (target_ggml : ggml_type)
    (input : FILE) (size : Z) (st : quantize_state) (g : rwkv_globals)
    : option (bool * quantize_state * FILE * rwkv_globals) :=
  match fuel with
  | O => None
  | S fuel =>
    if ftell input <? size then
      match quantize_step target_type target_ggml input st g with
      | (false, st, input, g) => Some (false, st, input, g)
      | (true, st, input, g) => quantize_loop fuel target_type target_ggml input size st g
      end
    else Some (true, st, input, g)
  end.

(** The report after the loop. *)
Definition quantize_report (st : quantize_state) (g : rwkv_globals) : rwkv_globals :=
  let g := RWKV_MSG (fprintf "original size     = %8.2f MB\n"
                       [arg_quot (orig_total_size st) (1024 * 1024)]) g in
  let g := RWKV_MSG (fprintf "quantized size    = %8.2f MB\n"
                       [arg_quot (new_total_size st) (1024 * 1024)]) g in
  let g := RWKV_MSG (fprintf "compression ratio = %8.2f\n"
                       [arg_quot (orig_total_size st) (new_total_size st)]) g in
  let sum_all := foldl Z.add 0 (hist_all st) in
  let g := RWKV_MSG (fprintf "hist: " []) g in
  let g := foldl (fun g h =>
                    mk_globals (global_last_error g) (global_print_errors g) (stderr g)
                      (stdout g ++ [fprintf "%5.3f " [arg_quot h sum_all]]))
                 g (hist_all st) in
  RWKV_MSG (fprintf "\n" []) g.

(** [rwkv_quantize_model_file (input_path, output_path, target_name)].
    [opened] is the contents of the input file when it can be opened,
    [writable] tells whether the output file can be; the two paths name
    different files, and [fstat] is taken to succeed.  The result is the
    returned value, the output file ([None] when it was never opened) and
    the thread's variables. *)
Definition rwkv_quantize_model_file (input_path : string) (opened : option (list byte))
    (output_path : string) (writable : bool) (target_name : string)
    (g : rwkv_globals) : bool * option (list byte) * rwkv_globals :=
  let g := global_set_error RWKV_ERROR_NONE g in
  let target_type := type_from_string target_name in
  let target_ggml := type_to_ggml target_type in
  if negb (bool_decide (target_type ≠ TYPE_UNKNOWN)) then
    (false, None,
     RWKV_ASSERT_MSG_fails (Z.lor RWKV_ERROR_ARGS RWKV_ERROR_DATA_TYPE)
       (fprintf "invalid target data type (%s)" [arg_str target_name])
       982 "target_type != TYPE_UNKNOWN" g)
  else if negb (bool_decide (target_ggml ≠ GGML_TYPE_UNKNOWN)) then
    (false, None,
     RWKV_ASSERT_MSG_fails (Z.lor RWKV_ERROR_ARGS RWKV_ERROR_DATA_TYPE)
       (fprintf "unsupported target data type (%s)" [arg_str (type_to_string target_type)])
       983 "target_ggml != GGML_TYPE_UNKNOWN" g)
  else
    let g := RWKV_MSG (fprintf "Loading model from '%s'\n" [arg_str input_path]) g in
    match opened with
    | None =>
        (false, None,
         RWKV_ASSERT_MSG_fails (Z.lor RWKV_ERROR_FILE RWKV_ERROR_FILE_OPEN)
           (fprintf "failed to open %s for reading" [arg_str input_path]) 988 "input" g)
    | Some bytes =>
      let input := mk_FILE bytes 0 in
      let size := st_size input in
      if negb writable then
        (false, None,
         RWKV_ASSERT_MSG_fails (Z.lor RWKV_ERROR_FILE RWKV_ERROR_FILE_OPEN)
           (fprintf "failed to open %s for writing" [arg_str output_path]) 996 "output" g)
      else
        (* the output file is created empty *)
        let created : list byte := [] in
        (* the third argument, verify_data_type, is left to its default *)
        match fread_file_header input true g with
        | (None, input, g) =>
            (false, Some created,
             RWKV_ASSERT_MSG_fails RWKV_ERROR_FILE (fprintf "invalid file header" [])
               1003 "fread_file_header(input, file_header)" g)
        | (Some file_header, input, g) =>
          if negb ((file_header.data_type file_header =? TYPE_F32)
                   || (file_header.data_type file_header =? TYPE_F16)) then
            (false, Some created,
             RWKV_ASSERT_MSG_fails RWKV_ERROR_FILE
               (fprintf "unsupported source data type (%s); needs to be f32 or f16"
                  [arg_str (type_to_string (file_header.data_type file_header))])
               1004 "file_header.data_type == TYPE_F32 || file_header.data_type == TYPE_F16" g)
          else
            let file_header :=
              file_header.mk (file_header.magic file_header) RWKV_FILE_VERSION
                (file_header.n_vocab file_header) (file_header.n_embed file_header)
                (file_header.n_layer file_header) target_type in
            match fwrite_file_header created file_header g with
            | (false, written, g) =>
                (false, Some written,
                 RWKV_ASSERT_MSG_fails RWKV_ERROR_FILE
                   (fprintf "failed to write file header" [])
                   1008 "fwrite_file_header(output, file_header)" g)
            | (true, written, g) =>
              match quantize_loop (enough_fuel input) target_type target_ggml input size
                      (mk_quantize_state written [] [] 0 0 (replicate 16 0)) g with
              | None => (false, Some written, g)
              | Some (false, st, input, g) => (false, Some (output st), g)
              | Some (true, st, input, g) =>
                  (true, Some (output st), quantize_report st g)
              end
            end
        end
    end.

End Quantizer.

(** ** Closed examples: a backend and a model file

    The closed examples of the last part of the file run the code on the
    constants of the released header, on a backend whose numbers are
    integers, and on a model with one layer, one embedding dimension and a
    vocabulary of two. *)

Definition example_backend : ggml_backend := {|
  float := Z;
  f_zero := 0;
  f_one := 1;
  f_neg_1e30 := - 10 ^ 30;
  fadd := Z.add;
  fsub := Z.sub;
  fmul := Z.mul;
  fdiv := Z.div;
  fneg := Z.opp;
  expf := fun x => 2 ^ x;
  fmaxf := Z.max;
  f_relu := Z.max 0;
  ggml_norm_row := fun row => row;
  ggml_vec_dot := fun w x => foldr Z.add 0 (zip_with Z.mul w x);
  ggml_to_float := fun _ bs => Z.of_N ∘ Byte.to_N <$> bs;
  ggml_quantized_nbytes := fun _ ne0 ne1 => Z.max 0 (ne0 * ne1);
  ggml_quantized_nbytes_nonneg := fun _ ne0 ne1 => Z.le_max_l 0 (ne0 * ne1);
  ggml_fp16_to_fp32_row := fun x y n => x ++ x;
  ggml_quantize_chunk := fun _ src dst _ n hist => (take (length dst) src, hist)
|}.

(** A tensor record as it stands in a model file. *)
Definition tensor_record (dim_count : Z) (key : string) (data_type : Z)
    (width height : Z) (payload : list byte) : list byte :=
  take (Z.to_nat (if dim_count =? 1 then 16 else 20))
    (tensor_header.to_bytes
       (tensor_header.mk dim_count (Z.of_nat (String.length key)) data_type width height))
  ++ String.list_byte_of_string key ++ payload.

Definition example_vector (key : string) : list byte :=
  tensor_record 1 key TYPE_F32 1 1 [x01; x00; x00; x00].

Definition example_matrix (key : string) : list byte :=
  tensor_record 2 key TYPE_F32 1 1 [x02; x00; x00; x00].

Definition example_header (version data_type : Z) : list byte :=
  file_header.to_bytes (file_header.mk 0x67676d66 version 2 1 1 data_type).

Definition example_tensors : list byte :=
  tensor_record 2 "emb.weight" TYPE_F32 1 2 [x01; x00; x00; x00; x03; x00; x00; x00]
  ++ example_vector "blocks.0.ln0.weight" ++ example_vector "blocks.0.ln0.bias"
  ++ example_vector "blocks.0.ln1.weight" ++ example_vector "blocks.0.ln1.bias"
  ++ example_vector "blocks.0.att.time_mix_k" ++ example_vector "blocks.0.att.time_mix_v"
  ++ example_vector "blocks.0.att.time_mix_r" ++ example_vector "blocks.0.att.time_first"
  ++ example_vector "blocks.0.att.time_decay" ++ example_matrix "blocks.0.att.key.weight"
  ++ example_matrix "blocks.0.att.value.weight"
  ++ example_matrix "blocks.0.att.receptance.weight"
  ++ example_matrix "blocks.0.att.output.weight"
  ++ example_vector "blocks.0.ln2.weight" ++ example_vector "blocks.0.ln2.bias"
  ++ example_vector "blocks.0.ffn.time_mix_k" ++ example_vector "blocks.0.ffn.time_mix_r"
  ++ example_matrix "blocks.0.ffn.key.weight" ++ example_matrix "blocks.0.ffn.value.weight"
  ++ example_matrix "blocks.0.ffn.receptance.weight"
  ++ example_vector "ln_out.weight" ++ example_vector "ln_out.bias"
  ++ tensor_record 2 "head.weight" TYPE_F32 1 2 [x01; x00; x00; x00; x01; x00; x00; x00].

(** A float model in the latest format version. *)
Definition example_model_file : list byte :=
  example_header 101 TYPE_F32 ++ example_tensors.

Definition example_globals : rwkv_globals := mk_globals 0 true [] [].

(** The context [rwkv_init_from_file] makes of [example_model_file]. *)
Definition example_context : option (@rwkv_context.t example_backend) :=
  fst (@rwkv_init_from_file released_rwkv_h example_backend "tiny.bin"
         (Some example_model_file) 1 example_globals).

(** ** The specification's side

    Definitions that follow the words of the specification, to be compared
    with the code above. *)

Section Specification.
Context `{!rwkv_h, !ggml_backend}.

(** The fresh state: all parts zero, except [att_pp] (part 4 of the 5 parts
    of a layer), which is [-1e30]. *)
Definition spec_fresh_state (n_layer n_embed : Z) : list float :=
  concat (replicate (Z.to_nat n_layer)
            (replicate (4 * Z.to_nat n_embed) f_zero
             ++ replicate (Z.to_nat n_embed) f_neg_1e30)).

(** The contexts a program can hold: those [rwkv_init_from_file] returns,
    as the later calls of the interface leave them. *)
Inductive loaded : rwkv_context.t -> Prop :=
| loaded_init file_path bytes n_threads g ctx g' :
    rwkv_init_from_file file_path (Some bytes) n_threads g = (Some ctx, g') ->
    loaded ctx
| loaded_eval ctx token state_in state_out logits_out g r ctx' state_out' logits_out' g' :
    loaded ctx ->
    rwkv_eval ctx token state_in state_out logits_out g
      = (r, ctx', state_out', logits_out', g') ->
    loaded ctx'
| loaded_get_last_error ctx g e ctx' g' :
    loaded ctx ->
    rwkv_get_last_error (Some ctx) g = (e, Some ctx', g') ->
    loaded ctx'
| loaded_set_print_errors ctx print_errors g ctx' g' :
    loaded ctx ->
    rwkv_set_print_errors (Some ctx) print_errors g = (Some ctx', g') ->
    loaded ctx'.

(** The vector operations of the per-step algebra. *)
Definition vec_add : list float -> list float -> list float := zip_with fadd.
Definition vec_sub : list float -> list float -> list float := zip_with fsub.
Definition vec_mul : list float -> list float -> list float := zip_with fmul.
Definition vec_div : list float -> list float -> list float := zip_with fdiv.
Definition vec_max : list float -> list float -> list float := zip_with fmaxf.
Definition vec_exp : list float -> list float := map expf.
Definition vec_sigmoid : list float -> list float :=
  map (fun x => fdiv f_one (fadd f_one (expf (fneg x)))).
Definition vec_one_minus : list float -> list float := map (fsub f_one).
Definition mat_vec (W : list (list float)) (x : list float) : list float :=
  map (fun row => ggml_vec_dot row x) W.
Definition spec_layernorm (x w b : list float) : list float :=
  vec_add (vec_mul (ggml_norm_row x) w) b.

(** What the time-mix substep reads: the layer input, the parameters of the
    layer and the four attention parts of the state. *)
Record time_mix_input := mk_time_mix_input {
  tm_x : list float;
  tm_ln1_w : list float;
  tm_ln1_b : list float;
  tm_tmk : list float;
  tm_tmv : list float;
  tm_tmr : list float;
  tm_time_first : list float;
  tm_time_decay : list float;
  tm_Wk : list (list float);
  tm_Wv : list (list float);
  tm_Wr : list (list float);
  tm_Wo : list (list float);
  tm_att_xx : list float;
  tm_att_aa : list float;
  tm_att_bb : list float;
  tm_att_pp : list float
}.

(** What it produces: the layer output and the next-step state parts. *)
Record time_mix_output := mk_time_mix_output {
  tm_x' : list float;
  tm_att_xx' : list float;
  tm_att_aa' : list float;
  tm_att_bb' : list float;
  tm_att_pp' : list float
}.

(** The time-mix (attention) substep, formula by formula. *)
Definition spec_time_mix (i : time_mix_input) : time_mix_output :=
  let x0 := spec_layernorm (tm_x i) (tm_ln1_w i) (tm_ln1_b i) in
  let xk := vec_add (vec_mul x0 (tm_tmk i))
                    (vec_mul (tm_att_xx i) (vec_one_minus (tm_tmk i))) in
  let xv := vec_add (vec_mul x0 (tm_tmv i))
                    (vec_mul (tm_att_xx i) (vec_one_minus (tm_tmv i))) in
  let xr := vec_add (vec_mul x0 (tm_tmr i))
                    (vec_mul (tm_att_xx i) (vec_one_minus (tm_tmr i))) in
  let r := vec_sigmoid (mat_vec (tm_Wr i) xr) in
  let k := mat_vec (tm_Wk i) xk in
  let v := mat_vec (tm_Wv i) xv in
  let ww := vec_add (tm_time_first i) k in
  let qq := vec_max (tm_att_pp i) ww in
  let e1 := vec_exp (vec_sub (tm_att_pp i) qq) in
  let e2 := vec_exp (vec_sub ww qq) in
  let a := vec_add (vec_mul e1 (tm_att_aa i)) (vec_mul e2 v) in
  let b := vec_add (vec_mul e1 (tm_att_bb i)) e2 in
  let wkv := vec_div a b in
  let ww' := vec_add (tm_att_pp i) (tm_time_decay i) in
  let qq' := vec_max ww' k in
  let e1' := vec_exp (vec_sub ww' qq') in
  let e2' := vec_exp (vec_sub k qq') in
  mk_time_mix_output
    (vec_add (tm_x i) (mat_vec (tm_Wo i) (vec_mul r wkv)))
    x0
    (vec_add (vec_mul e1' (tm_att_aa i)) (vec_mul e2' v))
    (vec_add (vec_mul e1' (tm_att_bb i)) e2')
    qq'.

(** The rows of a stored matrix. *)
Definition ggml_rows (mem : gmap nat ggml_data) (t : ggml_tensor) : list (list float) :=
  map (fun i => ggml_row (ggml_get_data mem t) (ggml_ne0 t) (Z.of_nat i))
      (seq 0 (Z.to_nat (ggml_ne1 t))).

(** The input of the substep for a layer of the graph, with the data [mem]
    the context holds. *)
Definition time_mix_input_of (mem : gmap nat ggml_data) (x : ggml_tensor)
    (layer : rwkv_layer.t) : time_mix_input :=
  mk_time_mix_input
    (ggml_get_data mem x)
    (ggml_get_data mem (rwkv_layer.ln1_weight layer))
    (ggml_get_data mem (rwkv_layer.ln1_bias layer))
    (ggml_get_data mem (rwkv_layer.att_time_mix_k layer))
    (ggml_get_data mem (rwkv_layer.att_time_mix_v layer))
    (ggml_get_data mem (rwkv_layer.att_time_mix_r layer))
    (ggml_get_data mem (rwkv_layer.att_time_first layer))
    (ggml_get_data mem (rwkv_layer.att_time_decay layer))
    (ggml_rows mem (rwkv_layer.att_key layer))
    (ggml_rows mem (rwkv_layer.att_value layer))
    (ggml_rows mem (rwkv_layer.att_receptance layer))
    (ggml_rows mem (rwkv_layer.att_output layer))
    (ggml_get_data mem (rwkv_layer.att_xx layer))
    (ggml_get_data mem (rwkv_layer.att_aa layer))
    (ggml_get_data mem (rwkv_layer.att_bb layer))
    (ggml_get_data mem (rwkv_layer.att_pp layer)).

(** The validity rule for quantized models in the words of the
    specification: [is_quantized] implies [version ≠ 1]. *)
Definition spec_quantized_valid (is_quantized : bool) (version : Z) : Prop :=
  is_quantized = true -> version ≠ 1.

(** The same rule with the specification's 1 read as the name
    [RWKV_FILE_VERSION_1]. *)
Definition spec_quantized_valid_named (is_quantized : bool) (version : Z) : Prop :=
  is_quantized = true -> version ≠ RWKV_FILE_VERSION_1.

(** The error word [rwkv_get_last_error] addresses: the context's, or the
    thread's for the null context. *)
Definition stored_error (ctx : option rwkv_context.t) (g : rwkv_globals) : Z :=
  match ctx with
  | Some c => rwkv_context.last_error c
  | None => global_last_error g
  end.

(** The thread's variables after a failed check that records [ERR_VAL]:
    the flag is added to the last error, nothing else changes but what was
    printed. *)
Definition records_error (ERR_VAL : Z) (g g' : rwkv_globals) : Prop :=
  global_last_error g' = Z.lor (global_last_error g) ERR_VAL
  /\ has_error (global_last_error g') ERR_VAL
  /\ global_print_errors g' = global_print_errors g
  /\ stdout g' = stdout g.

(** The bytes of a tensor header as the file stores them. *)
Definition tensor_header_bytes (h : tensor_header.t) : list byte :=
  take (Z.to_nat (tensor_header.sizeof
                  - (if tensor_header.dim_count h =? 1 then 4 else 0)))
    (tensor_header.to_bytes h).

End Specification.

(** The context of the example model, for the closed examples. *)
Definition example_loaded : @rwkv_context.t example_backend :=
  default
    (@rwkv_context.mk example_backend
       (rwkv_model.mk (file_header.mk 0 0 0 0 0 0) ggml_null ggml_null ggml_null []
          ggml_null ggml_null ggml_null)
       (@ggml_init example_backend)
       (rwkv_graph.mk ggml_null [] ggml_null ggml_null 0 []) 0 false)
    example_context.

(** A layer whose tensors hold one number each, and the data of a context
    that holds them. *)
Definition example_row (object : nat) : ggml_tensor :=
  ggml_new_tensor object GGML_TYPE_F32 1 1 1.

Definition example_weights (object : nat) : ggml_tensor :=
  ggml_new_tensor object GGML_TYPE_F32 2 1 1.

Definition example_layer : rwkv_layer.t :=
  rwkv_layer.mk (example_row 1) (example_row 2) (example_row 3) (example_row 4)
    (example_row 5) (example_row 6) (example_row 7) (example_weights 8)
    (example_weights 9) (example_weights 10) (example_weights 11)
    (example_row 12) (example_row 13) (example_row 14) (example_row 15)
    (example_weights 16) (example_weights 17) (example_weights 18)
    (example_row 19) (example_row 20) (example_row 21) (example_row 22)
    (example_row 23).

Definition example_mem : gmap nat (@ggml_data example_backend) :=
  list_to_map
    ((fun object : nat => (object, @data_f32 example_backend [Z.of_nat object]))
       <$> seq 0 24).

(** Headers and single tensor records for the closed examples. *)
Definition example_file (bytes : list byte) : FILE := mk_FILE bytes 0.

Definition example_removed_record : list byte :=
  tensor_record 1 "blocks.0.ln1.weight" TYPE_Q4_2 1 1 [x01; x00; x00; x00].

Definition example_state : quantize_state :=
  mk_quantize_state [] [] [] 0 0 (replicate 16 0).

(** The example model with a record of a removed format in front of its
    tensors. *)
Definition example_removed_model_file : list byte :=
  example_header 101 TYPE_F32 ++ example_removed_record ++ example_tensors.

(** * Further parts of the code

    The remaining utilities and tables of [rwkv.cpp], the sizing planner,
    and definitions the later theorems about the loader, the graph and the
    quantizer are stated with. *)

(** ** Utilities: 32-bit integers *)

(** Reads a single int32 value from a file. *)
Definition fread_int32 (file : FILE) : option Z * FILE :=
  let '(r, file) := fread_data file 4 in
  ((fun bs => as_int32 (uint32_of_bytes bs)) <$> r, file).

(** Writes a single int32 value to a file; the four bytes of a negative
    value are those of its two's complement. *)
Definition fwrite_int32 (file : list byte) (value : Z) : bool * list byte :=
  fwrite_data file (bytes_of_uint32 value) 4.

(** Writes a single uint32 value to a file. *)
Definition fwrite_uint32 (file : list byte) (value : Z) : bool * list byte :=
  fwrite_data file (bytes_of_uint32 value) 4.

(** The values of a [uint32_t]. *)
Definition is_uint32 (v : Z) : Prop := 0 <= v < 4294967296.

(** ** File data structures: the table [type_from_ggml] *)

(** The table [type_from_ggml[GGML_TYPE_COUNT + 1]], indexed by the backend's
    enumeration. *)
Definition type_from_ggml (type : ggml_type) : Z :=
  match type with
  | GGML_TYPE_F32 => TYPE_F32
  | GGML_TYPE_F16 => TYPE_F16
  | GGML_TYPE_Q4_0 => TYPE_Q4_0
  | GGML_TYPE_Q4_1 => TYPE_Q4_1
  | GGML_TYPE_Q4_2 => TYPE_Q4_2
  | GGML_TYPE_Q4_3 => TYPE_Q4_3
  | GGML_TYPE_Q5_0 => TYPE_Q5_0
  | GGML_TYPE_Q5_1 => TYPE_Q5_1
  | GGML_TYPE_Q8_0 => TYPE_Q8_0
  | GGML_TYPE_Q8_1 => TYPE_COUNT
  | GGML_TYPE_I8 => TYPE_COUNT
  | GGML_TYPE_I16 => TYPE_COUNT
  | GGML_TYPE_I32 => TYPE_COUNT
  | GGML_TYPE_COUNT => TYPE_COUNT
  end.

(** ** Implementation: the sizing planner

    [struct ctx_size] and the functions that add to it.  The two overloads
    of [ctx_size_add] and of [ctx_size_add_tensor] have a name each here.
    [sizeof (struct ggml_tensor)] and [sizeof (void * )] belong to the
    backend and the platform and are parameters. *)

Record ctx_size := mk_ctx_size {
  objects_count : Z;
  objects_size : Z;
  scratch_size : Z
}.

(** A value-initialised [struct ctx_size]. *)
Definition ctx_size_zero : ctx_size := mk_ctx_size 0 0 0.

Section Planner.
Context `{!ggml_backend}.
Variable sizeof_ggml_tensor : Z.
Variable sizeof_pointer : Z.

(** [ctx_size_add_objects (ctx_size, objects, object_size)] *)
Definition ctx_size_add_objects (size : ctx_size) (objects object_size : Z) : ctx_size :=
  mk_ctx_size (objects_count size + objects)
    (objects_size size + object_size * objects)
    (scratch_size size).

(** [ctx_size_add_scratch (ctx_size, length, count)]:
    [scratch_size += ((length + 15) & ~15) * count]. *)
Definition ctx_size_add_scratch (size : ctx_size) (length count : Z) : ctx_size :=
  mk_ctx_size (objects_count size) (objects_size size)
    (scratch_size size + Z.land (length + 15) (Z.lnot 15) * count).

(** [ctx_size_add (ctx_size, objects, scratch, scratches)] *)
Definition ctx_size_add (size : ctx_size) (objects scratch scratches : Z) : ctx_size :=
  ctx_size_add_scratch (ctx_size_add_objects size objects sizeof_ggml_tensor)
    scratch scratches.

(** [ctx_size_add (ctx_size, count, other)] *)
Definition ctx_size_add_size (size : ctx_size) (count : Z) (other : ctx_size) : ctx_size :=
  mk_ctx_size (objects_count size + objects_count other * count)
    (objects_size size + objects_size other * count)
    (scratch_size size + scratch_size other * count).

(** [ctx_size_add_tensor (ctx_size, tensors, views, type, width, height)] *)
Definition ctx_size_add_tensor (size : ctx_size) (tensors views : Z) (type : ggml_type)
    (width height : Z) : ctx_size :=
  ctx_size_add_scratch
    (ctx_size_add_objects size (tensors + views) sizeof_ggml_tensor)
    (ggml_nbytes_of type width height) tensors.

(** [ctx_size_add_tensor (size, tensors, views, header)] *)
Definition ctx_size_add_tensor_header (size : ctx_size) (tensors views : Z)
    (header : tensor_header.t) : ctx_size :=
  ctx_size_add_tensor size tensors views (type_to_ggml (tensor_header.data_type header))
    (tensor_header.width header) (tensor_header.height header).

(** A run of calls [ctx_size_add_tensor (ctx_size, tensors, views, type, width)],
    in the order of the list. *)
Definition ctx_size_add_tensors (size : ctx_size) (calls : list (Z * Z * ggml_type * Z))
    : ctx_size :=
  foldl (fun size '(tensors, views, type, width) =>
           ctx_size_add_tensor size tensors views type width 1) size calls.

(** [rwkv_single_att_size (n_embed)] *)
Definition rwkv_single_att_size (n_embed : Z) : ctx_size :=
  let ptr_nelem := sizeof_pointer / 4 in
  ctx_size_add_tensors ctx_size_zero
    [ (*  x0 *) (2, 1, GGML_TYPE_F32, n_embed);
      (*  xk *) (3, 1, GGML_TYPE_F32, n_embed);
      (*  xk *) (1, 0, GGML_TYPE_I32, ptr_nelem);
      (*  xv *) (3, 1, GGML_TYPE_F32, n_embed);
      (*  xv *) (1, 0, GGML_TYPE_I32, ptr_nelem);
      (*  xr *) (3, 1, GGML_TYPE_F32, n_embed);
      (*  xr *) (1, 0, GGML_TYPE_I32, ptr_nelem);
      (*   r *) (2, 0, GGML_TYPE_F32, n_embed);
      (*   r *) (1, 0, GGML_TYPE_I32, ptr_nelem);
      (*   k *) (1, 0, GGML_TYPE_F32, n_embed);
      (*   v *) (1, 0, GGML_TYPE_F32, n_embed);
      (*  ww *) (1, 0, GGML_TYPE_F32, n_embed);
      (*  qq *) (1, 0, GGML_TYPE_F32, n_embed);
      (*  qq *) (1, 0, GGML_TYPE_I32, ptr_nelem);
      (*  e1 *) (2, 0, GGML_TYPE_F32, n_embed);
      (*  e1 *) (1, 0, GGML_TYPE_I32, ptr_nelem);
      (*  e2 *) (2, 0, GGML_TYPE_F32, n_embed);
      (*  e2 *) (1, 0, GGML_TYPE_I32, ptr_nelem);
      (*   a *) (2, 1, GGML_TYPE_F32, n_embed);
      (*   b *) (1, 1, GGML_TYPE_F32, n_embed);
      (*  ww *) (1, 0, GGML_TYPE_F32, n_embed);
      (*  qq *) (1, 0, GGML_TYPE_F32, n_embed);
      (*  qq *) (1, 0, GGML_TYPE_I32, ptr_nelem);
      (*  e1 *) (2, 0, GGML_TYPE_F32, n_embed);
      (*  e1 *) (1, 0, GGML_TYPE_I32, ptr_nelem);
      (*  e2 *) (2, 0, GGML_TYPE_F32, n_embed);
      (*  e2 *) (1, 0, GGML_TYPE_I32, ptr_nelem);
      (*  xx *) (0, 0, GGML_TYPE_F32, n_embed);
      (*  aa *) (2, 1, GGML_TYPE_F32, n_embed);
      (*  bb *) (1, 1, GGML_TYPE_F32, n_embed);
      (*  pp *) (0, 0, GGML_TYPE_F32, n_embed);
      (* wkv *) (1, 0, GGML_TYPE_F32, n_embed);
      (*   x *) (2, 1, GGML_TYPE_F32, n_embed) ].

(** [rwkv_single_ffn_size (n_embed, ffn_key)] *)
Definition rwkv_single_ffn_size (n_embed ffn_key : Z) : ctx_size :=
  let ptr_nelem := sizeof_pointer / 4 in
  ctx_size_add_tensors ctx_size_zero
    [ (* x0 *) (2, 1, GGML_TYPE_F32, n_embed);
      (* xk *) (3, 1, GGML_TYPE_F32, n_embed);
      (* xk *) (1, 0, GGML_TYPE_I32, ptr_nelem);
      (* xr *) (3, 1, GGML_TYPE_F32, n_embed);
      (* xr *) (1, 0, GGML_TYPE_I32, ptr_nelem);
      (* xx *) (0, 0, GGML_TYPE_F32, n_embed);
      (*  r *) (2, 0, GGML_TYPE_F32, n_embed);
      (*  r *) (1, 0, GGML_TYPE_I32, ptr_nelem);
      (*  k *) (3, 0, GGML_TYPE_F32, ffn_key);
      (*  x *) (2, 1, GGML_TYPE_F32, n_embed) ].

(** [rwkv_single_graph_size (n_vocab, n_embed, n_layer, ffn_key)] *)
Definition rwkv_single_graph_size (n_vocab n_embed n_layer ffn_key : Z) : ctx_size :=
  let size := ctx_size_add_tensors ctx_size_zero
    [ (*  state *) (1, 0, GGML_TYPE_F32, n_layer * 5 * n_embed);
      (*  token *) (1, 0, GGML_TYPE_I32, 1);
      (*      x *) (1, 0, GGML_TYPE_F32, n_embed);
      (*      x *) (2, 1, GGML_TYPE_F32, n_embed);
      (* ffn_xx *) (0, n_layer, GGML_TYPE_F32, n_embed);
      (* att_xx *) (0, n_layer, GGML_TYPE_F32, n_embed);
      (* att_aa *) (0, n_layer, GGML_TYPE_F32, n_embed);
      (* att_bb *) (0, n_layer, GGML_TYPE_F32, n_embed);
      (* att_pp *) (0, n_layer, GGML_TYPE_F32, n_embed) ] in
  (*    att *)
  let size := ctx_size_add_size size n_layer (rwkv_single_att_size n_embed) in
  (*    ffn *)
  let size := ctx_size_add_size size n_layer (rwkv_single_ffn_size n_embed ffn_key) in
  ctx_size_add_tensors size
    [ (*      x *) (2, 1, GGML_TYPE_F32, n_embed);
      (* logits *) (1, 0, GGML_TYPE_F32, n_vocab) ].

End Planner.

(** ** The parameters [rwkv_set_params] asks for *)

(** What the callback of [rwkv_init_from_file] prints for a key that no
    tensor of the file has: the failed [RWKV_ENSURE_OR_FALSE_MSG]. *)
Definition parameter_not_found (key : string) (g : rwkv_globals) : rwkv_globals :=
  RWKV_ENSURE_MSG_fails (fprintf "parameter %s not found" [arg_str key]) 898 "tensor" g.

(** The callback [rwkv_init_from_file] hands to [rwkv_set_params]: the
    tensor recorded under the key, if there is one. *)
Definition parameter_callback (parameters : gmap string ggml_tensor)
    : set_params_callback := fun key g =>
  match parameters !! key with
  | Some tensor => (Some tensor, g)
  | None => (None, parameter_not_found key g)
  end.

(** The keys of layer [i], in the order the loop body of [rwkv_set_params]
    asks for them. *)
Definition layer_parameter_names (i : Z) : list string :=
  let buffer := "blocks." +:+ pretty (as_int32 i) +:+ "." in
  [ buffer +:+ "ln1.weight"; buffer +:+ "ln1.bias";
    buffer +:+ "att.time_mix_k"; buffer +:+ "att.time_mix_v";
    buffer +:+ "att.time_mix_r"; buffer +:+ "att.time_first";
    buffer +:+ "att.time_decay"; buffer +:+ "att.key.weight";
    buffer +:+ "att.value.weight"; buffer +:+ "att.receptance.weight";
    buffer +:+ "att.output.weight"; buffer +:+ "ln2.weight"; buffer +:+ "ln2.bias";
    buffer +:+ "ffn.time_mix_k"; buffer +:+ "ffn.time_mix_r";
    buffer +:+ "ffn.key.weight"; buffer +:+ "ffn.value.weight";
    buffer +:+ "ffn.receptance.weight" ].

(** All the keys of a model of [n_layer] layers, in the order of the calls. *)
Definition parameter_names (n_layer : Z) : list string :=
  ["emb.weight"; "blocks.0.ln0.weight"; "blocks.0.ln0.bias"]
  ++ concat (map (fun i => layer_parameter_names (Z.of_nat i)) (seq 0 (Z.to_nat n_layer)))
  ++ ["ln_out.weight"; "ln_out.bias"; "head.weight"].

(** The first key of a list that [parameters] does not hold. *)
Fixpoint first_missing (parameters : gmap string ggml_tensor) (names : list string)
    : option string :=
  match names with
  | [] => None
  | key :: names =>
      match parameters !! key with
      | Some _ => first_missing parameters names
      | None => Some key
      end
  end.

(** The tensor a key names; the null pointer when there is none. *)
Definition parameter (parameters : gmap string ggml_tensor) (key : string) : ggml_tensor :=
  default ggml_null (parameters !! key).

(** Layer [i] with every weight bound by its key and the five state slots
    still null. *)
Definition layer_of_parameters (parameters : gmap string ggml_tensor) (i : Z)
    : rwkv_layer.t :=
  let buffer := "blocks." +:+ pretty (as_int32 i) +:+ "." in
  let p suffix := parameter parameters (buffer +:+ suffix) in
  rwkv_layer.mk (p "ln1.weight") (p "ln1.bias") (p "att.time_mix_k")
    (p "att.time_mix_v") (p "att.time_mix_r") (p "att.time_first")
    (p "att.time_decay") (p "att.key.weight") (p "att.value.weight")
    (p "att.receptance.weight") (p "att.output.weight") (p "ln2.weight")
    (p "ln2.bias") (p "ffn.time_mix_k") (p "ffn.time_mix_r") (p "ffn.key.weight")
    (p "ffn.value.weight") (p "ffn.receptance.weight")
    ggml_null ggml_null ggml_null ggml_null ggml_null.

(** ** The layers of the graph, one after the other *)

(** Layer [i] as [rwkv_single_graph] hands it to [rwkv_single_att]: its
    five state slots are views of the input state. *)
Definition graph_layer_input (model : rwkv_model.t) (input_state : ggml_tensor)
    (n_embed : Z) (i : nat) : rwkv_layer.t :=
  let layer := default rwkv_layer.unset (rwkv_model.layers model !! i) in
  let output_part_size := n_embed * 4 in
  let state_index := Z.of_nat i * 5 in
  let layer := rwkv_layer.set_ffn_xx layer
    (ggml_view_1d input_state n_embed (output_part_size * (state_index + 0))) in
  let layer := rwkv_layer.set_att_xx layer
    (ggml_view_1d input_state n_embed (output_part_size * (state_index + 1))) in
  let layer := rwkv_layer.set_att_aa layer
    (ggml_view_1d input_state n_embed (output_part_size * (state_index + 2))) in
  let layer := rwkv_layer.set_att_bb layer
    (ggml_view_1d input_state n_embed (output_part_size * (state_index + 3))) in
  rwkv_layer.set_att_pp layer
    (ggml_view_1d input_state n_embed (output_part_size * (state_index + 4))).

(** The two substeps of every layer of [indices] in turn, from the input
    [x]: the output of the last layer, and each layer as its substeps left
    it. *)
Fixpoint graph_layers (model : rwkv_model.t) (input_state : ggml_tensor)
    (n_embed : Z) (x : ggml_tensor) (indices : list nat)
    : ggml_tensor * list rwkv_layer.t :=
  match indices with
  | [] => (x, [])
  | i :: indices =>
      let '(x, layer) := rwkv_single_att x (graph_layer_input model input_state n_embed i) in
      let '(x, layer) := rwkv_single_ffn x layer in
      let '(x, layers) := graph_layers model input_state n_embed x indices in
      (x, layer :: layers)
  end.

(** The five state parts of a layer, in the order of the state vector. *)
Definition state_parts (layer : rwkv_layer.t) : list ggml_tensor :=
  [ rwkv_layer.ffn_xx layer; rwkv_layer.att_xx layer; rwkv_layer.att_aa layer;
    rwkv_layer.att_bb layer; rwkv_layer.att_pp layer ].

(** A tensor that is one row of [n] floats. *)
Definition is_row `{!ggml_backend} (n : Z) (t : ggml_tensor) : Prop :=
  ggml_ne0 t = n /\ ggml_ne1 t = 1 /\ ggml_nbytes t = 4 * n.

(** The object of a tensor that owns its data. *)
Definition ggml_object (t : ggml_tensor) : option nat :=
  match t with
  | ggml_new_tensor object _ _ _ _ => Some object
  | _ => None
  end.

(** ** The channel-mix substep

    The formulas the comments of [rwkv_single_ffn] give, on vectors. *)

Section ChannelMix.
Context `{!rwkv_h, !ggml_backend}.

Record channel_mix_input := mk_channel_mix_input {
  cm_x : list float;
  cm_ln2_w : list float;
  cm_ln2_b : list float;
  cm_tmk : list float;
  cm_tmr : list float;
  cm_Wk : list (list float);
  cm_Wv : list (list float);
  cm_Wr : list (list float);
  cm_ffn_xx : list float
}.

Record channel_mix_output := mk_channel_mix_output {
  cm_x' : list float;
  cm_ffn_xx' : list float
}.

Definition channel_mix (i : channel_mix_input) : channel_mix_output :=
  (* self.layer_norm(x, self.w.blocks[i].ln2) *)
  let x0 := spec_layernorm (cm_x i) (cm_ln2_w i) (cm_ln2_b i) in
  (* xk = x * time_mix_k + state[5 * i + 0] * (1 - time_mix_k) *)
  let xk := vec_add (vec_mul x0 (cm_tmk i))
                    (vec_mul (cm_ffn_xx i) (vec_one_minus (cm_tmk i))) in
  (* xr = x * time_mix_r + state[5 * i + 0] * (1 - time_mix_r) *)
  let xr := vec_add (vec_mul x0 (cm_tmr i))
                    (vec_mul (cm_ffn_xx i) (vec_one_minus (cm_tmr i))) in
  (* r = torch.sigmoid(rw @ xr) *)
  let r := vec_sigmoid (mat_vec (cm_Wr i) xr) in
  (* k = torch.square(torch.relu(kw @ xk)) *)
  let k := map (fun v => fmul v v) (map f_relu (mat_vec (cm_Wk i) xk)) in
  (* x + r * (vw @ k); state[5 * i + 0] = x *)
  mk_channel_mix_output (vec_add (cm_x i) (vec_mul r (mat_vec (cm_Wv i) k))) x0.

Definition channel_mix_input_of (mem : gmap nat ggml_data) (x : ggml_tensor)
    (layer : rwkv_layer.t) : channel_mix_input :=
  mk_channel_mix_input
    (ggml_get_data mem x)
    (ggml_get_data mem (rwkv_layer.ln2_weight layer))
    (ggml_get_data mem (rwkv_layer.ln2_bias layer))
    (ggml_get_data mem (rwkv_layer.ffn_time_mix_k layer))
    (ggml_get_data mem (rwkv_layer.ffn_time_mix_r layer))
    (ggml_rows mem (rwkv_layer.ffn_key layer))
    (ggml_rows mem (rwkv_layer.ffn_value layer))
    (ggml_rows mem (rwkv_layer.ffn_receptance layer))
    (ggml_get_data mem (rwkv_layer.ffn_xx layer)).

End ChannelMix.

(** * Proofs *)

(** ** Error words and messages *)

Lemma has_error_lor (e flag : Z) : has_error (Z.lor e flag) flag.
Proof.
  unfold has_error. apply Z.bits_inj'. intros n _.
  rewrite Z.land_spec, Z.lor_spec.
  destruct (Z.testbit e n), (Z.testbit flag n); reflexivity.
Qed.

Lemma has_error_lor_l (e other flag : Z) :
  has_error e flag -> has_error (Z.lor e other) flag.
Proof.
  unfold has_error. intros He. apply Z.bits_inj'. intros n _.
  apply (f_equal (fun z => Z.testbit z n)) in He.
  rewrite Z.land_spec in He. rewrite Z.land_spec, Z.lor_spec.
  destruct (Z.testbit e n), (Z.testbit flag n), (Z.testbit other n);
    simpl in *; congruence.
Qed.

Lemma RWKV_MSG_frame msg g :
  global_last_error (RWKV_MSG msg g) = global_last_error g
  /\ global_print_errors (RWKV_MSG msg g) = global_print_errors g
  /\ stdout (RWKV_MSG msg g) = stdout g.
Proof. unfold RWKV_MSG. destruct (global_print_errors g) eqn:E; simpl; auto. Qed.

Lemma records_error_ASSERT ERR_VAL g :
  records_error ERR_VAL g (RWKV_ASSERT_fails ERR_VAL g).
Proof. unfold records_error. simpl. split_and!; try done. apply has_error_lor. Qed.

Lemma records_error_ASSERT_MSG ERR_VAL msg line condition g :
  records_error ERR_VAL g (RWKV_ASSERT_MSG_fails ERR_VAL msg line condition g).
Proof.
  unfold records_error, RWKV_ASSERT_MSG_fails.
  destruct (RWKV_MSG_frame (location line condition)
              (RWKV_MSG msg (global_or_error ERR_VAL g))) as (-> & -> & ->).
  destruct (RWKV_MSG_frame msg (global_or_error ERR_VAL g)) as (-> & -> & ->).
  simpl. split_and!; try done. apply has_error_lor.
Qed.

Lemma ASSERT_MSG_last_error ERR_VAL msg line condition g :
  global_last_error (RWKV_ASSERT_MSG_fails ERR_VAL msg line condition g)
  = Z.lor (global_last_error g) ERR_VAL.
Proof. by destruct (records_error_ASSERT_MSG ERR_VAL msg line condition g) as (-> & _). Qed.


Lemma stderr_ASSERT_MSG ERR_VAL msg line condition g :
  stderr (RWKV_ASSERT_MSG_fails ERR_VAL msg line condition g)
  = if global_print_errors g then stderr g ++ [msg; location line condition]
    else stderr g.
Proof.
  destruct g as [e [|] err out];
    unfold RWKV_ASSERT_MSG_fails, RWKV_MSG; simpl; [|done]. by rewrite <- app_assoc.
Qed.

(** ** Reading from a file *)

Lemma fread_data_Some file length bytes file' :
  fread_data file length = (Some bytes, file') ->
  bytes = take (Z.to_nat length) (drop (Z.to_nat (position file)) (contents file))
  /\ file' = mk_FILE (contents file) (position file + length).
Proof.
  unfold fread_data. intros Hread.
  destruct (length <=? 0); [discriminate|].
  case_match; [|discriminate].
  by injection Hread as <- <-.
Qed.

Lemma fread_data_length file length bytes file' :
  fread_data file length = (Some bytes, file') ->
  0 < length /\ Z.of_nat (List.length bytes) = length.
Proof.
  unfold fread_data. intros Hread.
  destruct (Z.leb_spec length 0); [discriminate|].
  destruct (Z.leb_spec length
              (Z.of_nat (List.length (drop (Z.to_nat (position file)) (contents file)))));
    [|discriminate].
  injection Hread as <- _. split; [done|].
  rewrite length_take. lia.
Qed.

Lemma fread_data_position file length bytes file' :
  fread_data file length = (Some bytes, file') ->
  position file' = position file + length /\ 0 < length
  /\ contents file' = contents file.
Proof.
  intros Hread. pose proof (fread_data_length _ _ _ _ Hread) as [Hpos _].
  by apply fread_data_Some in Hread as [_ ->].
Qed.

Lemma uint32_of_bytes_nonneg (bs : list byte) : 0 <= uint32_of_bytes bs.
Proof.
  unfold uint32_of_bytes. induction bs as [|b bs IH]; simpl; [lia|].
  pose proof (N2Z.is_nonneg (Byte.to_N b)). lia.
Qed.


Lemma string_of_list_byte_length (bs : list byte) :
  String.length (String.string_of_list_byte bs) = length bs.
Proof.
  unfold String.string_of_list_byte.
  induction bs as [|b bs IH]; [reflexivity|]. simpl. by f_equal.
Qed.

(** ** The tensor-header reader *)

Section TensorHeader.
Context `{!rwkv_h}.

(** C8: [fread_tensor_header] fails with SHAPE on a record whose dimension
    count is neither 1 nor 2; it fails with DATA_TYPE when the data-type
    code is not below the type count (the check that follows the one on the
    dimension count); for a 1-D record it sets the height to 1 and has read
    the 16 bytes of the first four fields only; the height field is read,
    by one more [fread_uint32], exactly when the dimension count is 2.  A
    record whose data-type code is not below the type count is rejected
    whatever its dimension count. *)
Theorem fread_tensor_header_checks (file : FILE) (g : rwkv_globals)
    (bytes : list byte) (file1 : FILE) :
  fread_data file (tensor_header.sizeof - 4) = (Some bytes, file1) ->
  let header := tensor_header.of_bytes bytes 1 in
  let dim_count := tensor_header.dim_count header in
  let data_type := tensor_header.data_type header in
  (dim_count <> 1 -> dim_count <> 2 ->
     exists g', fread_tensor_header file g = (None, file1, g')
                /\ records_error RWKV_ERROR_SHAPE g g')
  /\ ((dim_count = 1 \/ dim_count = 2) -> TYPE_COUNT <= data_type ->
     exists g', fread_tensor_header file g = (None, file1, g')
                /\ records_error RWKV_ERROR_DATA_TYPE g g')
  /\ (dim_count = 1 -> data_type < TYPE_COUNT ->
      type_to_ggml data_type <> GGML_TYPE_UNKNOWN ->
     fread_tensor_header file g = (Some header, file1, g)
     /\ tensor_header.height header = 1
     /\ position file1 = position file + 16)
  /\ (dim_count = 2 -> data_type < TYPE_COUNT ->
      type_to_ggml data_type <> GGML_TYPE_UNKNOWN ->
     fread_tensor_header file g
     = match fread_uint32 file1 with
       | (Some height, file2) =>
           (Some (tensor_header.set_height header height), file2, g)
       | (None, file2) => (None, file2, RWKV_ASSERT_fails RWKV_ERROR_FILE_READ g)
       end)
  /\ (TYPE_COUNT <= data_type ->
     exists g', fread_tensor_header file g = (None, file1, g')
                /\ (records_error RWKV_ERROR_SHAPE g g'
                    \/ records_error RWKV_ERROR_DATA_TYPE g g')).
Proof.
  intros Hread header dim_count data_type.
  unfold fread_tensor_header. rewrite Hread. fold header. fold dim_count. fold data_type.
  split_and!.
  - intros H1 H2.
    destruct (Z.eqb_spec dim_count 1); [done|]. destruct (Z.eqb_spec dim_count 2); [done|].
    simpl. eexists. split; [reflexivity | apply records_error_ASSERT_MSG].
  - intros Hdim Htype.
    replace ((dim_count =? 1) || (dim_count =? 2)) with true
      by (destruct Hdim as [-> | ->]; done).
    destruct (Z.ltb_spec data_type TYPE_COUNT); [lia|].
    simpl. eexists. split; [reflexivity | apply records_error_ASSERT_MSG].
  - intros Hdim Htype Hggml. rewrite Hdim.
    destruct (Z.ltb_spec data_type TYPE_COUNT); [|lia].
    rewrite bool_decide_eq_true_2 by done. simpl.
    split_and!; [done | done |].
    by apply fread_data_Some in Hread as [_ ->].
  - intros Hdim Htype Hggml. rewrite Hdim.
    destruct (Z.ltb_spec data_type TYPE_COUNT); [|lia].
    rewrite bool_decide_eq_true_2 by done. simpl.
    destruct (fread_uint32 file1) as [[height|] file2]; reflexivity.
  - intros Htype.
    destruct ((dim_count =? 1) || (dim_count =? 2)); simpl.
    + destruct (Z.ltb_spec data_type TYPE_COUNT); [lia|].
      simpl. eexists. split; [reflexivity | right; apply records_error_ASSERT_MSG].
    + eexists. split; [reflexivity | left; apply records_error_ASSERT_MSG].
Qed.


Lemma fread_tensor_header_progress file g header file' g' :
  fread_tensor_header file g = (Some header, file', g') ->
  position file < position file'
  /\ contents file' = contents file
  /\ 0 <= tensor_header.width header /\ 0 <= tensor_header.height header.
Proof.
  unfold fread_tensor_header.
  destruct (fread_data file _) as [[bytes|] file1] eqn:Hread; [|discriminate].
  apply fread_data_position in Hread as (Hpos & _ & Hc).
  unfold tensor_header.sizeof in Hpos.
  repeat (case_match; try discriminate).
  - unfold fread_uint32 in *.
    destruct (fread_data file1 4) as [[hb|] file2] eqn:Hread2; simplify_eq/=.
    apply fread_data_position in Hread2 as (Hpos2 & _ & Hc2).
    intros [= <- <- _]. simpl.
    split_and!; [lia | congruence | apply uint32_of_bytes_nonneg.. ].
  - intros [= <- <- _]. simpl.
    split_and!; [lia | done | apply uint32_of_bytes_nonneg | lia].
Qed.

End TensorHeader.

(** ** Removed formats in the three read paths *)

Section ReadPaths.
Context `{!rwkv_h, !ggml_backend}.


End ReadPaths.

(** ** The file header *)

Section FileHeader.
Context `{!rwkv_h}.

(** C2 (amended): for a header that passes the checks of magic, version
    range and type range, reading with type verification succeeds exactly
    when the type code is not a removed format and, if the backend type is
    quantized, the version is [RWKV_FILE_VERSION_1].  A removed format is
    rejected with DATA_TYPE and the message that the format was removed; a
    supported quantized format of another version is rejected with
    DATA_TYPE and the message about the old quantizer; the two messages
    differ. *)
Theorem fread_file_header_quantized_rule (file : FILE) (g : rwkv_globals)
    (bytes : list byte) (file1 : FILE) :
  fread_data file file_header.sizeof = (Some bytes, file1) ->
  let header := file_header.of_bytes bytes in
  let ggml_type := type_to_ggml (file_header.data_type header) in
  file_header.magic header = RWKV_FILE_MAGIC ->
  is_file_version_in_range (file_header.version header) = true ->
  file_header.data_type header < TYPE_COUNT ->
  (* a removed format: rejected whatever the version *)
  (ggml_type = GGML_TYPE_UNKNOWN ->
     exists g', fread_file_header file true g = (None, file1, g')
       /\ records_error RWKV_ERROR_DATA_TYPE g g'
       /\ (global_print_errors g = true ->
           stderr g' = stderr g
             ++ [format_removed_message (file_header.data_type header);
                 location 247 "ggml_type != GGML_TYPE_UNKNOWN"]))
  (* a supported quantized format of another version than RWKV_FILE_VERSION_1 *)
  /\ (ggml_type <> GGML_TYPE_UNKNOWN -> ggml_is_quantized ggml_type = true ->
      file_header.version header <> RWKV_FILE_VERSION_1 ->
     exists g', fread_file_header file true g = (None, file1, g')
       /\ records_error RWKV_ERROR_DATA_TYPE g g'
       /\ (global_print_errors g = true ->
           stderr g' = stderr g
             ++ [old_quantizer_message (file_header.data_type header);
                 location 256
                   "(!ggml_is_quantized(ggml_type) || header.version == RWKV_FILE_VERSION_1)"]))
  (* accepted otherwise *)
  /\ (ggml_type <> GGML_TYPE_UNKNOWN ->
      (ggml_is_quantized ggml_type = true ->
       file_header.version header = RWKV_FILE_VERSION_1) ->
     fread_file_header file true g = (Some header, file1, g))
  (* the two messages differ *)
  /\ format_removed_message (file_header.data_type header)
     <> old_quantizer_message (file_header.data_type header).
Proof.
  intros Hread header ggml_type Hmagic Hversion Htype.
  unfold fread_file_header. rewrite Hread. fold header. fold ggml_type.
  clearbody header. clear Hread.
  rewrite Hmagic, Z.eqb_refl, Hversion.
  destruct (Z.ltb_spec (file_header.data_type header) TYPE_COUNT); [|lia]. simpl.
  split_and!.
  - intros Hunknown. rewrite bool_decide_eq_false_2 by (by intros ?). simpl.
    eexists. split_and!; [reflexivity | apply records_error_ASSERT_MSG |].
    intros Hprint. by rewrite stderr_ASSERT_MSG, Hprint.
  - intros Hknown Hq Hv. rewrite bool_decide_eq_true_2 by done. rewrite Hq. simpl.
    destruct (Z.eqb_spec (file_header.version header) RWKV_FILE_VERSION_1); [done|].
    eexists. split_and!; [reflexivity | apply records_error_ASSERT_MSG |].
    intros Hprint. by rewrite stderr_ASSERT_MSG, Hprint.
  - intros Hknown Hrule. rewrite bool_decide_eq_true_2 by done. simpl.
    destruct (ggml_is_quantized ggml_type); simpl; [|reflexivity].
    by rewrite Hrule, Z.eqb_refl.
  - unfold format_removed_message, old_quantizer_message. intros [= Hfmt].
Qed.


Lemma fread_file_header_Some file verify g header file' g' :
  fread_file_header file verify g = (Some header, file', g') ->
  exists bytes, header = file_header.of_bytes bytes.
Proof.
  unfold fread_file_header.
  destruct (fread_data file file_header.sizeof) as [[bytes|] file1]; [|discriminate].
  repeat (case_match; try discriminate); intros [= <- _ _]; eauto.
Qed.

(** With the verification switched off, a header of a removed format is
    returned to the caller. *)
Lemma fread_file_header_unverified (file : FILE) (g : rwkv_globals)
    (bytes : list byte) (file1 : FILE) :
  fread_data file file_header.sizeof = (Some bytes, file1) ->
  let header := file_header.of_bytes bytes in
  file_header.magic header = RWKV_FILE_MAGIC ->
  is_file_version_in_range (file_header.version header) = true ->
  file_header.data_type header < TYPE_COUNT ->
  fread_file_header file false g = (Some header, file1, g).
Proof.
  intros Hread header Hmagic Hversion Htype.
  unfold fread_file_header. rewrite Hread. fold header. clearbody header.
  rewrite Hmagic, Z.eqb_refl, Hversion.
  destruct (Z.ltb_spec (file_header.data_type header) TYPE_COUNT); [|lia]. reflexivity.
Qed.

End FileHeader.

(** ** The quantizer *)

Section QuantizePolicy.
Context `{!rwkv_h, !ggml_backend}.

Lemma quantize_selected_iff (header : tensor_header.t) (name : string) :
  quantize_selected header name = true
  <-> tensor_header.dim_count header = 2
      /\ name <> "emb.weight" /\ name <> "head.weight"
      /\ (tensor_header.data_type header = TYPE_F32
          \/ tensor_header.data_type header = TYPE_F16).
Proof.
  unfold quantize_selected.
  rewrite !andb_true_iff, orb_true_iff, !negb_true_iff, !Z.eqb_eq.
  rewrite <- !not_true_iff_false, !String.eqb_eq. tauto.
Qed.

Lemma fwrite_data_all (file data : list byte) :
  data <> [] ->
  fwrite_data file data (Z.of_nat (length data)) = (true, file ++ data).
Proof.
  intros Hdata. unfold fwrite_data.
  destruct (Z.leb_spec (Z.of_nat (length data)) 0) as [Hle|_].
  - destruct data; [done | simpl in Hle; lia].
  - by rewrite Nat2Z.id, firstn_all.
Qed.

Lemma fwrite_tensor_header_ok (file : list byte) (header : tensor_header.t) g :
  fwrite_tensor_header file header g = (true, file ++ tensor_header_bytes header, g).
Proof.
  unfold fwrite_tensor_header, tensor_header_bytes, fwrite_data.
  destruct (tensor_header.dim_count header =? 1); reflexivity.
Qed.

(** C6: in one iteration of the quantizer's loop, the record read is
    quantized exactly when it is 2-D, its name is neither [emb.weight] nor
    [head.weight], and its type is f32 or f16.  A quantized record is
    written with the target type in its header and with the bytes
    [ggml_quantize_chunk] produced for the target backend type from the
    payload as floats (an f16 payload goes through [ggml_fp16_to_fp32_row]
    first).  Every other record, [emb.weight] and [head.weight] among them,
    is written with the header and the payload it was read with. *)
Theorem quantize_step_policy (target_type : Z) (target_ggml : ggml_type)
    (input : FILE) (st : quantize_state) (g : rwkv_globals)
    (header : tensor_header.t) (key data : list byte)
    (input1 input2 input3 : FILE) (g1 : rwkv_globals) :
  fread_tensor_header input g = (Some header, input1, g1) ->
  fread_tensor_key input1 header = (Some key, input2) ->
  fread_tensor_data input2 header = (Some data, input3) ->
  let name := String.string_of_list_byte key in
  let orig_type := tensor_header.data_type header in
  let nelements := tensor_header.width header * tensor_header.height header in
  (* which records are quantized *)
  (quantize_selected header name = true
   <-> tensor_header.dim_count header = 2
       /\ name <> "emb.weight" /\ name <> "head.weight"
       /\ (orig_type = TYPE_F32 \/ orig_type = TYPE_F16))
  (* a quantized record: the header names the target type, the payload is
     what ggml_quantize_chunk wrote, from floats (converted first when the
     source is f16) *)
  /\ (quantize_selected header name = true ->
      let floats :=
        if orig_type =? TYPE_F16
        then ggml_fp16_to_fp32_row data
               (vector_resize (scratch st)
                  (tensor_bytes (tensor_header.set_data_type header TYPE_F32)))
               nelements
        else data in
      let out_header := tensor_header.set_data_type header target_type in
      let destination :=
        vector_resize (if orig_type =? TYPE_F16 then data else scratch st)
          (tensor_bytes out_header) in
      let quantized :=
        (ggml_quantize_chunk target_ggml floats destination 0 nelements
           (replicate 16 0)).1 in
      0 < tensor_bytes out_header ->
      exists st' g',
        quantize_step target_type target_ggml input st g = (true, st', input3, g')
        /\ output st'
           = output st ++ tensor_header_bytes out_header ++ key
             ++ take (Z.to_nat (tensor_bytes out_header)) quantized)
  (* every other record is passed through with its type and payload *)
  /\ (quantize_selected header name = false ->
      exists st' g',
        quantize_step target_type target_ggml input st g = (true, st', input3, g')
        /\ output st' = output st ++ tensor_header_bytes header ++ key ++ data).
Proof.
  intros Hheader Hkey Hdata name orig_type nelements.
  split; [apply quantize_selected_iff|].
  pose proof Hkey as Hkeylen. apply fread_data_length in Hkeylen as [Hkpos Hklen].
  pose proof Hdata as Hdatalen. apply fread_data_length in Hdatalen as [Hdpos Hdlen].
  assert (fwrite_string_name : forall bytes, fwrite_string bytes name = (true, bytes ++ key)).
  { intros bytes. unfold fwrite_string, name.
    rewrite String.list_byte_of_string_of_list_byte, string_of_list_byte_length.
    apply fwrite_data_all. intros ->. simpl in Hklen. lia. }
  split.
  - intros Hsel floats out_header destination quantized Hsize.
    unfold quantize_step. rewrite Hheader, Hkey, Hdata. fold name. rewrite Hsel.
    cbn zeta. rewrite fwrite_tensor_header_ok. cbn [output].
    rewrite fwrite_string_name.
    unfold fwrite_data.
    assert (quantize_tensor target_type target_ggml header data (scratch st)
            = mk_converted out_header quantized
                (if orig_type =? TYPE_F16
                 then ggml_fp16_to_fp32_row data
                        (vector_resize (scratch st)
                           (tensor_bytes (tensor_header.set_data_type header TYPE_F32)))
                        nelements
                 else data)
                (tensor_bytes out_header)
                (ggml_quantize_chunk target_ggml floats destination 0 nelements
                   (replicate 16 0)).2) as ->.
    { unfold quantize_tensor. fold orig_type. fold nelements.
      subst quantized destination floats out_header.
      destruct (orig_type =? TYPE_F16); cbn zeta;
        destruct (ggml_quantize_chunk _ _ _ _ _ _) as [q h]; reflexivity. }
    cbn [out_header new_size out_container out_scratch hist_cur].
    destruct (Z.leb_spec (tensor_bytes out_header) 0); [lia|].
    do 2 eexists. split; [reflexivity|].
    cbn [output]. by rewrite <- !app_assoc.
  - intros Hsel.
    unfold quantize_step. rewrite Hheader, Hkey, Hdata. fold name. rewrite Hsel.
    cbn zeta. cbn [out_header new_size out_container out_scratch hist_cur].
    rewrite fwrite_tensor_header_ok. cbn [output].
    rewrite fwrite_string_name.
    unfold fread_tensor_data in Hdata.
    replace (tensor_bytes header) with (Z.of_nat (length data)) by done.
    rewrite fwrite_data_all by (intros ->; simpl in Hdlen; lia).
    do 2 eexists. split; [reflexivity|].
    cbn [output]. by rewrite <- !app_assoc.
Qed.


(** The quantizer reads the file header with the type verification on: a
    header of a removed format makes it return in that read, with
    DATA_TYPE and then FILE recorded, before the test that the source type
    is f32 or f16. *)
Lemma quantize_verifies_header_type (input_path output_path target_name : string)
    (input : list byte) (g : rwkv_globals) (bytes : list byte) (file1 : FILE) :
  type_from_string target_name <> TYPE_UNKNOWN ->
  type_to_ggml (type_from_string target_name) <> GGML_TYPE_UNKNOWN ->
  fread_data (mk_FILE input 0) file_header.sizeof = (Some bytes, file1) ->
  let header := file_header.of_bytes bytes in
  file_header.magic header = RWKV_FILE_MAGIC ->
  is_file_version_in_range (file_header.version header) = true ->
  file_header.data_type header < TYPE_COUNT ->
  type_to_ggml (file_header.data_type header) = GGML_TYPE_UNKNOWN ->
  rwkv_quantize_model_file input_path (Some input) output_path true target_name g
  = (false, Some [],
     RWKV_ASSERT_MSG_fails RWKV_ERROR_FILE (fprintf "invalid file header" [])
       1003 "fread_file_header(input, file_header)"
       (RWKV_ASSERT_MSG_fails RWKV_ERROR_DATA_TYPE
          (format_removed_message (file_header.data_type header))
          247 "ggml_type != GGML_TYPE_UNKNOWN"
          (RWKV_MSG (fprintf "Loading model from '%s'\n" [arg_str input_path])
             (global_set_error RWKV_ERROR_NONE g)))).
Proof.
  intros Htarget Hggml Hread header Hmagic Hversion Htype Hremoved.
  unfold rwkv_quantize_model_file.
  rewrite !bool_decide_eq_true_2 by done. cbn [negb].
  unfold fread_file_header. rewrite Hread. fold header. clearbody header.
  rewrite Hmagic, Z.eqb_refl, Hversion.
  destruct (Z.ltb_spec (file_header.data_type header) TYPE_COUNT); [|lia].
  rewrite Hremoved. reflexivity.
Qed.

End QuantizePolicy.

(** ** The loops over the tensor records return *)

Section Termination.
Context `{!rwkv_h, !ggml_backend}.

Lemma tensor_bytes_nonneg header :
  0 <= tensor_header.width header -> 0 <= tensor_header.height header ->
  0 <= tensor_bytes header.
Proof.
  intros Hw Hh. unfold tensor_bytes, ggml_nbytes_of.
  destruct (type_to_ggml _); try apply ggml_quantized_nbytes_nonneg; nia.
Qed.

(** The three loops over the tensor records return: every iteration that
    goes on has moved the read position forward. *)
Lemma sizing_pass_returns fuel file size ffn_key g :
  (Z.to_nat (size - position file) < fuel)%nat ->
  is_Some (sizing_pass fuel file size ffn_key g).
Proof.
  revert file ffn_key g. induction fuel as [|fuel IH]; intros file ffn_key g Hfuel; [lia|].
  simpl. unfold ftell. destruct (Z.ltb_spec (position file) size); [|by eexists].
  destruct (fread_tensor_header file g) as [[[header|] file1] g1] eqn:Hheader; [|by eexists].
  apply fread_tensor_header_progress in Hheader as (Hpos1 & _ & Hw & Hh).
  unfold fread_string.
  destruct (fread_data file1 _) as [[kb|] file2] eqn:Hkey; simpl; [|by eexists].
  apply fread_data_position in Hkey as (Hpos2 & Hk & _).
  pose proof (tensor_bytes_nonneg header Hw Hh) as Hbytes.
  unfold fseek_cur. destruct (Z.leb_spec 0 (position file2 + tensor_bytes header));
    [|by eexists].
  apply IH. simpl. lia.
Qed.

Lemma fread_ggml_tensor_progress file ctx g r file' ctx' g' :
  fread_ggml_tensor file ctx g = (Some r, file', ctx', g') ->
  position file < position file'.
Proof.
  unfold fread_ggml_tensor.
  destruct (fread_tensor_header file g) as [[[header|] file1] g1] eqn:Hheader; [|discriminate].
  apply fread_tensor_header_progress in Hheader as (Hpos1 & _).
  unfold fread_ggml_tensor_data, fread_string.
  destruct (fread_data file1 _) as [[kb|] file2] eqn:Hkey; simpl; [|discriminate].
  apply fread_data_position in Hkey as (Hpos2 & Hk & _).
  case_match; [discriminate|].
  destruct (if tensor_header.dim_count header =? 1 then _ else _) as [tensor ctx1].
  destruct (fread_data file2 _) as [[db|] file3] eqn:Hdata; [|discriminate].
  apply fread_data_position in Hdata as (Hpos3 & Hd & _).
  intros [= _ <- _ _]. lia.
Qed.

Lemma binding_pass_returns fuel file size ctx parameters g :
  (Z.to_nat (size - position file) < fuel)%nat ->
  is_Some (binding_pass fuel file size ctx parameters g).
Proof.
  revert file ctx parameters g.
  induction fuel as [|fuel IH]; intros file ctx parameters g Hfuel; [lia|].
  simpl. unfold ftell. destruct (Z.ltb_spec (position file) size); [|by eexists].
  destruct (fread_ggml_tensor file ctx g) as [[[[[name tensor]|] file1] ctx1] g1] eqn:Hread;
    [|by eexists].
  apply fread_ggml_tensor_progress in Hread. apply IH. lia.
Qed.

Lemma quantize_step_progress target_type target_ggml input st g st' input' g' :
  quantize_step target_type target_ggml input st g = (true, st', input', g') ->
  position input < position input'.
Proof.
  unfold quantize_step.
  destruct (fread_tensor_header input g) as [[[header|] input1] g1] eqn:Hheader;
    [|discriminate].
  apply fread_tensor_header_progress in Hheader as (Hpos1 & _).
  unfold fread_tensor_key, fread_tensor_data.
  destruct (fread_data input1 _) as [[kb|] input2] eqn:Hkey; [|discriminate].
  apply fread_data_position in Hkey as (Hpos2 & Hk & _).
  destruct (fread_data input2 _) as [[db|] input3] eqn:Hdata; [|discriminate].
  apply fread_data_position in Hdata as (Hpos3 & Hd & _).
  cbn zeta. destruct (if quantize_selected _ _ then _ else _) as [c g2].
  repeat (case_match; try discriminate). intros [= _ <- _]. lia.
Qed.

Lemma quantize_loop_returns fuel target_type target_ggml input size st g :
  (Z.to_nat (size - position input) < fuel)%nat ->
  is_Some (quantize_loop fuel target_type target_ggml input size st g).
Proof.
  revert input st g. induction fuel as [|fuel IH]; intros input st g Hfuel; [lia|].
  simpl. unfold ftell. destruct (Z.ltb_spec (position input) size); [|by eexists].
  destruct (quantize_step _ _ _ _ _) as [[[[|] st1] input1] g1] eqn:Hstep; [|by eexists].
  apply quantize_step_progress in Hstep. apply IH. lia.
Qed.

(** The fuel the two entry points give their loops is enough. *)
Lemma enough_fuel_is_enough (file : FILE) :
  0 <= position file ->
  (Z.to_nat (st_size file - position file) < enough_fuel file)%nat.
Proof. unfold st_size, enough_fuel. lia. Qed.

Lemma loops_do_not_run_out (file : FILE) (ffn_key : Z) (ctx : ggml_context)
    (parameters : gmap string ggml_tensor) (target_type : Z) (target_ggml : ggml_type)
    (st : quantize_state) (g : rwkv_globals) :
  0 <= position file ->
  is_Some (sizing_pass (enough_fuel file) file (st_size file) ffn_key g)
  /\ is_Some (binding_pass (enough_fuel file) file (st_size file) ctx parameters g)
  /\ is_Some (quantize_loop (enough_fuel file) target_type target_ggml file
                (st_size file) st g).
Proof.
  intros Hpos. pose proof (enough_fuel_is_enough file Hpos).
  split_and!;
    [by apply sizing_pass_returns | by apply binding_pass_returns
    | by apply quantize_loop_returns].
Qed.

End Termination.

(** ** The element-wise operators *)

Section OperatorLoops.
Context `{!ggml_backend}.

(** The loop of an element-wise operator over a destination row of the
    right length computes the operator at every index. *)
Lemma for_cols_prefix (body : nat -> float) (dest : list float) (k : nat) :
  (k <= length dest)%nat ->
  foldl (fun dest i => <[i := body i]> dest) dest (seq 0 k)
  = map body (seq 0 k) ++ drop k dest.
Proof.
  induction k as [|k IH]; intros Hk.
  - by rewrite drop_0.
  - rewrite seq_S, foldl_app, IH, map_app by lia. cbn [foldl map]. rewrite Nat.add_0_l.
    destruct (drop k dest) as [|d rest] eqn:Hdrop.
    { apply (f_equal length) in Hdrop. rewrite length_drop in Hdrop. simpl in Hdrop. lia. }
    replace (drop (S k) dest) with rest
      by (rewrite <- (Nat.add_1_r k), <- drop_drop, Hdrop; reflexivity).
    replace k with (length (map body (seq 0 k)) + 0)%nat at 1
      by (rewrite length_map, length_seq; lia).
    rewrite insert_app_r. simpl. by rewrite <- app_assoc.
Qed.

Lemma for_cols_map (body : nat -> float) (dest : list float) (n : nat) :
  length dest = n ->
  for_cols (Z.of_nat n) body dest = map body (seq 0 n).
Proof.
  intros Hn. unfold for_cols. rewrite Nat2Z.id, for_cols_prefix by lia.
  rewrite drop_ge by lia. apply app_nil_r.
Qed.

Lemma map_lookup_total_seq {B} (f : float -> B) (src : list float) :
  map (fun i => f (src !!! i)) (seq 0 (length src)) = map f src.
Proof.
  apply list_eq. intros i. rewrite !list_lookup_fmap.
  destruct (decide (i < length src)%nat) as [Hi|Hi].
  - rewrite lookup_seq_lt by done. simpl.
    destruct (lookup_lt_is_Some_2 src i Hi) as [x Hx].
    rewrite Hx. simpl. by rewrite (list_lookup_total_correct _ _ _ Hx).
  - rewrite lookup_seq_ge by lia. rewrite lookup_ge_None_2 by lia. reflexivity.
Qed.

Lemma zip_lookup_total_seq (f : float -> float -> float) (src0 src1 : list float) :
  length src1 = length src0 ->
  map (fun i => f (src0 !!! i) (src1 !!! i)) (seq 0 (length src0)) = zip_with f src0 src1.
Proof.
  intros Hlen. apply list_eq. intros i. rewrite list_lookup_fmap, lookup_zip_with.
  destruct (decide (i < length src0)%nat) as [Hi|Hi].
  - rewrite lookup_seq_lt by done. simpl.
    destruct (lookup_lt_is_Some_2 src0 i Hi) as [x Hx].
    destruct (lookup_lt_is_Some_2 src1 i ltac:(lia)) as [y Hy].
    rewrite Hx, Hy. simpl.
    by rewrite (list_lookup_total_correct _ _ _ Hx), (list_lookup_total_correct _ _ _ Hy).
  - rewrite lookup_seq_ge by lia. rewrite (lookup_ge_None_2 src0) by lia. reflexivity.
Qed.

Lemma rwkv_exp_impl_row (src : list float) :
  rwkv_exp_impl (Z.of_nat (length src)) (replicate (length src) f_zero) src
  = map expf src.
Proof.
  unfold rwkv_exp_impl. rewrite for_cols_map by apply length_replicate.
  apply (map_lookup_total_seq expf).
Qed.

Lemma rwkv_1_minus_x_impl_row (src : list float) :
  rwkv_1_minus_x_impl (Z.of_nat (length src)) (replicate (length src) f_zero) src
  = map (fsub f_one) src.
Proof.
  unfold rwkv_1_minus_x_impl. rewrite for_cols_map by apply length_replicate.
  apply (map_lookup_total_seq (fsub f_one)).
Qed.

Lemma rwkv_sigmoid_impl_row (src : list float) :
  rwkv_sigmoid_impl (Z.of_nat (length src)) (replicate (length src) f_zero) src
  = map (fun x => fdiv f_one (fadd f_one (expf (fneg x)))) src.
Proof.
  unfold rwkv_sigmoid_impl. rewrite for_cols_map by apply length_replicate.
  apply (map_lookup_total_seq (fun x => fdiv f_one (fadd f_one (expf (fneg x))))).
Qed.

Lemma rwkv_max_impl_row (src0 src1 : list float) :
  length src1 = length src0 ->
  rwkv_max_impl (Z.of_nat (length src0)) (replicate (length src0) f_zero) src0 src1
  = zip_with fmaxf src0 src1.
Proof.
  intros Hlen. unfold rwkv_max_impl. rewrite for_cols_map by apply length_replicate.
  by apply zip_lookup_total_seq.
Qed.

End OperatorLoops.

(** ** The time-mix substep *)

Section TimeMix.
Context `{!rwkv_h, !ggml_backend}.

Lemma ggml_mul_mat_rows mem (a b : ggml_tensor) :
  ggml_get_data mem (ggml_mul_mat a b) = mat_vec (ggml_rows mem a) (ggml_get_data mem b).
Proof.
  unfold mat_vec, ggml_rows. simpl. rewrite map_map. reflexivity.
Qed.

Lemma length_mat_vec (W : list (list float)) (x : list float) :
  length (mat_vec W x) = length W.
Proof. unfold mat_vec. apply length_map. Qed.

Lemma length_ggml_rows mem t : length (ggml_rows mem t) = Z.to_nat (ggml_ne1 t).
Proof. unfold ggml_rows. by rewrite length_map, length_seq. Qed.

(** C1: for every layer and layer input, the graph [rwkv_single_att] builds
    computes the time-mix substep of the specification: its result is
    x + Wo (r * (a / b)) with ww = time_first + k, qq = max (att_pp, ww),
    e1 = exp (att_pp - qq), e2 = exp (ww - qq), a = e1 * att_aa + e2 * v,
    b = e1 * att_bb + e2, and the state parts it leaves in the layer are
    att_xx' = x0, att_aa' = e1' * att_aa + e2' * v, att_bb' = e1' * att_bb + e2',
    att_pp' = qq' with ww' = att_pp + time_decay, qq' = max (ww', k),
    e1' = exp (ww' - qq'), e2' = exp (k - qq').  The vectors the two maxima
    take have the same number of elements [n]. *)
Theorem rwkv_single_att_computes_time_mix (mem : gmap nat ggml_data)
    (x : ggml_tensor) (layer : rwkv_layer.t) (n : nat) :
  length (ggml_get_data mem (rwkv_layer.att_pp layer)) = n ->
  length (ggml_get_data mem (rwkv_layer.att_time_first layer)) = n ->
  length (ggml_get_data mem (rwkv_layer.att_time_decay layer)) = n ->
  Z.to_nat (ggml_ne1 (rwkv_layer.att_key layer)) = n ->
  let out := spec_time_mix (time_mix_input_of mem x layer) in
  let '(x', layer') := rwkv_single_att x layer in
  ggml_get_data mem x' = tm_x' out
  /\ ggml_get_data mem (rwkv_layer.att_xx layer') = tm_att_xx' out
  /\ ggml_get_data mem (rwkv_layer.att_aa layer') = tm_att_aa' out
  /\ ggml_get_data mem (rwkv_layer.att_bb layer') = tm_att_bb' out
  /\ ggml_get_data mem (rwkv_layer.att_pp layer') = tm_att_pp' out.
Proof.
  intros Hpp Hfirst Hdecay Hkey.
  unfold rwkv_single_att, spec_time_mix, time_mix_input_of.
  cbn [tm_x tm_ln1_w tm_ln1_b tm_tmk tm_tmv tm_tmr tm_time_first tm_time_decay
       tm_Wk tm_Wv tm_Wr tm_Wo tm_att_xx tm_att_aa tm_att_bb tm_att_pp
       tm_x' tm_att_xx' tm_att_aa' tm_att_bb' tm_att_pp'
       rwkv_layer.att_xx rwkv_layer.att_aa rwkv_layer.att_bb rwkv_layer.att_pp
       rwkv_layer.att_output
       rwkv_layer.set_att_xx rwkv_layer.set_att_aa rwkv_layer.set_att_bb
       rwkv_layer.set_att_pp].
  unfold rwkv_layer_norm, rwkv_exp, rwkv_sigmoid, rwkv_max, rwkv_1_minus_x.
  cbn [ggml_get_data call_unary call_binary].
  unfold mat_vec, ggml_rows. rewrite !map_map.
  rewrite !rwkv_exp_impl_row, !rwkv_1_minus_x_impl_row, !rwkv_sigmoid_impl_row.
  rewrite !rwkv_max_impl_row
    by (rewrite ?length_zip_with, ?length_map, ?length_seq; lia).
  unfold spec_layernorm, vec_add, vec_sub, vec_mul, vec_div, vec_max, vec_exp,
    vec_sigmoid, vec_one_minus.
  split_and!; reflexivity.
Qed.

End TimeMix.

(** ** The fresh state *)

Section FreshState.
Context `{!rwkv_h, !ggml_backend}.

Lemma replicate_cons_middle {A} (v : A) (k : nat) (l : list A) :
  replicate k v ++ v :: l = v :: replicate k v ++ l.
Proof. induction k as [|k IH]; simpl; [reflexivity | by rewrite IH]. Qed.

Lemma length_concat_replicate {A} (k : nat) (l : list A) :
  length (concat (replicate k l)) = (k * length l)%nat.
Proof.
  induction k as [|k IH]; [reflexivity|].
  change (replicate (S k) l) with (l :: replicate k l).
  change (concat (l :: replicate k l)) with (l ++ concat (replicate k l)).
  rewrite length_app, IH. lia.
Qed.

(** A loop that writes [v] at the [k] indices from [start] on. *)
Lemma fill_prefix (v z : float) (a b : list float) (n k : nat) :
  (k <= n)%nat ->
  foldl (fun data j => <[(length a + j)%nat := v]> data)
        (a ++ replicate n z ++ b) (seq 0 k)
  = a ++ replicate k v ++ replicate (n - k) z ++ b.
Proof.
  induction k as [|k IH]; intros Hk.
  - simpl. by rewrite Nat.sub_0_r.
  - rewrite seq_S, foldl_app, IH by lia. simpl.
    rewrite insert_app_r.
    replace (n - k)%nat with (S (n - S k)) by lia.
    rewrite <- (Nat.add_0_r k) at 1.
    rewrite <- (length_replicate k v) at 1.
    rewrite insert_app_r. simpl.
    f_equal. apply replicate_cons_middle.
Qed.

Lemma fill_att_pp_block (a b : list float) (n_embed : Z) :
  0 <= n_embed ->
  fill_att_pp n_embed (Z.of_nat (length a))
    (a ++ replicate (Z.to_nat n_embed) f_zero ++ b)
  = a ++ replicate (Z.to_nat n_embed) f_neg_1e30 ++ b.
Proof.
  intros Hn. unfold fill_att_pp. rewrite Nat2Z.id.
  rewrite fill_prefix by lia. rewrite Nat.sub_diag. reflexivity.
Qed.

Lemma length_spec_fresh_state (n_layer n_embed : Z) :
  length (spec_fresh_state n_layer n_embed)
  = (Z.to_nat n_layer * (5 * Z.to_nat n_embed))%nat.
Proof.
  unfold spec_fresh_state.
  rewrite length_concat_replicate, length_app, !length_replicate. lia.
Qed.

Lemma fresh_layers (n_embed : Z) (total k : nat) :
  0 <= n_embed ->
  (k <= total)%nat ->
  foldl (fun data layer =>
           fill_att_pp n_embed (n_embed * (Z.of_nat layer * 5 + 4)) data)
        (replicate (total * (5 * Z.to_nat n_embed)) f_zero) (seq 0 k)
  = spec_fresh_state (Z.of_nat k) n_embed
    ++ replicate ((total - k) * (5 * Z.to_nat n_embed)) f_zero.
Proof.
  intros Hn. induction k as [|k IH]; intros Hk.
  - simpl. by rewrite Nat.sub_0_r.
  - rewrite seq_S, foldl_app, IH by lia. cbn [foldl]. rewrite Nat.add_0_l.
    set (e := Z.to_nat n_embed).
    replace ((total - k) * (5 * e))%nat
      with (4 * e + (e + (total - S k) * (5 * e)))%nat
      by (replace (total - k)%nat with (S (total - S k)) by lia; lia).
    rewrite !replicate_add.
    rewrite (app_assoc (spec_fresh_state _ _)).
    replace (n_embed * (Z.of_nat k * 5 + 4))
      with (Z.of_nat (length (spec_fresh_state (Z.of_nat k) n_embed
                              ++ replicate (4 * e) f_zero))).
    2:{ rewrite length_app, length_spec_fresh_state, length_replicate.
        rewrite Nat2Z.id. subst e. lia. }
    rewrite fill_att_pp_block by lia.
    unfold spec_fresh_state. rewrite !Nat2Z.id.
    rewrite replicate_S_end, concat_app. simpl.
    rewrite app_nil_r, <- !app_assoc. reflexivity.
Qed.

Lemma fresh_input_state_spec (header : file_header.t) (input_state : ggml_tensor) :
  0 <= file_header.n_layer header ->
  0 <= file_header.n_embed header ->
  ggml_ne0 input_state * ggml_ne1 input_state
  = file_header.n_layer header * 5 * file_header.n_embed header ->
  fresh_input_state header input_state
  = spec_fresh_state (file_header.n_layer header) (file_header.n_embed header).
Proof.
  intros Hl He Hne. unfold fresh_input_state. rewrite Hne.
  replace (Z.to_nat (file_header.n_layer header * 5 * file_header.n_embed header))
    with (Z.to_nat (file_header.n_layer header)
          * (5 * Z.to_nat (file_header.n_embed header)))%nat by lia.
  rewrite fresh_layers by lia.
  rewrite Nat.sub_diag, Z2Nat.id by lia. simpl. by rewrite app_nil_r.
Qed.

Lemma ensure_callback_Some {A} callback key
    (rest : ggml_tensor -> rwkv_globals -> option A * rwkv_globals) g a g' :
  ensure_callback callback key rest g = (Some a, g') ->
  exists tensor g1, callback key g = (Some tensor, g1) /\ rest tensor g1 = (Some a, g').
Proof.
  unfold ensure_callback. destruct (callback key g) as [[tensor|] g1]; [eauto | discriminate].
Qed.

Lemma rwkv_set_params_header model callback g model' g' :
  rwkv_set_params model callback g = (Some model', g') ->
  rwkv_model.header model' = rwkv_model.header model.
Proof.
  unfold rwkv_set_params. intros H1.
  apply ensure_callback_Some in H1 as (emb & g1 & _ & H1).
  apply ensure_callback_Some in H1 as (ln0w & g2 & _ & H1).
  apply ensure_callback_Some in H1 as (ln0b & g3 & _ & H1).
  destruct (rwkv_set_params_layers _ _ _ _) as [[layers|] g4]; [|discriminate].
  apply ensure_callback_Some in H1 as (t1 & g5 & _ & H1).
  apply ensure_callback_Some in H1 as (t2 & g6 & _ & H1).
  apply ensure_callback_Some in H1 as (t3 & g7 & _ & H1).
  by injection H1 as <- _.
Qed.

Lemma rwkv_single_graph_input_state ctx model n_threads :
  rwkv_graph.input_state (rwkv_single_graph ctx model n_threads).1
  = ggml_new_tensor (ggml_objects ctx) GGML_TYPE_F32 1
      (file_header.n_layer (rwkv_model.header model) * 5
       * file_header.n_embed (rwkv_model.header model)) 1.
Proof.
  unfold rwkv_single_graph. simpl.
  destruct (foldl _ _ _) as [x output_state]. reflexivity.
Qed.

(** The input-state tensor of a context: a row of [n_layer * 5 * n_embed]
    floats. *)
Lemma rwkv_init_from_file_input_state file_path opened n_threads g ctx g' :
  rwkv_init_from_file file_path opened n_threads g = (Some ctx, g') ->
  let header := rwkv_model.header (rwkv_context.model ctx) in
  0 <= file_header.n_layer header /\ 0 <= file_header.n_embed header
  /\ exists object,
       rwkv_graph.input_state (rwkv_context.graph ctx)
       = ggml_new_tensor object GGML_TYPE_F32 1
           (file_header.n_layer header * 5 * file_header.n_embed header) 1.
Proof.
  unfold rwkv_init_from_file. intros Hinit.
  destruct opened as [bytes|]; [|discriminate].
  destruct (fread_file_header _ _ _) as [[[header|] file1] g1] eqn:Hheader; [|discriminate].
  apply fread_file_header_Some in Hheader as [hb ->].
  destruct (sizing_pass _ _ _ _ _) as [[[[ffn_key|] file2] g2]|]; try discriminate.
  destruct (ffn_key =? 0); [discriminate|].
  destruct (fseek_set _ _) as [[|] file3]; [|discriminate].
  destruct (binding_pass _ _ _ _ _ _) as [[[[[parameters|] file4] ctx4] g4]|];
    try discriminate.
  destruct (rwkv_set_params _ _ _) as [[model|] g5] eqn:Hparams; [|discriminate].
  apply rwkv_set_params_header in Hparams. simpl in Hparams.
  repeat (case_match; try discriminate).
  injection Hinit as <- _. simpl.
  match goal with Hg : rwkv_single_graph ?c ?m ?n = _ |- _ =>
    pose proof (rwkv_single_graph_input_state c m n) as Hin; rewrite Hg in Hin end.
  simpl in Hin. rewrite Hparams in *. simpl.
  split_and!; [apply uint32_of_bytes_nonneg | apply uint32_of_bytes_nonneg | eauto].
Qed.

Lemma loaded_input_state ctx :
  loaded ctx ->
  let header := rwkv_model.header (rwkv_context.model ctx) in
  0 <= file_header.n_layer header /\ 0 <= file_header.n_embed header
  /\ exists object,
       rwkv_graph.input_state (rwkv_context.graph ctx)
       = ggml_new_tensor object GGML_TYPE_F32 1
           (file_header.n_layer header * 5 * file_header.n_embed header) 1.
Proof.
  induction 1 as [file_path bytes n_threads g ctx g' Hinit
                 |ctx token state_in state_out logits_out g r ctx' so lo g' _ IH Heval
                 |ctx g e ctx' g' _ IH Hget
                 |ctx p g ctx' g' _ IH Hset].
  - eapply rwkv_init_from_file_input_state; eassumption.
  - assert (rwkv_context.model ctx' = rwkv_context.model ctx
            /\ rwkv_context.graph ctx' = rwkv_context.graph ctx) as [-> ->]; [|exact IH].
    revert Heval. unfold rwkv_eval. simpl.
    destruct state_out as [s|]; [|by intros [= _ <- _ _ _]].
    destruct (negb _); by intros [= _ <- _ _ _].
  - injection Hget as _ <- _. exact IH.
  - injection Hset as <- _. exact IH.
Qed.


End FreshState.

(** ** The argument checks of the evaluator, and the last error *)

Section EvalChecks.
Context `{!rwkv_h, !ggml_backend}.

Lemma rwkv_eval_state_out_null ctx token state_in logits_out g :
  rwkv_eval ctx token state_in None logits_out g
  = (false,
     rwkv_context.set_last_error ctx (Z.lor RWKV_ERROR_NONE RWKV_ERROR_ARGS),
     None, logits_out,
     RWKV_CTX_MSG ctx (location 933 "state_out != NULL")
       (RWKV_CTX_MSG ctx (fprintf "state_out is NULL" []) g)).
Proof. reflexivity. Qed.

Lemma rwkv_eval_token_out_of_range ctx token state_in s logits_out g :
  file_header.n_vocab (rwkv_model.header (rwkv_context.model ctx)) <= token ->
  rwkv_eval ctx token state_in (Some s) logits_out g
  = (false,
     rwkv_context.set_last_error ctx (Z.lor RWKV_ERROR_NONE RWKV_ERROR_ARGS),
     Some s, logits_out,
     RWKV_CTX_MSG ctx (location 934 "token < header.n_vocab")
       (RWKV_CTX_MSG ctx
          (fprintf "Token is out of range 0..%d"
             [arg_int (as_int32
                ((file_header.n_vocab (rwkv_model.header (rwkv_context.model ctx)) - 1)
                 mod 4294967296))]) g)).
Proof.
  intros Htoken. unfold rwkv_eval. simpl.
  destruct (Z.ltb_spec token (file_header.n_vocab (rwkv_model.header (rwkv_context.model ctx))));
    [lia | reflexivity].
Qed.

Lemma rwkv_eval_accepted ctx token state_in s logits_out g :
  token < file_header.n_vocab (rwkv_model.header (rwkv_context.model ctx)) ->
  exists ggml s' logits_out',
    rwkv_eval ctx token state_in (Some s) logits_out g
    = (true,
       rwkv_context.set_ctx (rwkv_context.set_last_error ctx RWKV_ERROR_NONE) ggml,
       Some s', logits_out', g).
Proof.
  intros Htoken. unfold rwkv_eval. simpl.
  destruct (Z.ltb_spec token (file_header.n_vocab (rwkv_model.header (rwkv_context.model ctx))));
    [|lia].
  simpl. eauto.
Qed.

Lemma RWKV_CTX_MSG_frame ctx msg g :
  let g' := RWKV_CTX_MSG ctx msg g in
  global_last_error g' = global_last_error g
  /\ global_print_errors g' = global_print_errors g
  /\ stdout g' = stdout g
  /\ (rwkv_context.print_errors ctx = false -> g' = g).
Proof.
  unfold RWKV_CTX_MSG. destruct (rwkv_context.print_errors ctx); simpl; split_and!; done.
Qed.

(** C5: [rwkv_eval] returns [false] with ARGS in the context's last error
    when [state_out] is null, and when the token is not below [n_vocab];
    with a non-null [state_out] every token below [n_vocab] passes both
    checks: the call returns [true] and the last error is NONE. *)
Theorem rwkv_eval_argument_checks ctx token state_in state_out logits_out g :
  let n_vocab := file_header.n_vocab (rwkv_model.header (rwkv_context.model ctx)) in
  let '(result, ctx', _, _, _) := rwkv_eval ctx token state_in state_out logits_out g in
  (state_out = None ->
     result = false
     /\ rwkv_context.last_error ctx' = Z.lor RWKV_ERROR_NONE RWKV_ERROR_ARGS
     /\ has_error (rwkv_context.last_error ctx') RWKV_ERROR_ARGS)
  /\ (n_vocab <= token ->
     result = false
     /\ rwkv_context.last_error ctx' = Z.lor RWKV_ERROR_NONE RWKV_ERROR_ARGS
     /\ has_error (rwkv_context.last_error ctx') RWKV_ERROR_ARGS)
  /\ (token < n_vocab -> state_out <> None ->
     result = true /\ rwkv_context.last_error ctx' = RWKV_ERROR_NONE).
Proof.
  intros n_vocab. destruct state_out as [s|].
  - destruct (Z.lt_ge_cases token n_vocab) as [Hlt|Hge].
    + destruct (rwkv_eval_accepted ctx token state_in s logits_out g Hlt)
        as (ggml & s' & l' & ->).
      split_and!; [done | intros; lia | done].
    + rewrite (rwkv_eval_token_out_of_range ctx token state_in s logits_out g Hge).
      split_and!; [done | | intros; lia].
      intros _. split_and!; [done | done | apply has_error_lor].
  - rewrite rwkv_eval_state_out_null.
    split_and!; [| | done].
    + intros _. split_and!; [done | done | apply has_error_lor].
    + intros _. split_and!; [done | done | apply has_error_lor].
Qed.

(** C9: when [rwkv_eval] rejects its arguments it returns [false], the
    caller's [state_out] and [logits_out] are as they were, and the context
    is as it was (its model, its graph, the data of its tensors, the input
    state and the token index among them, and the count of graph runs)
    except for [last_error], which was cleared and then given ARGS; of the
    thread's variables only what was printed changes, and nothing is
    printed when the context's [print_errors] is off. *)
Theorem rwkv_eval_rejected_changes_nothing ctx token state_in state_out logits_out g :
  state_out = None
  \/ file_header.n_vocab (rwkv_model.header (rwkv_context.model ctx)) <= token ->
  exists ctx' g',
    rwkv_eval ctx token state_in state_out logits_out g
    = (false, ctx', state_out, logits_out, g')
    /\ ctx' = rwkv_context.set_last_error ctx (Z.lor RWKV_ERROR_NONE RWKV_ERROR_ARGS)
    /\ ggml_mem (rwkv_context.ctx ctx') = ggml_mem (rwkv_context.ctx ctx)
    /\ ggml_graph_runs (rwkv_context.ctx ctx') = ggml_graph_runs (rwkv_context.ctx ctx)
    /\ global_last_error g' = global_last_error g
    /\ global_print_errors g' = global_print_errors g
    /\ stdout g' = stdout g
    /\ (rwkv_context.print_errors ctx = false -> g' = g).
Proof.
  intros Hbad.
  assert (forall msg line condition,
            let g' := RWKV_CTX_MSG ctx (location line condition) (RWKV_CTX_MSG ctx msg g) in
            global_last_error g' = global_last_error g
            /\ global_print_errors g' = global_print_errors g
            /\ stdout g' = stdout g
            /\ (rwkv_context.print_errors ctx = false -> g' = g)) as Hframe.
  { intros msg line condition g'. subst g'.
    pose proof (RWKV_CTX_MSG_frame ctx msg g) as (E1 & E2 & E3 & E4).
    pose proof (RWKV_CTX_MSG_frame ctx (location line condition) (RWKV_CTX_MSG ctx msg g))
      as (F1 & F2 & F3 & F4).
    split_and!; [congruence | congruence | congruence |].
    intros Hp. rewrite (F4 Hp). auto. }
  destruct state_out as [s|].
  - destruct Hbad as [|Hge]; [done|].
    rewrite (rwkv_eval_token_out_of_range ctx token state_in s logits_out g Hge).
    do 2 eexists. split; [reflexivity|]. split; [reflexivity|].
    split; [reflexivity|]. split; [reflexivity|]. apply Hframe.
  - rewrite rwkv_eval_state_out_null.
    do 2 eexists. split; [reflexivity|]. split; [reflexivity|].
    split; [reflexivity|]. split; [reflexivity|]. apply Hframe.
Qed.

(** C7: [rwkv_get_last_error] returns the stored error, of the context or,
    for the null context, of the thread, and stores NONE in its place; a
    second call returns NONE. *)
Theorem get_last_error_returns_then_clears (ctx : option rwkv_context.t) (g : rwkv_globals) :
  let '(first, ctx1, g1) := rwkv_get_last_error ctx g in
  let '(second, ctx2, g2) := rwkv_get_last_error ctx1 g1 in
  first = stored_error ctx g
  /\ stored_error ctx1 g1 = RWKV_ERROR_NONE
  /\ second = RWKV_ERROR_NONE
  /\ stored_error ctx2 g2 = RWKV_ERROR_NONE
  /\ (is_Some ctx <-> is_Some ctx1)
  /\ (is_Some ctx -> g1 = g /\ g2 = g)
  /\ (ctx = None -> g1 = global_set_error RWKV_ERROR_NONE g /\ g2 = g1).
Proof.
  destruct ctx as [c|]; simpl; split_and!; done.
Qed.

End EvalChecks.

(** * Closed examples

    The theorems above at concrete inputs: the released constants, the
    integer backend and the one-layer model. *)

Section Examples.
#[local] Existing Instance released_rwkv_h.
#[local] Existing Instance example_backend.

(** Loading the example model succeeds and reports no error. *)
Lemma example_model_loads :
  rwkv_init_from_file "tiny.bin" (Some example_model_file) 1 example_globals
  = (Some example_loaded, example_globals).
Proof. vm_compute. reflexivity. Qed.

Lemma example_loaded_is_loaded : loaded example_loaded.
Proof. exact (loaded_init _ _ _ _ _ _ example_model_loads). Qed.

(** Quantizing the example model to Q4_0 succeeds and the result loads. *)
Lemma example_model_quantizes :
  let '(result, quantized, g) :=
    rwkv_quantize_model_file "tiny.bin" (Some example_model_file) "tiny-Q4_0.bin" true
      "Q4_0" example_globals in
  result = true
  /\ global_last_error g = RWKV_ERROR_NONE
  /\ bool_decide
       (is_Some (rwkv_init_from_file "tiny-Q4_0.bin" quantized 1 example_globals).1) = true.
Proof. vm_compute. split_and!; reflexivity. Qed.

(** A record of a removed format in a model file: the loader returns [NULL]
    and the quantizer returns [false], both with DATA_TYPE recorded, and the
    quantizer has written the file header only. *)
Lemma example_removed_record_fails :
  (rwkv_init_from_file "legacy.bin" (Some example_removed_model_file) 1 example_globals).1
  = None
  /\ global_last_error
       (rwkv_init_from_file "legacy.bin" (Some example_removed_model_file) 1
          example_globals).2
     = Z.lor (Z.lor RWKV_ERROR_NONE RWKV_ERROR_DATA_TYPE) RWKV_ERROR_MODEL_PARAMS
  /\ (rwkv_quantize_model_file "legacy.bin" (Some example_removed_model_file) "out.bin"
        true "Q4_0" example_globals).1
     = (false, Some (example_header 101 TYPE_Q4_0)).
Proof. split_and!; vm_compute; reflexivity. Qed.


Lemma rwkv_single_att_computes_time_mix_witness :
  ggml_get_data example_mem (rwkv_single_att (example_row 0) example_layer).1
  = tm_x' (spec_time_mix (time_mix_input_of example_mem (example_row 0) example_layer))
  /\ ggml_get_data example_mem
       (rwkv_layer.att_pp (rwkv_single_att (example_row 0) example_layer).2)
     = tm_att_pp' (spec_time_mix (time_mix_input_of example_mem (example_row 0) example_layer)).
Proof.
  pose proof (rwkv_single_att_computes_time_mix example_mem (example_row 0) example_layer 1
                eq_refl eq_refl eq_refl eq_refl) as H.
  destruct (rwkv_single_att (example_row 0) example_layer) as [x' layer'].
  destruct H as (H1 & _ & _ & _ & H5). split; assumption.
Defined.

Lemma fread_tensor_header_checks_witness :
  (exists g',
     fread_tensor_header (example_file (tensor_record 3 "w" TYPE_F32 1 1 [])) example_globals
     = (None, mk_FILE (tensor_record 3 "w" TYPE_F32 1 1 []) 16, g')
     /\ records_error RWKV_ERROR_SHAPE example_globals g')
  /\ (exists g',
     fread_tensor_header (example_file (tensor_record 1 "w" 12 1 1 [])) example_globals
     = (None, mk_FILE (tensor_record 1 "w" 12 1 1 []) 16, g')
     /\ records_error RWKV_ERROR_DATA_TYPE example_globals g')
  /\ (fread_tensor_header (example_file (example_vector "w")) example_globals
      = (Some (tensor_header.mk 1 1 TYPE_F32 1 1), mk_FILE (example_vector "w") 16,
         example_globals)).
Proof.
  split_and!.
  - refine (proj1 (fread_tensor_header_checks
                     (example_file (tensor_record 3 "w" TYPE_F32 1 1 [])) example_globals
                     (take 16 (tensor_record 3 "w" TYPE_F32 1 1 [])) _ eq_refl) _ _);
      by vm_compute.
  - refine (proj1 (proj2 (fread_tensor_header_checks
                     (example_file (tensor_record 1 "w" 12 1 1 [])) example_globals
                     (take 16 (tensor_record 1 "w" 12 1 1 [])) _ eq_refl)) _ _);
      [by left | by vm_compute].
  - refine (proj1 (proj1 (proj2 (proj2 (fread_tensor_header_checks
                     (example_file (example_vector "w")) example_globals
                     (take 16 (example_vector "w")) _ eq_refl))) _ _ _));
      by vm_compute.
Defined.


(** C2, the claim as stated: a quantized header of version 100 satisfies the
    rule that quantized implies a version other than 1 (and other than
    [RWKV_FILE_VERSION_1]), and the code rejects it with DATA_TYPE; and a
    quantized header of version [RWKV_FILE_VERSION_1] is read although under
    the second reading the rule calls it invalid. *)
Lemma quantized_version_rule_counterexample :
  ggml_is_quantized (type_to_ggml TYPE_Q4_0) = true
  /\ is_file_version_in_range 100 = true
  /\ spec_quantized_valid true 100
  /\ spec_quantized_valid_named true 100
  /\ (fread_file_header (example_file (example_header 100 TYPE_Q4_0)) true
        example_globals).1.1 = None
  /\ global_last_error
       (fread_file_header (example_file (example_header 100 TYPE_Q4_0)) true
          example_globals).2 = RWKV_ERROR_DATA_TYPE
  /\ ~ spec_quantized_valid_named true RWKV_FILE_VERSION_1
  /\ is_Some (fread_file_header (example_file (example_header RWKV_FILE_VERSION_1 TYPE_Q4_0))
                true example_globals).1.1.
Proof.
  split_and!; try by vm_compute.
  - intros H. by apply H.
  - vm_compute. by eexists.
Qed.

Lemma fread_file_header_quantized_rule_witness :
  (exists g',
     fread_file_header (example_file (example_header 101 TYPE_Q4_1_O)) true example_globals
     = (None, mk_FILE (example_header 101 TYPE_Q4_1_O) 24, g')
     /\ records_error RWKV_ERROR_DATA_TYPE example_globals g'
     /\ (global_print_errors example_globals = true ->
         stderr g' = stderr example_globals
           ++ [format_removed_message TYPE_Q4_1_O;
               location 247 "ggml_type != GGML_TYPE_UNKNOWN"]))
  /\ (exists g',
     fread_file_header (example_file (example_header 100 TYPE_Q4_0)) true example_globals
     = (None, mk_FILE (example_header 100 TYPE_Q4_0) 24, g')
     /\ records_error RWKV_ERROR_DATA_TYPE example_globals g'
     /\ (global_print_errors example_globals = true ->
         stderr g' = stderr example_globals
           ++ [old_quantizer_message TYPE_Q4_0;
               location 256
                 "(!ggml_is_quantized(ggml_type) || header.version == RWKV_FILE_VERSION_1)"]))
  /\ fread_file_header (example_file (example_header 101 TYPE_Q4_0)) true example_globals
     = (Some (file_header.mk 0x67676d66 101 2 1 1 TYPE_Q4_0),
        mk_FILE (example_header 101 TYPE_Q4_0) 24, example_globals).
Proof.
  split_and!.
  - refine (proj1 (fread_file_header_quantized_rule
                     (example_file (example_header 101 TYPE_Q4_1_O)) example_globals
                     (example_header 101 TYPE_Q4_1_O) _ eq_refl eq_refl eq_refl _) _);
      by vm_compute.
  - refine (proj1 (proj2 (fread_file_header_quantized_rule
                     (example_file (example_header 100 TYPE_Q4_0)) example_globals
                     (example_header 100 TYPE_Q4_0) _ eq_refl eq_refl eq_refl _)) _ _ _);
      by vm_compute.
  - refine (proj1 (proj2 (proj2 (fread_file_header_quantized_rule
                     (example_file (example_header 101 TYPE_Q4_0)) example_globals
                     (example_header 101 TYPE_Q4_0) _ eq_refl eq_refl eq_refl _))) _ _);
      by vm_compute.
Defined.

Lemma rwkv_eval_argument_checks_witness :
  (rwkv_eval example_loaded 1 None None None example_globals).1.1.1.1 = false
  /\ (rwkv_eval example_loaded 2 None (Some [7; 7; 7; 7; 7]) None example_globals).1.1.1.1
     = false
  /\ (rwkv_eval example_loaded 1 None (Some [7; 7; 7; 7; 7]) None example_globals).1.1.1.1
     = true.
Proof.
  split_and!.
  - pose proof (rwkv_eval_argument_checks example_loaded 1 None None None example_globals)
      as H.
    destruct (rwkv_eval example_loaded 1 None None None example_globals)
      as [[[[r c] s] l] g].
    by destruct H as ((-> & _) & _).
  - pose proof (rwkv_eval_argument_checks example_loaded 2 None (Some [7; 7; 7; 7; 7]) None
                  example_globals) as H.
    destruct (rwkv_eval example_loaded 2 None (Some [7; 7; 7; 7; 7]) None example_globals)
      as [[[[r c] s] l] g].
    destruct H as (_ & H & _). by destruct H as (-> & _); [by vm_compute|].
  - pose proof (rwkv_eval_argument_checks example_loaded 1 None (Some [7; 7; 7; 7; 7]) None
                  example_globals) as H.
    destruct (rwkv_eval example_loaded 1 None (Some [7; 7; 7; 7; 7]) None example_globals)
      as [[[[r c] s] l] g].
    destruct H as (_ & _ & H). by destruct H as (-> & _); [by vm_compute | done |].
Defined.

Lemma rwkv_eval_rejected_changes_nothing_witness :
  exists ctx' g',
    rwkv_eval example_loaded 1 None None (Some [9; 9]) example_globals
    = (false, ctx', None, Some [9; 9], g')
    /\ ctx' = rwkv_context.set_last_error example_loaded
                (Z.lor RWKV_ERROR_NONE RWKV_ERROR_ARGS)
    /\ ggml_mem (rwkv_context.ctx ctx') = ggml_mem (rwkv_context.ctx example_loaded)
    /\ ggml_graph_runs (rwkv_context.ctx ctx')
       = ggml_graph_runs (rwkv_context.ctx example_loaded)
    /\ global_last_error g' = global_last_error example_globals
    /\ global_print_errors g' = global_print_errors example_globals
    /\ stdout g' = stdout example_globals
    /\ (rwkv_context.print_errors example_loaded = false -> g' = example_globals).
Proof.
  exact (rwkv_eval_rejected_changes_nothing example_loaded 1 None None (Some [9; 9])
           example_globals (or_introl eq_refl)).
Defined.

Lemma quantize_step_policy_witness :
  (exists st' g',
     quantize_step TYPE_Q4_0 GGML_TYPE_Q4_0
       (example_file (example_matrix "blocks.0.att.key.weight")) example_state
       example_globals
     = (true, st', mk_FILE (example_matrix "blocks.0.att.key.weight") 47, g')
     /\ output st'
        = tensor_header_bytes (tensor_header.mk 2 23 TYPE_Q4_0 1 1)
          ++ String.list_byte_of_string "blocks.0.att.key.weight" ++ [x02])
  /\ (exists st' g',
     quantize_step TYPE_Q4_0 GGML_TYPE_Q4_0
       (example_file (tensor_record 2 "emb.weight" TYPE_F32 1 2
                        [x01; x00; x00; x00; x03; x00; x00; x00]))
       example_state example_globals
     = (true, st',
        mk_FILE (tensor_record 2 "emb.weight" TYPE_F32 1 2
                   [x01; x00; x00; x00; x03; x00; x00; x00]) 38, g')
     /\ output st'
        = tensor_record 2 "emb.weight" TYPE_F32 1 2
            [x01; x00; x00; x00; x03; x00; x00; x00]).
Proof.
  split.
  - destruct (proj1 (proj2 (@quantize_step_policy released_rwkv_h example_backend
                TYPE_Q4_0 GGML_TYPE_Q4_0
                (example_file (example_matrix "blocks.0.att.key.weight")) example_state
                example_globals (tensor_header.mk 2 23 TYPE_F32 1 1)
                (String.list_byte_of_string "blocks.0.att.key.weight")
                [x02; x00; x00; x00]
                (mk_FILE (example_matrix "blocks.0.att.key.weight") 20)
                (mk_FILE (example_matrix "blocks.0.att.key.weight") 43)
                (mk_FILE (example_matrix "blocks.0.att.key.weight") 47)
                example_globals eq_refl eq_refl eq_refl)) eq_refl
                ltac:(vm_compute; reflexivity))
      as (st' & g' & Hstep & Hout).
    exists st', g'. split; [exact Hstep|]. rewrite Hout. vm_compute. reflexivity.
  - destruct (proj2 (proj2 (quantize_step_policy TYPE_Q4_0 GGML_TYPE_Q4_0
                (example_file (tensor_record 2 "emb.weight" TYPE_F32 1 2
                                 [x01; x00; x00; x00; x03; x00; x00; x00]))
                example_state example_globals (tensor_header.mk 2 10 TYPE_F32 1 2)
                (String.list_byte_of_string "emb.weight")
                [x01; x00; x00; x00; x03; x00; x00; x00]
                (mk_FILE (tensor_record 2 "emb.weight" TYPE_F32 1 2
                            [x01; x00; x00; x00; x03; x00; x00; x00]) 20)
                (mk_FILE (tensor_record 2 "emb.weight" TYPE_F32 1 2
                            [x01; x00; x00; x00; x03; x00; x00; x00]) 30)
                (mk_FILE (tensor_record 2 "emb.weight" TYPE_F32 1 2
                            [x01; x00; x00; x00; x03; x00; x00; x00]) 38)
                example_globals eq_refl eq_refl eq_refl)) eq_refl)
      as (st' & g' & Hstep & Hout).
    exists st', g'. split; [exact Hstep|]. rewrite Hout. vm_compute. reflexivity.
Defined.

(** C3: the quantizer on a model whose header carries the removed type code
    Q4_1_O.  The header read itself fails, in the type verification:
    DATA_TYPE is recorded, then FILE, with the message that the format was
    removed; the test that the source type is f32 or f16 is not reached
    (its message is not printed).  The same header read with the
    verification off is accepted. *)
Theorem quantize_reads_header_with_type_verification :
  rwkv_quantize_model_file "legacy.bin"
    (Some (example_header 101 TYPE_Q4_1_O ++ example_tensors)) "out.bin" true "Q4_0"
    example_globals
  = (false, Some [],
     mk_globals (Z.lor (Z.lor RWKV_ERROR_NONE RWKV_ERROR_DATA_TYPE) RWKV_ERROR_FILE) true
       [fprintf "Loading model from '%s'\n" [arg_str "legacy.bin"];
        format_removed_message TYPE_Q4_1_O;
        location 247 "ggml_type != GGML_TYPE_UNKNOWN";
        fprintf "invalid file header" [];
        location 1003 "fread_file_header(input, file_header)"] [])
  /\ (fread_file_header
        (example_file (example_header 101 TYPE_Q4_1_O ++ example_tensors)) false
        example_globals).1.1
     = Some (file_header.mk 0x67676d66 101 2 1 1 TYPE_Q4_1_O).
Proof. split; vm_compute; reflexivity. Qed.

End Examples.

(** * Further properties of the code *)

(** ** The codec: what is written can be read back *)

Lemma to_N_byte_of_Z (v : Z) : Z.of_N (Byte.to_N (byte_of_Z v)) = v mod 256.
Proof.
  unfold byte_of_Z.
  assert (Hr : 0 <= v mod 256 < 256) by (apply Z.mod_pos_bound; lia).
  destruct (Byte.of_N (Z.to_N (v mod 256))) as [b|] eqn:E; simpl.
  - apply Byte.to_of_N in E. rewrite E. lia.
  - apply Byte.of_N_None_iff in E. lia.
Qed.

Lemma byte_of_Z_to_N (b : byte) : byte_of_Z (Z.of_N (Byte.to_N b)) = b.
Proof.
  unfold byte_of_Z.
  pose proof (Byte.to_N_bounded b) as Hb.
  rewrite Z.mod_small by lia.
  rewrite N2Z.id, Byte.of_to_N. reflexivity.
Qed.

Lemma byte_of_Z_mod (v : Z) : byte_of_Z (v mod 256) = byte_of_Z v.
Proof. unfold byte_of_Z. rewrite Z.mod_mod by lia. reflexivity. Qed.

Lemma uint32_of_bytes_of_uint32 (v : Z) :
  uint32_of_bytes (bytes_of_uint32 v) = v mod 4294967296.
Proof.
  unfold uint32_of_bytes, bytes_of_uint32. cbn [foldr].
  rewrite !to_N_byte_of_Z.
  Z.div_mod_to_equations. lia.
Qed.

Lemma uint32_of_four_bytes (v : Z) :
  uint32_of_bytes [byte_of_Z v; byte_of_Z (v / 256); byte_of_Z (v / 65536);
                   byte_of_Z (v / 16777216)]
  = v mod 4294967296.
Proof. apply uint32_of_bytes_of_uint32. Qed.

Lemma byte_range (b : byte) : 0 <= Z.of_N (Byte.to_N b) < 256.
Proof. pose proof (Byte.to_N_bounded b). lia. Qed.

Lemma bytes_of_uint32_of_bytes (bs : list byte) :
  length bs = 4%nat -> bytes_of_uint32 (uint32_of_bytes bs) = bs.
Proof.
  destruct bs as [|a [|b [|c [|d [|]]]]]; try discriminate. intros _.
  unfold uint32_of_bytes, bytes_of_uint32. cbn [foldr].
  pose proof (byte_range a). pose proof (byte_range b).
  pose proof (byte_range c). pose proof (byte_range d).
  set (A := Z.of_N (Byte.to_N a)) in *. set (B := Z.of_N (Byte.to_N b)) in *.
  set (C := Z.of_N (Byte.to_N c)) in *. set (D := Z.of_N (Byte.to_N d)) in *.
  rewrite <- (byte_of_Z_to_N a), <- (byte_of_Z_to_N b),
          <- (byte_of_Z_to_N c), <- (byte_of_Z_to_N d) at 1.
  fold A B C D.
  rewrite <- (byte_of_Z_mod (A + _)), <- (byte_of_Z_mod (_ / 256)),
          <- (byte_of_Z_mod (_ / 65536)), <- (byte_of_Z_mod (_ / 16777216)).
  repeat f_equal; Z.div_mod_to_equations; lia.
Qed.

(** Reading [length bs] bytes where [bs] was written gives [bs]. *)
Lemma fread_data_at (pre bs rest : list byte) (n : Z) :
  bs <> [] -> n = Z.of_nat (length bs) ->
  fread_data (mk_FILE (pre ++ bs ++ rest) (Z.of_nat (length pre))) n
  = (Some bs, mk_FILE (pre ++ bs ++ rest) (Z.of_nat (length pre) + n)).
Proof.
  intros Hne ->. unfold fread_data. cbn [position contents].
  rewrite Nat2Z.id, drop_app_length.
  assert (0 < length bs)%nat by (destruct bs; [done | simpl; lia]).
  rewrite (proj2 (Z.leb_gt _ _)) by lia.
  rewrite (proj2 (Z.leb_le _ _)) by (rewrite length_app; lia).
  rewrite Nat2Z.id, take_app_length. reflexivity.
Qed.

Lemma as_int32_mod (v : Z) :
  -2147483648 <= v < 2147483648 -> as_int32 (v mod 4294967296) = v.
Proof.
  intros Hv. unfold as_int32. case_match.
  - apply Z.ltb_lt in H. Z.div_mod_to_equations. lia.
  - apply Z.ltb_ge in H. Z.div_mod_to_equations. lia.
Qed.

(** X1.  A 32-bit integer written by [fwrite_uint32] or [fwrite_int32] takes
    four bytes, and [fread_uint32] or [fread_int32] at the place it was
    written reads the same value back and stops right after it. *)
Theorem int32_write_then_read (out rest : list byte) (value : Z) :
  let written := out ++ bytes_of_uint32 value in
  let start := Z.of_nat (length out) in
  fwrite_uint32 out value = (true, written)
  /\ fwrite_int32 out value = (true, written)
  /\ length written = (length out + 4)%nat
  /\ (0 <= value < 4294967296 ->
      fread_uint32 (mk_FILE (written ++ rest) start)
      = (Some value, mk_FILE (written ++ rest) (start + 4)))
  /\ (-2147483648 <= value < 2147483648 ->
      fread_int32 (mk_FILE (written ++ rest) start)
      = (Some value, mk_FILE (written ++ rest) (start + 4))).
Proof.
  intros written start. subst written start.
  split_and!.
  - reflexivity.
  - reflexivity.
  - rewrite length_app. reflexivity.
  - intros Hv. unfold fread_uint32. rewrite <- app_assoc.
    rewrite (fread_data_at out (bytes_of_uint32 value) rest 4) by done.
    cbn [fmap option_fmap option_map].
    rewrite uint32_of_bytes_of_uint32, Z.mod_small by lia. reflexivity.
  - intros Hv. unfold fread_int32. rewrite <- app_assoc.
    rewrite (fread_data_at out (bytes_of_uint32 value) rest 4) by done.
    cbn [fmap option_fmap option_map].
    rewrite uint32_of_bytes_of_uint32, as_int32_mod by lia. reflexivity.
Qed.

Lemma file_header_of_to_bytes (h : file_header.t) :
  file_header.of_bytes (file_header.to_bytes h)
  = file_header.mk (file_header.magic h mod 4294967296)
      (file_header.version h mod 4294967296) (file_header.n_vocab h mod 4294967296)
      (file_header.n_embed h mod 4294967296) (file_header.n_layer h mod 4294967296)
      (file_header.data_type h mod 4294967296).
Proof.
  destruct h as [a b c d e f]. unfold file_header.of_bytes, file_header.to_bytes.
  cbn [file_header.magic file_header.version file_header.n_vocab file_header.n_embed
       file_header.n_layer file_header.data_type].
  unfold bytes_of_uint32. cbn [app take drop].
  rewrite !uint32_of_four_bytes. reflexivity.
Qed.

Section CodecRoundTrip.
Context `{!rwkv_h}.

(** Reading a header where its bytes stand. *)
Lemma fread_file_header_written (pre rest : list byte) (h : file_header.t)
    (verify : bool) (g : rwkv_globals) :
  is_uint32 (file_header.magic h) -> is_uint32 (file_header.version h) ->
  is_uint32 (file_header.n_vocab h) -> is_uint32 (file_header.n_embed h) ->
  is_uint32 (file_header.n_layer h) -> is_uint32 (file_header.data_type h) ->
  file_header.magic h = RWKV_FILE_MAGIC ->
  is_file_version_in_range (file_header.version h) = true ->
  file_header.data_type h < TYPE_COUNT ->
  (verify = true ->
   type_to_ggml (file_header.data_type h) <> GGML_TYPE_UNKNOWN
   /\ (ggml_is_quantized (type_to_ggml (file_header.data_type h)) = true ->
       file_header.version h = RWKV_FILE_VERSION_1)) ->
  fread_file_header
    (mk_FILE (pre ++ file_header.to_bytes h ++ rest) (Z.of_nat (length pre))) verify g
  = (Some h,
     mk_FILE (pre ++ file_header.to_bytes h ++ rest) (Z.of_nat (length pre) + 24), g).
Proof.
  intros H1 H2 H3 H4 H5 H6 Hmagic Hversion Htype Hverify.
  assert (Hlen : length (file_header.to_bytes h) = 24%nat) by reflexivity.
  assert (Hback : file_header.of_bytes (file_header.to_bytes h) = h).
  { rewrite file_header_of_to_bytes. unfold is_uint32 in *.
    rewrite !Z.mod_small by lia. by destruct h. }
  unfold fread_file_header.
  rewrite (fread_data_at pre (file_header.to_bytes h) rest file_header.sizeof)
    by (try (intros E; rewrite E in Hlen); done).
  rewrite Hback, Hmagic, Z.eqb_refl, Hversion.
  rewrite (proj2 (Z.ltb_lt _ _) Htype). cbn [negb].
  destruct verify; [|reflexivity].
  destruct (Hverify eq_refl) as [Hsupported Hquantized].
  rewrite bool_decide_eq_true_2 by done. cbn [negb].
  destruct (ggml_is_quantized _) eqn:Hq; cbn [negb orb]; [|reflexivity].
  rewrite (Hquantized eq_refl), Z.eqb_refl. reflexivity.
Qed.

(** X2.  A file header whose fields are 32-bit values is written as 24
    bytes; read back from the place it was written, with the magic, a
    supported version and a type code of the registry, it is the header that
    was written (without type verification, and with it when the type is
    loadable). *)
Theorem file_header_write_then_read (out rest : list byte) (h : file_header.t)
    (g : rwkv_globals) :
  is_uint32 (file_header.magic h) -> is_uint32 (file_header.version h) ->
  is_uint32 (file_header.n_vocab h) -> is_uint32 (file_header.n_embed h) ->
  is_uint32 (file_header.n_layer h) -> is_uint32 (file_header.data_type h) ->
  file_header.magic h = RWKV_FILE_MAGIC ->
  is_file_version_in_range (file_header.version h) = true ->
  file_header.data_type h < TYPE_COUNT ->
  let written := out ++ file_header.to_bytes h in
  let start := Z.of_nat (length out) in
  let after := mk_FILE (written ++ rest) (start + 24) in
  fwrite_file_header out h g = (true, written, g)
  /\ length written = (length out + 24)%nat
  /\ fread_file_header (mk_FILE (written ++ rest) start) false g = (Some h, after, g)
  /\ (type_to_ggml (file_header.data_type h) <> GGML_TYPE_UNKNOWN ->
      (ggml_is_quantized (type_to_ggml (file_header.data_type h)) = true ->
       file_header.version h = RWKV_FILE_VERSION_1) ->
      fread_file_header (mk_FILE (written ++ rest) start) true g = (Some h, after, g)).
Proof.
  intros H1 H2 H3 H4 H5 H6 Hmagic Hversion Htype written start after.
  subst written start after. rewrite <- !app_assoc.
  split_and!.
  - unfold fwrite_file_header, fwrite_data, file_header.sizeof. simpl (24 <=? 0).
    cbv iota. change (Z.to_nat 24) with (length (file_header.to_bytes h)).
    rewrite firstn_all. reflexivity.
  - rewrite length_app. reflexivity.
  - by apply fread_file_header_written.
  - intros Hsupported Hquantized. by apply fread_file_header_written.
Qed.

End CodecRoundTrip.

Lemma fread_data_in (contents pre bs rest : list byte) (pos n : Z) :
  contents = pre ++ bs ++ rest -> pos = Z.of_nat (length pre) ->
  bs <> [] -> n = Z.of_nat (length bs) ->
  fread_data (mk_FILE contents pos) n = (Some bs, mk_FILE contents (pos + n)).
Proof. intros -> -> Hne Hn. by apply fread_data_at. Qed.

Section TensorHeaderRoundTrip.
Context `{!rwkv_h}.

(** X3.  A tensor header of one dimension (with height 1) or of two, with
    32-bit fields and a loadable type, is written as 16 or 20 bytes, and
    [fread_tensor_header] at the place it was written reads the same header
    back and stops right after it. *)
Theorem tensor_header_write_then_read (out rest : list byte) (h : tensor_header.t)
    (g : rwkv_globals) :
  is_uint32 (tensor_header.key_length h) -> is_uint32 (tensor_header.data_type h) ->
  is_uint32 (tensor_header.width h) -> is_uint32 (tensor_header.height h) ->
  (tensor_header.dim_count h = 1 /\ tensor_header.height h = 1)
  \/ tensor_header.dim_count h = 2 ->
  tensor_header.data_type h < TYPE_COUNT ->
  type_to_ggml (tensor_header.data_type h) <> GGML_TYPE_UNKNOWN ->
  let written := out ++ tensor_header_bytes h in
  let start := Z.of_nat (length out) in
  let size := if tensor_header.dim_count h =? 1 then 16 else 20 in
  fwrite_tensor_header out h g = (true, written, g)
  /\ Z.of_nat (length written) = start + size
  /\ fread_tensor_header (mk_FILE (written ++ rest) start) g
     = (Some h, mk_FILE (written ++ rest) (start + size), g).
Proof.
  intros Hk Ht Hw Hht Hdim Htype Hsupported written start size.
  unfold is_uint32 in Hk, Ht, Hw, Hht.
  destruct h as [d k t w ht].
  cbn [tensor_header.key_length tensor_header.data_type tensor_header.width
       tensor_header.height tensor_header.dim_count] in Hk, Ht, Hw, Hht, Hdim, Htype,
       Hsupported.
  split; [apply fwrite_tensor_header_ok|].
  assert (Hfirst : forall tail,
    tensor_header.of_bytes
      (bytes_of_uint32 d ++ bytes_of_uint32 k ++ bytes_of_uint32 t ++ bytes_of_uint32 w
       ++ tail) 1
    = tensor_header.mk (d mod 4294967296) k t w 1).
  { intros tail. unfold tensor_header.of_bytes.
    unfold bytes_of_uint32. cbn [app take drop].
    rewrite !uint32_of_four_bytes.
    rewrite (Z.mod_small k), (Z.mod_small t), (Z.mod_small w) by lia. reflexivity. }
  set (first := bytes_of_uint32 d ++ bytes_of_uint32 k ++ bytes_of_uint32 t
                ++ bytes_of_uint32 w).
  destruct Hdim as [[Hd Hh] | Hd]; simpl in Hd; subst d; [subst ht|].
  - (* one dimension *)
    assert (Hbytes : tensor_header_bytes (tensor_header.mk 1 k t w 1) = first)
      by reflexivity.
    subst written size. rewrite Hbytes. cbn [tensor_header.dim_count Z.eqb Pos.eqb].
    split; [rewrite length_app; subst start; change (length first) with 16%nat; lia|].
    unfold fread_tensor_header.
    rewrite (fread_data_in _ out first rest start (tensor_header.sizeof - 4))
      by (try rewrite <- app_assoc; done).
    pose proof (Hfirst []) as Hf. rewrite app_nil_r in Hf. fold first in Hf.
    replace (first ++ []) with first in Hf by (by rewrite app_nil_r).
    rewrite Hf. cbn [tensor_header.dim_count tensor_header.data_type].
    change (1 mod 4294967296) with 1. cbn [Z.eqb Pos.eqb orb negb].
    rewrite (proj2 (Z.ltb_lt _ _) Htype). cbn [negb].
    rewrite bool_decide_eq_true_2 by done. cbn [negb]. reflexivity.
  - (* two dimensions *)
    assert (Hbytes : tensor_header_bytes (tensor_header.mk 2 k t w ht)
                     = first ++ bytes_of_uint32 ht).
    { unfold tensor_header_bytes, tensor_header.to_bytes, first.
      cbn [tensor_header.dim_count tensor_header.key_length tensor_header.data_type
           tensor_header.width tensor_header.height].
      rewrite !app_assoc, <- !app_assoc. apply firstn_all2. reflexivity. }
    subst written size. rewrite Hbytes. cbn [tensor_header.dim_count Z.eqb Pos.eqb].
    split.
    { rewrite !length_app; subst start. change (length first) with 16%nat.
      change (length (bytes_of_uint32 ht)) with 4%nat. lia. }
    unfold fread_tensor_header.
    rewrite (fread_data_in _ out first (bytes_of_uint32 ht ++ rest) start
               (tensor_header.sizeof - 4))
      by (rewrite <- ?app_assoc; done).
    pose proof (Hfirst []) as Hf.
    replace (bytes_of_uint32 2 ++ bytes_of_uint32 k ++ bytes_of_uint32 t
             ++ bytes_of_uint32 w ++ []) with first in Hf
      by (unfold first; by rewrite app_nil_r).
    rewrite Hf. cbn [tensor_header.dim_count tensor_header.data_type].
    change (2 mod 4294967296) with 2. cbn [Z.eqb Pos.eqb orb negb].
    rewrite (proj2 (Z.ltb_lt _ _) Htype). cbn [negb].
    rewrite bool_decide_eq_true_2 by done. cbn [negb].
    unfold fread_uint32.
    rewrite (fread_data_in _ (out ++ first) (bytes_of_uint32 ht) rest _ 4); first last.
    + reflexivity.
    + done.
    + rewrite length_app. subst start. change (length first) with 16%nat.
      unfold tensor_header.sizeof. lia.
    + by rewrite <- !app_assoc.
    + cbn [fmap option_fmap option_map].
      rewrite uint32_of_bytes_of_uint32, Z.mod_small by lia.
      unfold tensor_header.set_height, tensor_header.sizeof.
      cbn [tensor_header.dim_count tensor_header.key_length tensor_header.data_type
           tensor_header.width].
      replace (start + (20 - 4) + 4) with (start + 20) by lia. reflexivity.
Qed.

End TensorHeaderRoundTrip.

(** ** The quantizer copies what it does not quantize *)

Lemma tensor_header_first_bytes (bytes : list byte) (height : Z) :
  length bytes = 16%nat ->
  take 16 (tensor_header.to_bytes (tensor_header.of_bytes bytes height)) = bytes.
Proof.
  intros Hlen.
  do 17 (destruct bytes as [|? bytes]; try discriminate).
  unfold tensor_header.to_bytes, tensor_header.of_bytes.
  cbn [tensor_header.dim_count tensor_header.key_length tensor_header.data_type
       tensor_header.width tensor_header.height take drop].
  rewrite !bytes_of_uint32_of_bytes by reflexivity.
  reflexivity.
Qed.

Lemma take_take_drop {A} (l : list A) (n m : nat) :
  take n l ++ take m (drop n l) = take (n + m) l.
Proof.
  revert l. induction n as [|n IH]; intros [|a l]; simpl; try done.
  - by rewrite take_nil.
  - by rewrite IH.
Qed.

Section Consumed.
Context `{!rwkv_h}.

(** The bytes [fread_tensor_header] consumes are those [fwrite_tensor_header]
    writes for the header it returns. *)
Lemma fread_tensor_header_consumed file g header file' g' :
  0 <= position file ->
  fread_tensor_header file g = (Some header, file', g') ->
  g' = g /\ contents file' = contents file
  /\ position file < position file'
  /\ take (Z.to_nat (position file' - position file))
          (drop (Z.to_nat (position file)) (contents file))
     = tensor_header_bytes header.
Proof.
  intros Hpos. unfold fread_tensor_header.
  destruct (fread_data file _) as [[bytes|] file1] eqn:Hread; [|discriminate].
  pose proof (fread_data_Some _ _ _ _ Hread) as [Hbytes Hfile1].
  pose proof (fread_data_length _ _ _ _ Hread) as [_ Hlen].
  unfold tensor_header.sizeof in *.
  assert (Hlen16 : length bytes = 16%nat) by lia.
  set (header0 := tensor_header.of_bytes bytes 1).
  destruct (negb ((tensor_header.dim_count header0 =? 1)
                  || (tensor_header.dim_count header0 =? 2))) eqn:Hshape; [discriminate|].
  destruct (negb (tensor_header.data_type header0 <? TYPE_COUNT)); [discriminate|].
  destruct (negb (bool_decide _)); [discriminate|].
  destruct (tensor_header.dim_count header0 =? 2) eqn:Hdim.
  - (* two dimensions *)
    unfold fread_uint32.
    destruct (fread_data file1 4) as [[hb|] file2] eqn:Hread2; [|discriminate].
    cbn [fmap option_fmap option_map].
    intros [= <- <- <-].
    pose proof (fread_data_Some _ _ _ _ Hread2) as [Hhb Hfile2].
    pose proof (fread_data_length _ _ _ _ Hread2) as [_ Hlen2].
    subst file1 file2. cbn [position contents] in *.
    split_and!; [done | done | lia |].
    replace (position file + (20 - 4) + 4 - position file) with 20 by lia.
    unfold tensor_header_bytes.
    apply Z.eqb_eq in Hdim.
    replace (tensor_header.dim_count (tensor_header.set_height header0 (uint32_of_bytes hb)))
      with 2 by done.
    cbn [Z.eqb Pos.eqb]. unfold tensor_header.sizeof.
    change (Z.to_nat (20 - 0)) with 20%nat. change (Z.to_nat 20) with (16 + 4)%nat.
    rewrite <- take_take_drop.
    change (Z.to_nat (20 - 4)) with 16%nat in Hbytes. rewrite <- Hbytes.
    replace (Z.to_nat (position file + (20 - 4)))
      with (Z.to_nat (position file) + 16)%nat in Hhb by lia.
    rewrite <- drop_drop in Hhb. change (Z.to_nat 4) with 4%nat in Hhb.
    rewrite <- Hhb.
    unfold tensor_header.set_height, tensor_header.to_bytes.
    cbn [tensor_header.dim_count tensor_header.key_length tensor_header.data_type
         tensor_header.width tensor_header.height].
    rewrite bytes_of_uint32_of_bytes by lia.
    rewrite <- (tensor_header_first_bytes bytes 1 Hlen16) at 1.
    unfold tensor_header.to_bytes. rewrite !app_assoc.
    rewrite take_app_length', firstn_all2; [reflexivity | | reflexivity].
    rewrite length_app. simpl. lia.
  - (* one dimension *)
    intros [= <- <- <-]. subst file1. cbn [position contents].
    split_and!; [done | done | lia |].
    replace (position file + (20 - 4) - position file) with 16 by lia.
    unfold tensor_header_bytes.
    rewrite orb_false_r in Hshape. apply negb_false_iff in Hshape.
    fold header0. rewrite Hshape.
    unfold tensor_header.sizeof. change (Z.to_nat (20 - 4)) with 16%nat in *.
    change (Z.to_nat 16) with 16%nat.
    rewrite <- Hbytes. symmetry. by apply tensor_header_first_bytes.
Qed.

End Consumed.

Section Passthrough.
Context `{!rwkv_h, !ggml_backend}.

(** X4.  A record the quantizer does not select (a 1-D tensor, [emb.weight],
    [head.weight], a tensor that is not f32 or f16) is copied byte for byte:
    the iteration appends to the output exactly the bytes it consumed from
    the input, and counts the same size on both sides. *)
Theorem quantize_step_copies_verbatim (target_type : Z) (target_ggml : ggml_type)
    (input : FILE) (st : quantize_state) (g : rwkv_globals)
    (header : tensor_header.t) (key data : list byte)
    (input1 input2 input3 : FILE) (g1 : rwkv_globals) :
  0 <= position input ->
  fread_tensor_header input g = (Some header, input1, g1) ->
  fread_tensor_key input1 header = (Some key, input2) ->
  fread_tensor_data input2 header = (Some data, input3) ->
  quantize_selected header (String.string_of_list_byte key) = false ->
  exists st' g',
    quantize_step target_type target_ggml input st g = (true, st', input3, g')
    /\ contents input3 = contents input
    /\ position input < position input3
    /\ output st'
       = output st
         ++ take (Z.to_nat (position input3 - position input))
              (drop (Z.to_nat (position input)) (contents input))
    /\ orig_total_size st' - orig_total_size st = tensor_bytes header
    /\ new_total_size st' - new_total_size st = tensor_bytes header.
Proof.
  intros Hpos Hheader Hkey Hdata Hsel.
  destruct (fread_tensor_header_consumed _ _ _ _ _ Hpos Hheader)
    as (-> & Hc1 & Hp1 & Hbytes).
  unfold fread_tensor_key in Hkey. unfold fread_tensor_data in Hdata.
  pose proof (fread_data_Some _ _ _ _ Hkey) as [Hkeyb ->].
  pose proof (fread_data_length _ _ _ _ Hkey) as [Hkpos Hklen].
  pose proof (fread_data_Some _ _ _ _ Hdata) as [Hdatab ->].
  pose proof (fread_data_length _ _ _ _ Hdata) as [Hdpos Hdlen].
  cbn [position contents] in *.
  unfold quantize_step. rewrite Hheader. unfold fread_tensor_key, fread_tensor_data.
  rewrite Hkey, Hdata, Hsel.
  cbn zeta. cbn [out_header new_size out_container out_scratch hist_cur].
  rewrite fwrite_tensor_header_ok. cbn [output].
  unfold fwrite_string.
  rewrite String.list_byte_of_string_of_list_byte, string_of_list_byte_length.
  rewrite fwrite_data_all by (intros ->; simpl in Hklen; lia).
  replace (tensor_bytes header) with (Z.of_nat (length data)) by done.
  rewrite fwrite_data_all by (intros ->; simpl in Hdlen; lia).
  do 2 eexists. split; [reflexivity|].
  cbn [output orig_total_size new_total_size position contents].
  split_and!; [done | lia | | lia | lia].
  rewrite <- !app_assoc. f_equal.
  set (p := Z.to_nat (position input)) in *.
  set (l := contents input) in *. rewrite Hc1 in *.
  set (n1 := Z.to_nat (position input1 - position input)) in *.
  set (n2 := Z.to_nat (tensor_header.key_length header)) in *.
  set (n3 := Z.to_nat (Z.of_nat (length data))) in *.
  replace (Z.to_nat (position input1 + tensor_header.key_length header
                     + Z.of_nat (length data) - position input))
    with (n1 + n2 + n3)%nat by lia.
  rewrite <- Hbytes, <- !take_take_drop, <- app_assoc. f_equal.
  rewrite !drop_drop.
  replace (p + n1)%nat with (Z.to_nat (position input1)) by lia.
  rewrite <- Hkeyb. f_equal.
  rewrite Hdatab at 1. subst n3. rewrite Hdlen. do 2 f_equal. lia.
Qed.

End Passthrough.

(** ** The type registry *)

Lemma type_from_string_known (str : string) :
  type_from_string str <> TYPE_UNKNOWN ->
  0 <= type_from_string str < TYPE_COUNT
  /\ type_to_string (type_from_string str) = str.
Proof.
  unfold type_from_string, type_to_string_table.
  cbn [type_from_string_loop].
  repeat (destruct (String.eqb str _) eqn:E;
          [apply String.eqb_eq in E as ->; intros _; by vm_compute | clear E]).
  done.
Qed.

(** X5.  The names of the registry: every type code below [TYPE_COUNT] is
    found again from its name; a string that [type_from_string] resolves is
    the name of the code it gives; every other string gives
    [TYPE_UNKNOWN]. *)
Theorem type_names_round_trip :
  (forall type, 0 <= type < TYPE_COUNT -> type_from_string (type_to_string type) = type)
  /\ (forall str, type_from_string str <> TYPE_UNKNOWN ->
        0 <= type_from_string str < TYPE_COUNT
        /\ type_to_string (type_from_string str) = str)
  /\ (forall str, str ∉ type_to_string_table -> type_from_string str = TYPE_UNKNOWN).
Proof.
  split_and!.
  - intros type Htype. unfold TYPE_COUNT in Htype.
    assert (Hcases : type = 0 \/ type = 1 \/ type = 2 \/ type = 3 \/ type = 4
                     \/ type = 5 \/ type = 6 \/ type = 7 \/ type = 8 \/ type = 9) by lia.
    repeat (destruct Hcases as [-> | Hcases]; [reflexivity|]). by subst.
  - apply type_from_string_known.
  - intros str Hstr. unfold type_from_string, type_to_string_table in *.
    cbn [type_from_string_loop].
    repeat (destruct (String.eqb str _) eqn:E;
            [apply String.eqb_eq in E as ->; exfalso; apply Hstr;
             rewrite list_elem_of_In; simpl; tauto | clear E]).
    reflexivity.
Qed.

(** X6.  The two tables between the file's type codes and the backend's
    types agree on every loadable type: [type_from_ggml] undoes
    [type_to_ggml] there.  The other way they differ on [Q4_2] and [Q4_3]
    only, which [type_from_ggml] still names and [type_to_ggml] no longer
    maps. *)
Theorem type_tables_agree :
  (forall type, 0 <= type < TYPE_COUNT -> type_to_ggml type <> GGML_TYPE_UNKNOWN ->
     type_from_ggml (type_to_ggml type) = type)
  /\ (forall type, type_from_ggml type <> TYPE_COUNT ->
        type_to_ggml (type_from_ggml type) = type
        \/ ((type = GGML_TYPE_Q4_2 \/ type = GGML_TYPE_Q4_3)
            /\ type_to_ggml (type_from_ggml type) = GGML_TYPE_UNKNOWN)).
Proof.
  split.
  - intros type Htype. unfold TYPE_COUNT in Htype.
    assert (Hcases : type = 0 \/ type = 1 \/ type = 2 \/ type = 3 \/ type = 4
                     \/ type = 5 \/ type = 6 \/ type = 7 \/ type = 8 \/ type = 9) by lia.
    repeat (destruct Hcases as [-> | Hcases]; [by vm_compute|]). subst. by vm_compute.
  - intros []; vm_compute; intros Hne; try (by left); try (by right; split; [left|]);
      try (by right; split; [right|]); by destruct Hne.
Qed.

(** ** The quantizer: what it refuses, and the header it writes *)

Lemma uint32_of_bytes_lt (bs : list byte) :
  0 <= uint32_of_bytes bs < 256 ^ Z.of_nat (length bs).
Proof.
  induction bs as [|b bs IH]; [done|].
  cbn [length]. rewrite Nat2Z.inj_succ, Z.pow_succ_r by lia.
  unfold uint32_of_bytes in *. cbn [foldr].
  pose proof (byte_range b). lia.
Qed.

Lemma uint32_of_bytes_bound (bs : list byte) :
  (length bs <= 4)%nat -> is_uint32 (uint32_of_bytes bs).
Proof.
  intros Hlen. unfold is_uint32. pose proof (uint32_of_bytes_lt bs) as Hlt.
  assert (256 ^ Z.of_nat (length bs) <= 256 ^ 4)
    by (apply Z.pow_le_mono_r; lia).
  lia.
Qed.

Lemma file_header_of_bytes_uint32 (bytes : list byte) :
  let h := file_header.of_bytes bytes in
  is_uint32 (file_header.magic h) /\ is_uint32 (file_header.version h)
  /\ is_uint32 (file_header.n_vocab h) /\ is_uint32 (file_header.n_embed h)
  /\ is_uint32 (file_header.n_layer h) /\ is_uint32 (file_header.data_type h).
Proof.
  cbn. split_and!; apply uint32_of_bytes_bound; rewrite length_take; lia.
Qed.

Section HeaderRead.
Context `{!rwkv_h}.

(** What a successful [fread_file_header] has checked. *)
Lemma fread_file_header_inv file verify g header file' g' :
  fread_file_header file verify g = (Some header, file', g') ->
  g' = g
  /\ (exists bytes, fread_data file file_header.sizeof = (Some bytes, file')
                    /\ header = file_header.of_bytes bytes)
  /\ file_header.magic header = RWKV_FILE_MAGIC
  /\ is_file_version_in_range (file_header.version header) = true
  /\ file_header.data_type header < TYPE_COUNT
  /\ (verify = true ->
      type_to_ggml (file_header.data_type header) <> GGML_TYPE_UNKNOWN
      /\ (ggml_is_quantized (type_to_ggml (file_header.data_type header)) = true ->
          file_header.version header = RWKV_FILE_VERSION_1)).
Proof.
  unfold fread_file_header.
  destruct (fread_data file _) as [[bytes|] file1] eqn:Hread; [|discriminate].
  set (header0 := file_header.of_bytes bytes).
  destruct (file_header.magic header0 =? RWKV_FILE_MAGIC) eqn:Hmagic; [|discriminate].
  destruct (is_file_version_in_range _) eqn:Hversion; [|discriminate].
  destruct (file_header.data_type header0 <? TYPE_COUNT) eqn:Htype; [|discriminate].
  cbn [negb]. apply Z.eqb_eq in Hmagic. apply Z.ltb_lt in Htype.
  destruct verify.
  - destruct (bool_decide _) eqn:Hsupported; [|discriminate]. cbn [negb].
    apply bool_decide_eq_true_1 in Hsupported.
    destruct (ggml_is_quantized _) eqn:Hq; cbn [negb orb].
    + destruct (file_header.version header0 =? RWKV_FILE_VERSION_1) eqn:Hv; [|discriminate].
      cbn [negb]. intros [= <- <- <-]. apply Z.eqb_eq in Hv.
      split_and!; eauto.
    + intros [= <- <- <-]. split_and!; eauto. intros _. split; [done|]. congruence.
  - intros [= <- <- <-]. split_and!; eauto. discriminate.
Qed.

End HeaderRead.

Section QuantizerChecks.
Context `{!rwkv_h, !ggml_backend}.

(** X7.  A target name other than f32, f16, Q4_0, Q4_1, Q5_0, Q5_1 and
    Q8_0 makes [rwkv_quantize_model_file] return [false] before it opens a
    file, with ARGS and DATA_TYPE recorded: a name of a removed format
    (Q4_1_O, Q4_2, Q4_3) is reported as unsupported, any other string as
    invalid. *)
Theorem quantize_rejects_unsupported_target (input_path : string)
    (opened : option (list byte)) (output_path : string) (writable : bool)
    (target_name : string) (g : rwkv_globals) :
  target_name ∉ ["f32"; "f16"; "Q4_0"; "Q4_1"; "Q5_0"; "Q5_1"; "Q8_0"] ->
  let removed := bool_decide (target_name ∈ ["Q4_1_O"; "Q4_2"; "Q4_3"]) in
  rwkv_quantize_model_file input_path opened output_path writable target_name g
  = (false, None,
     RWKV_ASSERT_MSG_fails (Z.lor RWKV_ERROR_ARGS RWKV_ERROR_DATA_TYPE)
       (fprintf (if removed then "unsupported target data type (%s)"
                 else "invalid target data type (%s)") [arg_str target_name])
       (if removed then 983 else 982)
       (if removed then "target_ggml != GGML_TYPE_UNKNOWN"
        else "target_type != TYPE_UNKNOWN")
       (global_set_error RWKV_ERROR_NONE g)).
Proof.
  intros Hname removed. subst removed.
  unfold rwkv_quantize_model_file, type_from_string, type_to_string_table.
  cbn [type_from_string_loop].
  repeat (destruct (String.eqb target_name _) eqn:?;
          [match goal with E : String.eqb _ _ = true |- _ =>
             apply String.eqb_eq in E as -> end;
           first [ exfalso; apply Hname; rewrite list_elem_of_In; simpl; tauto
                 | rewrite (bool_decide_eq_true_2 (_ ∈ _))
                     by (rewrite list_elem_of_In; simpl; tauto);
                   reflexivity ]
          | match goal with E : String.eqb _ _ = false |- _ =>
              apply String.eqb_neq in E end]).
  rewrite (bool_decide_eq_false_2 (_ ∈ _))
    by (rewrite list_elem_of_In; simpl; intuition congruence).
  reflexivity.
Qed.

Lemma fwrite_data_prefix (file data : list byte) (n : Z) b file' :
  fwrite_data file data n = (b, file') -> exists suffix, file' = file ++ suffix.
Proof.
  unfold fwrite_data. case_match; intros [= <- <-]; [exists [] | eauto].
  by rewrite app_nil_r.
Qed.

(** An iteration of the quantizer only appends to the output file. *)
Lemma quantize_step_output target_type target_ggml input st g b st' input' g' :
  quantize_step target_type target_ggml input st g = (b, st', input', g') ->
  exists suffix, output st' = output st ++ suffix.
Proof.
  assert (Hnil : exists suffix, output st = output st ++ suffix)
    by (exists []; by rewrite app_nil_r).
  unfold quantize_step.
  destruct (fread_tensor_header input g) as [[[header|] input1] g1];
    [|by intros [= <- <- <- <-]].
  destruct (fread_tensor_key input1 header) as [[key|] input2];
    [|by intros [= <- <- <- <-]].
  destruct (fread_tensor_data input2 header) as [[data|] input3];
    [|by intros [= <- <- <- <-]].
  destruct (quantize_selected header _); cbn zeta;
    rewrite fwrite_tensor_header_ok; cbn [output];
    (destruct (fwrite_string _ _) as [[|] bytes1] eqn:Hname;
     apply fwrite_data_prefix in Hname as [s1 ->];
     [destruct (fwrite_data _ _ _) as [[|] bytes2] eqn:Hdata;
      apply fwrite_data_prefix in Hdata as [s2 ->]|]);
    intros [= <- <- <- <-]; cbn [output]; rewrite <- ?app_assoc; eauto.
Qed.

Lemma quantize_loop_output fuel target_type target_ggml input size st g b st' input' g' :
  quantize_loop fuel target_type target_ggml input size st g = Some (b, st', input', g') ->
  exists suffix, output st' = output st ++ suffix.
Proof.
  revert input st g. induction fuel as [|fuel IH]; intros input st g; [discriminate|].
  cbn [quantize_loop]. case_match.
  - destruct (quantize_step _ _ _ _ _) as [[[[|] st1] input1] g1] eqn:Hstep;
      apply quantize_step_output in Hstep as [s1 Hs1].
    + intros Hloop. apply IH in Hloop as [s2 Hs2]. rewrite Hs2, Hs1, <- app_assoc. eauto.
    + intros [= <- <- <- <-]. eauto.
  - intros [= <- <- <- <-]. exists []. by rewrite app_nil_r.
Qed.

(** X8.  Once the source header has been read, the output file depends on
    the source type alone.  A source that is not f32 or f16 (a quantized
    model, for one) makes the function return [false] with FILE recorded and
    the output file left empty.  For an f32 or f16 source the output file,
    however the run ends, begins with the source header with its version
    replaced by [RWKV_FILE_VERSION] and its type by the target type; when
    [RWKV_FILE_VERSION] is the version that may hold quantized data, a
    verifying [fread_file_header] reads exactly that header back from the
    output. *)
Theorem quantize_output_header (input_path output_path target_name : string)
    (bytes : list byte) (g : rwkv_globals) (h : file_header.t) (input1 : FILE)
    (g2 : rwkv_globals) :
  let target_type := type_from_string target_name in
  let g1 := RWKV_MSG (fprintf "Loading model from '%s'\n" [arg_str input_path])
              (global_set_error RWKV_ERROR_NONE g) in
  let out_header :=
    file_header.mk (file_header.magic h) RWKV_FILE_VERSION (file_header.n_vocab h)
      (file_header.n_embed h) (file_header.n_layer h) target_type in
  target_type <> TYPE_UNKNOWN ->
  type_to_ggml target_type <> GGML_TYPE_UNKNOWN ->
  fread_file_header (mk_FILE bytes 0) true g1 = (Some h, input1, g2) ->
  let '(result, written, g') :=
    rwkv_quantize_model_file input_path (Some bytes) output_path true target_name g in
  (file_header.data_type h <> TYPE_F32 -> file_header.data_type h <> TYPE_F16 ->
     result = false /\ written = Some []
     /\ global_last_error g' = Z.lor RWKV_ERROR_NONE RWKV_ERROR_FILE)
  /\ (file_header.data_type h = TYPE_F32 \/ file_header.data_type h = TYPE_F16 ->
      exists out,
        written = Some out
        /\ take 24 out = file_header.to_bytes out_header
        /\ (is_uint32 RWKV_FILE_VERSION ->
            is_file_version_in_range RWKV_FILE_VERSION = true ->
            RWKV_FILE_VERSION = RWKV_FILE_VERSION_1 ->
            forall g0,
              fread_file_header (mk_FILE out 0) true g0
              = (Some out_header, mk_FILE out 24, g0))).
Proof.
  intros target_type g1 out_header Htarget Hggml Hread.
  destruct (fread_file_header_inv _ _ _ _ _ _ Hread)
    as (-> & (hbytes & _ & Hh) & Hmagic & _ & _ & _).
  unfold rwkv_quantize_model_file. fold target_type.
  rewrite !bool_decide_eq_true_2 by done. cbn [negb]. fold g1. rewrite Hread.
  destruct ((file_header.data_type h =? TYPE_F32) || (file_header.data_type h =? TYPE_F16))
    eqn:Hfloat; cbn [negb].
  - (* a float source *)
    fold out_header.
    assert (Hwrite : fwrite_file_header [] out_header g1
                     = (true, file_header.to_bytes out_header, g1)) by reflexivity.
    rewrite Hwrite.
    assert (Hfrom : forall out, (exists suffix, out = file_header.to_bytes out_header ++ suffix) ->
      take 24 out = file_header.to_bytes out_header
      /\ (is_uint32 RWKV_FILE_VERSION ->
          is_file_version_in_range RWKV_FILE_VERSION = true ->
          RWKV_FILE_VERSION = RWKV_FILE_VERSION_1 ->
          forall g0,
            fread_file_header (mk_FILE out 0) true g0
            = (Some out_header, mk_FILE out 24, g0))).
    { intros out [suffix ->]. split; [reflexivity|].
      intros Hv32 Hvrange Hv1 g0.
      pose proof (file_header_of_bytes_uint32 hbytes) as Hfields. cbv zeta in Hfields.
      rewrite <- Hh in Hfields. destruct Hfields as (F1 & F2 & F3 & F4 & F5 & F6).
      assert (Htt : 0 <= target_type < TYPE_COUNT) by (by apply type_from_string_known).
      assert (Htt32 : is_uint32 target_type) by (unfold is_uint32, TYPE_COUNT in *; lia).
      apply (fread_file_header_written [] suffix out_header true g0);
        first [done | apply Htt | (intros _; split; [done|]; intros _; exact Hv1)]. }
    destruct (quantize_loop _ _ _ _ _ _ _) as [[[[[|] st] input2] g3]|] eqn:Hloop.
    + apply quantize_loop_output in Hloop as [suffix Hout]. cbn [output] in Hout.
      split; [intros Hn1 Hn2; apply orb_true_iff in Hfloat as [E|E];
              apply Z.eqb_eq in E; done|].
      intros _. eexists. split; [reflexivity|]. apply Hfrom. eauto.
    + apply quantize_loop_output in Hloop as [suffix Hout]. cbn [output] in Hout.
      split; [intros Hn1 Hn2; apply orb_true_iff in Hfloat as [E|E];
              apply Z.eqb_eq in E; done|].
      intros _. eexists. split; [reflexivity|]. apply Hfrom. eauto.
    + split; [intros Hn1 Hn2; apply orb_true_iff in Hfloat as [E|E];
              apply Z.eqb_eq in E; done|].
      intros _. eexists. split; [reflexivity|]. apply Hfrom. exists []. by rewrite app_nil_r.
  - (* any other source *)
    apply orb_false_iff in Hfloat as [E1 E2].
    apply Z.eqb_neq in E1, E2.
    split; [|intros [?|?]; done].
    intros _ _. split_and!; [done | done |].
    rewrite ASSERT_MSG_last_error. unfold g1.
    destruct (RWKV_MSG_frame (fprintf "Loading model from '%s'\n" [arg_str input_path])
                (global_set_error RWKV_ERROR_NONE g)) as (-> & _). reflexivity.
Qed.

End QuantizerChecks.

(** ** Binding the parameters of a model *)

Lemma foldl_insert_seq {A} (f : nat -> A) (l : list A) (k : nat) :
  (k <= length l)%nat ->
  foldl (fun l i => <[i := f i]> l) l (seq 0 k) = map f (seq 0 k) ++ drop k l.
Proof.
  induction k as [|k IH]; intros Hk.
  - by rewrite drop_0.
  - rewrite seq_S, foldl_app, IH, map_app by lia. cbn [foldl map]. rewrite Nat.add_0_l.
    destruct (drop k l) as [|d rest] eqn:Hdrop.
    { apply (f_equal length) in Hdrop. rewrite length_drop in Hdrop. simpl in Hdrop. lia. }
    replace (drop (S k) l) with rest
      by (rewrite <- (Nat.add_1_r k), <- drop_drop, Hdrop; reflexivity).
    replace k with (length (map f (seq 0 k)) + 0)%nat at 1
      by (rewrite length_map, length_seq; lia).
    rewrite insert_app_r. simpl. by rewrite <- app_assoc.
Qed.

Lemma first_missing_app parameters (names1 names2 : list string) :
  first_missing parameters (names1 ++ names2)
  = match first_missing parameters names1 with
    | Some key => Some key
    | None => first_missing parameters names2
    end.
Proof.
  induction names1 as [|key names1 IH]; [done|].
  cbn [app first_missing]. by destruct (parameters !! key).
Qed.

Lemma first_missing_None parameters (names : list string) :
  first_missing parameters names = None
  <-> Forall (fun key => is_Some (parameters !! key)) names.
Proof.
  induction names as [|key names IH]; cbn [first_missing].
  - split; [constructor | done].
  - rewrite Forall_cons. destruct (parameters !! key) eqn:E.
    + rewrite IH. split; [by split; [eexists|] | by intros [_ ?]].
    + split; [done | by intros [[? ?] _]].
Qed.

Lemma first_missing_Some parameters (names : list string) key :
  first_missing parameters names = Some key ->
  parameters !! key = None
  /\ exists before after,
       names = before ++ key :: after
       /\ Forall (fun key => is_Some (parameters !! key)) before.
Proof.
  induction names as [|k names IH]; cbn [first_missing]; [done|].
  destruct (parameters !! k) eqn:E.
  - intros Hrest. destruct (IH Hrest) as (Hkey & before & after & -> & Hbefore).
    split; [done|]. exists (k :: before), after. split; [done|].
    constructor; [by eexists | done].
  - intros [= <-]. split; [done|]. exists [], names. split; [done | constructor].
Qed.

Section SetParams.
Context `{!rwkv_h, !ggml_backend}.
Variable parameters : gmap string ggml_tensor.

Lemma ensure_parameter {A} key
    (rest : ggml_tensor -> rwkv_globals -> option A * rwkv_globals) g :
  ensure_callback (parameter_callback parameters) key rest g
  = match parameters !! key with
    | Some tensor => rest tensor g
    | None => (None, parameter_not_found key g)
    end.
Proof.
  unfold ensure_callback, parameter_callback. by destruct (parameters !! key).
Qed.

Lemma rwkv_set_params_layer_spec (i : Z) (g : rwkv_globals) :
  rwkv_set_params_layer (parameter_callback parameters) i g
  = match first_missing parameters (layer_parameter_names i) with
    | Some key => (None, parameter_not_found key g)
    | None => (Some (layer_of_parameters parameters i), g)
    end.
Proof.
  unfold rwkv_set_params_layer, layer_parameter_names, layer_of_parameters, parameter.
  cbv zeta. generalize ("blocks." +:+ pretty (as_int32 i) +:+ ".") as buffer. intros buffer.
  repeat (rewrite ensure_parameter; cbn [first_missing];
          destruct (parameters !! _); [|reflexivity]).
  reflexivity.
Qed.

Lemma rwkv_set_params_layers_spec (indices : list nat) (layers : list rwkv_layer.t)
    (g : rwkv_globals) :
  rwkv_set_params_layers (parameter_callback parameters) indices layers g
  = match first_missing parameters
            (concat (map (fun i => layer_parameter_names (Z.of_nat i)) indices)) with
    | Some key => (None, parameter_not_found key g)
    | None =>
        (Some (foldl (fun layers i =>
                        <[i := layer_of_parameters parameters (Z.of_nat i)]> layers)
                     layers indices), g)
    end.
Proof.
  revert layers. induction indices as [|i indices IH]; intros layers; [done|].
  cbn [rwkv_set_params_layers map concat foldl].
  rewrite rwkv_set_params_layer_spec, first_missing_app.
  destruct (first_missing parameters (layer_parameter_names _)); [done|].
  apply IH.
Qed.

(** [rwkv_set_params] with the callback of the loader, as a function of
    the first key that is missing. *)
Lemma rwkv_set_params_spec (model : rwkv_model.t) (g : rwkv_globals) :
  rwkv_set_params model (parameter_callback parameters) g
  = match first_missing parameters
            (parameter_names (file_header.n_layer (rwkv_model.header model))) with
    | Some key => (None, parameter_not_found key g)
    | None =>
        (Some (rwkv_model.mk (rwkv_model.header model)
                 (parameter parameters "emb.weight")
                 (parameter parameters "blocks.0.ln0.weight")
                 (parameter parameters "blocks.0.ln0.bias")
                 (map (fun i => layer_of_parameters parameters (Z.of_nat i))
                      (seq 0 (Z.to_nat (file_header.n_layer (rwkv_model.header model)))))
                 (parameter parameters "ln_out.weight")
                 (parameter parameters "ln_out.bias")
                 (parameter parameters "head.weight")), g)
    end.
Proof.
  unfold rwkv_set_params, parameter_names, parameter.
  set (n_layer := file_header.n_layer (rwkv_model.header model)).
  cbn [app first_missing].
  do 3 (rewrite ensure_parameter; destruct (parameters !! _); [|reflexivity]).
  rewrite rwkv_set_params_layers_spec, first_missing_app.
  destruct (first_missing parameters (concat _)); [reflexivity|].
  cbn [first_missing].
  do 3 (rewrite ensure_parameter; destruct (parameters !! _); [|reflexivity]).
  rewrite foldl_insert_seq by (rewrite length_replicate; lia).
  rewrite drop_ge, app_nil_r by (rewrite length_replicate; lia).
  reflexivity.
Qed.

(** X9.  [rwkv_set_params] with the callback of the loader asks for the
    keys in a fixed order: the embedding and the first layer norm, the
    eighteen keys of every layer in turn, then the last layer norm and the
    head.  When the file has a tensor for every key, the model is bound by
    name, layer by layer, and nothing is printed; otherwise the call fails
    at the first key that is missing and reports that key. *)
Theorem rwkv_set_params_binds_by_name (model : rwkv_model.t) (g : rwkv_globals) :
  let n_layer := file_header.n_layer (rwkv_model.header model) in
  let p := parameter parameters in
  match first_missing parameters (parameter_names n_layer) with
  | Some key =>
      rwkv_set_params model (parameter_callback parameters) g
      = (None, parameter_not_found key g)
  | None =>
      rwkv_set_params model (parameter_callback parameters) g
      = (Some (rwkv_model.mk (rwkv_model.header model)
                 (p "emb.weight") (p "blocks.0.ln0.weight") (p "blocks.0.ln0.bias")
                 (map (fun i => layer_of_parameters parameters (Z.of_nat i))
                      (seq 0 (Z.to_nat n_layer)))
                 (p "ln_out.weight") (p "ln_out.bias") (p "head.weight")), g)
  end.
Proof.
  intros n_layer p. subst n_layer p. rewrite rwkv_set_params_spec.
  by destruct (first_missing parameters _).
Qed.

End SetParams.

(** ** Loading: refused files *)

Section LoaderEdges.
Context `{!rwkv_h, !ggml_backend}.

(** The detail flag [fread_file_header] records for the first check a
    header fails. *)
Lemma fread_file_header_rejects (bytes : list byte) (g : rwkv_globals) :
  let header := file_header.of_bytes (take 24 bytes) in
  forall detail,
    ((length bytes < 24)%nat /\ detail = RWKV_ERROR_FILE_READ)
    \/ ((24 <= length bytes)%nat
        /\ ((file_header.magic header <> RWKV_FILE_MAGIC /\ detail = RWKV_ERROR_FILE_MAGIC)
            \/ (file_header.magic header = RWKV_FILE_MAGIC
                /\ ((is_file_version_in_range (file_header.version header) = false
                     /\ detail = RWKV_ERROR_FILE_VERSION)
                    \/ (is_file_version_in_range (file_header.version header) = true
                        /\ TYPE_COUNT <= file_header.data_type header
                        /\ detail = RWKV_ERROR_DATA_TYPE))))) ->
    exists file' g',
      fread_file_header (mk_FILE bytes 0) true g = (None, file', g')
      /\ global_last_error g' = Z.lor (global_last_error g) detail
      /\ global_print_errors g' = global_print_errors g
      /\ stdout g' = stdout g.
Proof.
  intros header detail Hcase. unfold fread_file_header, fread_data, file_header.sizeof.
  cbn [position contents Z.leb Z.compare]. rewrite drop_0.
  destruct Hcase as [[Hshort ->] | [Hlong Hcase]].
  - rewrite (proj2 (Z.leb_gt _ _)) by lia. do 2 eexists. split; [reflexivity|]. done.
  - rewrite (proj2 (Z.leb_le _ _)) by lia. change (Z.to_nat 24) with 24%nat. fold header.
    destruct Hcase as [[Hmagic ->] | [Hmagic [[Hversion ->] | (Hversion & Htype & ->)]]].
    + rewrite (proj2 (Z.eqb_neq _ _) Hmagic). do 2 eexists. split; [reflexivity|]. done.
    + rewrite Hmagic, Z.eqb_refl, Hversion. cbn [negb].
      do 2 eexists. split; [reflexivity|].
      split; [apply ASSERT_MSG_last_error|].
      apply records_error_ASSERT_MSG.
    + rewrite Hmagic, Z.eqb_refl, Hversion. cbn [negb].
      rewrite (proj2 (Z.ltb_ge _ _) Htype). cbn [negb].
      do 2 eexists. split; [reflexivity|].
      split; [apply ASSERT_MSG_last_error|].
      apply records_error_ASSERT_MSG.
Qed.

(** X10.  [rwkv_init_from_file] returns no context for a file it cannot
    open, and for a file whose header is cut short, has another magic, a
    version out of the supported range or a type code out of the registry.
    It records, on top of a last error it first clears, FILE with FILE_OPEN
    in the first case, and the detail of the failed check and then FILE in
    the others. *)
Theorem rwkv_init_from_file_bad_header (file_path : string) (n_threads : Z)
    (g : rwkv_globals) (bytes : list byte) (detail : Z) :
  let header := file_header.of_bytes (take 24 bytes) in
  ((length bytes < 24)%nat /\ detail = RWKV_ERROR_FILE_READ)
  \/ ((24 <= length bytes)%nat
      /\ ((file_header.magic header <> RWKV_FILE_MAGIC /\ detail = RWKV_ERROR_FILE_MAGIC)
          \/ (file_header.magic header = RWKV_FILE_MAGIC
              /\ ((is_file_version_in_range (file_header.version header) = false
                   /\ detail = RWKV_ERROR_FILE_VERSION)
                  \/ (is_file_version_in_range (file_header.version header) = true
                      /\ TYPE_COUNT <= file_header.data_type header
                      /\ detail = RWKV_ERROR_DATA_TYPE))))) ->
  (exists g',
     rwkv_init_from_file file_path None n_threads g = (None, g')
     /\ global_last_error g'
        = Z.lor RWKV_ERROR_NONE (Z.lor RWKV_ERROR_FILE RWKV_ERROR_FILE_OPEN))
  /\ (exists g',
        rwkv_init_from_file file_path (Some bytes) n_threads g = (None, g')
        /\ global_last_error g' = Z.lor (Z.lor RWKV_ERROR_NONE detail) RWKV_ERROR_FILE
        /\ global_print_errors g' = global_print_errors g
        /\ stdout g' = stdout g).
Proof.
  intros header Hcase. split.
  - eexists. split; [reflexivity|]. apply ASSERT_MSG_last_error.
  - destruct (fread_file_header_rejects bytes (global_set_error RWKV_ERROR_NONE g)
                detail Hcase) as (file' & g1 & Hread & He & Hp & Ho).
    unfold rwkv_init_from_file. rewrite Hread.
    eexists. split; [reflexivity|].
    rewrite ASSERT_MSG_last_error, He.
    destruct (records_error_ASSERT_MSG RWKV_ERROR_FILE (fprintf "invalid file header" [])
                846 "fread_file_header(file, header)" g1) as (_ & _ & Hp' & Ho').
    rewrite Hp', Ho', Hp, Ho. done.
Qed.


Lemma fread_tensor_header_globals file g header file' g' :
  fread_tensor_header file g = (Some header, file', g') -> g' = g.
Proof.
  unfold fread_tensor_header. destruct (fread_data file _) as [[bytes|] file1]; [|discriminate].
  repeat (case_match; try discriminate); by intros [= _ _ <-].
Qed.

Lemma sizing_pass_globals fuel file size ffn_key g ffn_key' file' g' :
  sizing_pass fuel file size ffn_key g = Some (Some ffn_key', file', g') -> g' = g.
Proof.
  revert file ffn_key g. induction fuel as [|fuel IH]; intros file ffn_key g; [discriminate|].
  cbn [sizing_pass]. case_match; [|by intros [= _ _ <-]].
  destruct (fread_tensor_header file g) as [[[header|] file1] g1] eqn:Hheader; [|discriminate].
  apply fread_tensor_header_globals in Hheader as ->.
  destruct (fread_string _ _) as [[name|] file2]; [|discriminate].
  destruct (fseek_cur _ _) as [[|] file3]; [|discriminate].
  apply IH.
Qed.

Lemma fread_ggml_tensor_globals file ctx g r file' ctx' g' :
  fread_ggml_tensor file ctx g = (Some r, file', ctx', g') -> g' = g.
Proof.
  unfold fread_ggml_tensor, fread_ggml_tensor_data.
  destruct (fread_tensor_header file g) as [[[header|] file1] g1] eqn:Hheader; [|discriminate].
  apply fread_tensor_header_globals in Hheader as ->.
  destruct (fread_string _ _) as [[name|] file2]; [|discriminate].
  destruct (negb _); [discriminate|].
  destruct (if tensor_header.dim_count header =? 1 then _ else _) as [tensor ctx1].
  destruct (fread_data _ _) as [[bytes|] file3]; [|discriminate].
  by intros [= _ _ _ <-].
Qed.

Lemma binding_pass_globals fuel file size ctx parameters g parameters' file' ctx' g' :
  binding_pass fuel file size ctx parameters g = Some (Some parameters', file', ctx', g') ->
  g' = g.
Proof.
  revert file ctx parameters g.
  induction fuel as [|fuel IH]; intros file ctx parameters g; [discriminate|].
  cbn [binding_pass]. case_match; [|by intros [= _ _ _ <-]].
  destruct (fread_ggml_tensor file ctx g) as [[[[[name tensor]|] file1] ctx1] g1] eqn:Hread;
    [|discriminate].
  apply fread_ggml_tensor_globals in Hread as ->.
  apply IH.
Qed.

Lemma rwkv_init_from_file_inv (file_path : string) (opened : option (list byte))
    (n_threads : Z) (g : rwkv_globals) (ctx : rwkv_context.t) (g' : rwkv_globals) :
  rwkv_init_from_file file_path opened n_threads g = (Some ctx, g') ->
  let model := rwkv_context.model ctx in
  let header := rwkv_model.header model in
  g' = global_set_error RWKV_ERROR_NONE g
  /\ rwkv_context.last_error ctx = RWKV_ERROR_NONE
  /\ rwkv_context.print_errors ctx = global_print_errors g
  /\ rwkv_graph.cgraph_n_threads (rwkv_context.graph ctx) = n_threads
  /\ (exists bytes, opened = Some bytes /\ (24 <= length bytes)%nat
                    /\ header = file_header.of_bytes (take 24 bytes))
  /\ file_header.magic header = RWKV_FILE_MAGIC
  /\ is_file_version_in_range (file_header.version header) = true
  /\ type_to_ggml (file_header.data_type header) <> GGML_TYPE_UNKNOWN
  /\ (exists parameters,
        Forall (fun key => is_Some (parameters !! key))
          (parameter_names (file_header.n_layer header))
        /\ rwkv_model.emb model = parameter parameters "emb.weight"
        /\ rwkv_model.head model = parameter parameters "head.weight"
        /\ rwkv_model.layers model
           = map (fun i => layer_of_parameters parameters (Z.of_nat i))
               (seq 0 (Z.to_nat (file_header.n_layer header))))
  /\ ggml_n_dims (rwkv_model.emb model) = 2
  /\ ggml_ne0 (rwkv_model.emb model) = file_header.n_embed header
  /\ ggml_ne1 (rwkv_model.emb model) = file_header.n_vocab header
  /\ (exists ggml,
        rwkv_context.graph ctx = (rwkv_single_graph ggml model n_threads).1
        /\ rwkv_context.ctx ctx = (rwkv_single_graph ggml model n_threads).2).
Proof.
  unfold rwkv_init_from_file. intros Hinit.
  destruct opened as [bytes|]; [|discriminate].
  destruct (fread_file_header _ _ _) as [[[header|] file1] g1] eqn:Hheader; [|discriminate].
  destruct (fread_file_header_inv _ _ _ _ _ _ Hheader)
    as (-> & (hbytes & Hhb & Hh) & Hmagic & Hversion & _ & Hverified).
  destruct (Hverified eq_refl) as [Hsupported _].
  pose proof (fread_data_Some _ _ _ _ Hhb) as [Hbytes _].
  pose proof (fread_data_length _ _ _ _ Hhb) as [_ Hlen].
  cbn [position contents] in Hbytes. rewrite drop_0 in Hbytes.
  change (Z.to_nat file_header.sizeof) with 24%nat in Hbytes.
  assert (Hlong : (24 <= length bytes)%nat).
  { rewrite Hbytes, length_take in Hlen. unfold file_header.sizeof in Hlen. lia. }
  destruct (sizing_pass _ _ _ _ _) as [[[[ffn_key|] file2] g2]|] eqn:Hsizing;
    try discriminate.
  apply sizing_pass_globals in Hsizing as ->.
  destruct (ffn_key =? 0); [discriminate|].
  destruct (fseek_set _ _) as [[|] file3]; [|discriminate].
  destruct (binding_pass _ _ _ _ _ _) as [[[[[parameters|] file4] ctx4] g4]|] eqn:Hbinding;
    try discriminate.
  apply binding_pass_globals in Hbinding as ->.
  change (fun (key : string) (g : rwkv_globals) =>
            match parameters !! key with
            | Some tensor => (Some tensor, g)
            | None =>
                (None,
                 RWKV_ENSURE_MSG_fails (fprintf "parameter %s not found" [arg_str key])
                   898 "tensor" g)
            end) with (parameter_callback parameters) in Hinit.
  rewrite rwkv_set_params_spec in Hinit. cbn [rwkv_model.header] in Hinit.
  destruct (first_missing parameters _) as [key|] eqn:Hmissing; [discriminate|].
  apply first_missing_None in Hmissing.
  cbn [rwkv_model.emb] in Hinit.
  destruct (ggml_n_dims _ =? 2) eqn:Hdims; [|discriminate].
  destruct (ggml_ne0 _ =? _) eqn:Hne0; [|discriminate].
  destruct (ggml_ne1 _ =? _) eqn:Hne1; [|discriminate].
  cbn [negb] in Hinit.
  destruct (rwkv_single_graph _ _ _) as [graph ctx5] eqn:Hgraph.
  injection Hinit as <- <-.
  cbn [rwkv_context.model rwkv_context.last_error rwkv_context.print_errors
       rwkv_context.graph rwkv_model.header rwkv_model.emb rwkv_model.head
       rwkv_model.layers].
  apply Z.eqb_eq in Hdims, Hne0, Hne1.
  split_and!; try done.
  - revert Hgraph. unfold rwkv_single_graph. cbn.
    destruct (foldl _ _ _). by intros [= <- _].
  - exists bytes. split_and!; [done | done | by rewrite Hh, Hbytes].
  - exists parameters. split_and!; done.
  - eexists. rewrite Hgraph. done.
Qed.


(** X12.  A model file that ends right after a valid header has no tensor
    to size the graph with: [rwkv_init_from_file] returns no context and
    reports the missing parameter [blocks.0.ffn.key.weight], with
    MODEL_PARAMS and PARAM_MISSING recorded. *)
Theorem rwkv_init_from_file_no_tensors (file_path : string) (bytes : list byte)
    (n_threads : Z) (g : rwkv_globals) (header : file_header.t) (file1 : FILE)
    (g1 : rwkv_globals) :
  length bytes = 24%nat ->
  fread_file_header (mk_FILE bytes 0) true (global_set_error RWKV_ERROR_NONE g)
  = (Some header, file1, g1) ->
  rwkv_init_from_file file_path (Some bytes) n_threads g
  = (None,
     RWKV_ASSERT_MSG_fails (Z.lor RWKV_ERROR_MODEL_PARAMS RWKV_ERROR_PARAM_MISSING)
       (fprintf "model is missing parameter blocks.0.ffn.key.weight" [])
       865 "ffn_key" (global_set_error RWKV_ERROR_NONE g)).
Proof.
  intros Hlen Hheader. unfold rwkv_init_from_file. rewrite Hheader.
  destruct (fread_file_header_inv _ _ _ _ _ _ Hheader) as (-> & (hb & Hread & _) & _).
  apply fread_data_position in Hread as (Hpos & _ & Hcontents).
  cbn [position] in Hpos.
  assert (Hend : (ftell file1 <? st_size (mk_FILE bytes 0)) = false).
  { apply Z.ltb_ge. unfold ftell, st_size, file_header.sizeof in *.
    cbn [contents]. lia. }
  unfold enough_fuel. cbn [sizing_pass]. rewrite Hend. reflexivity.
Qed.

(** X13.  A tensor record whose key is empty is refused wherever records
    are read, each path with its own flag: the sizing pass of the loader
    records MODEL_PARAMS, the binding pass FILE_READ and then MODEL_PARAMS,
    the quantizer KEY; none of them reads past the record's header, and the
    quantizer writes nothing. *)
Theorem empty_key_rejected (file : FILE) (g : rwkv_globals) (header : tensor_header.t)
    (file1 : FILE) (g1 : rwkv_globals) (fuel : nat) (size ffn_key : Z)
    (ctx : ggml_context) (parameters : gmap string ggml_tensor)
    (target_type : Z) (target_ggml : ggml_type) (st : quantize_state) :
  fread_tensor_header file g = (Some header, file1, g1) ->
  tensor_header.key_length header = 0 ->
  ftell file < size ->
  let e := global_last_error g in
  (exists g', sizing_pass (S fuel) file size ffn_key g = Some (None, file1, g')
              /\ global_last_error g' = Z.lor e RWKV_ERROR_MODEL_PARAMS)
  /\ (exists g', binding_pass (S fuel) file size ctx parameters g
                 = Some (None, file1, ctx, g')
        /\ global_last_error g'
           = Z.lor (Z.lor e RWKV_ERROR_FILE_READ) RWKV_ERROR_MODEL_PARAMS)
  /\ (exists g', quantize_loop (S fuel) target_type target_ggml file size st g
                 = Some (false, st, file1, g')
        /\ global_last_error g' = Z.lor e RWKV_ERROR_KEY).
Proof.
  intros Hheader Hkey Hsize e.
  pose proof (fread_tensor_header_globals _ _ _ _ _ Hheader) as ->.
  apply Z.ltb_lt in Hsize.
  assert (Hread : fread_data file1 (tensor_header.key_length header) = (None, file1))
    by (rewrite Hkey; reflexivity).
  split_and!.
  - cbn [sizing_pass]. rewrite Hsize, Hheader. unfold fread_string. rewrite Hread.
    eexists. split; [reflexivity|]. apply ASSERT_MSG_last_error.
  - cbn [binding_pass]. rewrite Hsize.
    unfold fread_ggml_tensor, fread_ggml_tensor_data, fread_string.
    rewrite Hheader, Hread. cbn [fmap option_fmap option_map].
    eexists. split; [reflexivity|]. by rewrite !ASSERT_MSG_last_error.
  - cbn [quantize_loop]. rewrite Hsize.
    unfold quantize_step, fread_tensor_key. rewrite Hheader, Hread.
    eexists. split; [reflexivity|]. apply ASSERT_MSG_last_error.
Qed.



End LoaderEdges.

(** ** The graph *)

Section ChannelMixProof.
Context `{!rwkv_h, !ggml_backend}.

(** X15.  For every layer and layer input, the graph [rwkv_single_ffn]
    builds computes the channel-mix substep its comments give: its result
    is x + r * (Wv k) with x0 the layer norm of x by ln2, xk and xr the
    mixes of x0 with the state part ffn_xx, r = sigmoid (Wr xr) and
    k = square (relu (Wk xk)); the state part it leaves in the layer is
    x0. *)
Theorem rwkv_single_ffn_computes_channel_mix (mem : gmap nat ggml_data)
    (x : ggml_tensor) (layer : rwkv_layer.t) :
  let out := channel_mix (channel_mix_input_of mem x layer) in
  let '(x', layer') := rwkv_single_ffn x layer in
  ggml_get_data mem x' = cm_x' out
  /\ ggml_get_data mem (rwkv_layer.ffn_xx layer') = cm_ffn_xx' out
  /\ state_parts layer' = rwkv_layer.ffn_xx layer' :: tail (state_parts layer).
Proof.
  unfold rwkv_single_ffn, channel_mix, channel_mix_input_of.
  cbn [cm_x cm_ln2_w cm_ln2_b cm_tmk cm_tmr cm_Wk cm_Wv cm_Wr cm_ffn_xx cm_x' cm_ffn_xx'
       rwkv_layer.ffn_xx rwkv_layer.ffn_value rwkv_layer.ffn_key
       rwkv_layer.ffn_receptance rwkv_layer.set_ffn_xx].
  unfold rwkv_layer_norm, rwkv_sigmoid, rwkv_1_minus_x.
  cbn [ggml_get_data call_unary].
  unfold mat_vec, ggml_rows. rewrite !map_map.
  rewrite !rwkv_1_minus_x_impl_row, !rwkv_sigmoid_impl_row.
  unfold spec_layernorm, vec_add, vec_mul, vec_sigmoid, vec_one_minus.
  rewrite !map_map.
  split_and!; reflexivity.
Qed.

End ChannelMixProof.

Section GraphLayout.
Context `{!ggml_backend}.

Lemma rwkv_single_graph_layer_parts model input_state n_embed i x
    (before after : list ggml_tensor) :
  length before = (5 * i)%nat ->
  rwkv_single_graph_layer model input_state n_embed (n_embed * 4) i
    (x, before ++ replicate 5 ggml_null ++ after)
  = let '(x, layer) :=
      rwkv_single_att x (graph_layer_input model input_state n_embed i) in
    let '(x, layer) := rwkv_single_ffn x layer in
    (x, before ++ state_parts layer ++ after).
Proof.
  intros Hlen. unfold rwkv_single_graph_layer.
  change (rwkv_layer.set_att_pp _ _) with (graph_layer_input model input_state n_embed i).
  destruct (rwkv_single_att x _) as [x1 layer1].
  destruct (rwkv_single_ffn x1 layer1) as [x2 layer2].
  f_equal.
  replace (Z.to_nat (Z.of_nat i * 5 + 0)) with (length before + 0)%nat by lia.
  replace (Z.to_nat (Z.of_nat i * 5 + 1)) with (length before + 1)%nat by lia.
  replace (Z.to_nat (Z.of_nat i * 5 + 2)) with (length before + 2)%nat by lia.
  replace (Z.to_nat (Z.of_nat i * 5 + 3)) with (length before + 3)%nat by lia.
  replace (Z.to_nat (Z.of_nat i * 5 + 4)) with (length before + 4)%nat by lia.
  rewrite !insert_app_r. reflexivity.
Qed.

Lemma rwkv_single_graph_layers model input_state n_embed x (before : list ggml_tensor)
    (k n : nat) :
  length before = (5 * k)%nat ->
  foldl (fun acc i =>
           rwkv_single_graph_layer model input_state n_embed (n_embed * 4) i acc)
        (x, before ++ replicate (5 * n) ggml_null) (seq k n)
  = let '(x, layers) := graph_layers model input_state n_embed x (seq k n) in
    (x, before ++ concat (map state_parts layers)).
Proof.
  revert x before k. induction n as [|n IH]; intros x before k Hlen.
  - cbn. reflexivity.
  - cbn [seq foldl graph_layers].
    replace (5 * S n)%nat with (5 + 5 * n)%nat by lia.
    rewrite replicate_add, rwkv_single_graph_layer_parts by done.
    destruct (rwkv_single_att x _) as [x1 layer1].
    destruct (rwkv_single_ffn x1 layer1) as [x2 layer2].
    rewrite app_assoc, IH by (rewrite length_app; simpl; lia).
    destruct (graph_layers _ _ _ _ _) as [x3 layers].
    cbn [map concat]. by rewrite <- !app_assoc.
Qed.

Lemma length_graph_layers model input_state n_embed x (indices : list nat) :
  length (graph_layers model input_state n_embed x indices).2 = length indices.
Proof.
  revert x. induction indices as [|i indices IH]; intros x; [done|].
  cbn [graph_layers].
  destruct (rwkv_single_att x _) as [x1 layer1].
  destruct (rwkv_single_ffn x1 layer1) as [x2 layer2].
  specialize (IH x2). destruct (graph_layers _ _ _ _ _) as [x3 layers].
  cbn [snd length] in *. by rewrite IH.
Qed.

(** The graph and the context [rwkv_single_graph] returns. *)
Lemma rwkv_single_graph_fields (ctx : ggml_context) (model : rwkv_model.t)
    (n_threads : Z) :
  let n_embed := file_header.n_embed (rwkv_model.header model) in
  let n_layer := file_header.n_layer (rwkv_model.header model) in
  let input_state :=
    ggml_new_tensor (ggml_objects ctx) GGML_TYPE_F32 1 (n_layer * 5 * n_embed) 1 in
  let token_index := ggml_new_tensor (S (ggml_objects ctx)) GGML_TYPE_I32 1 1 1 in
  let x0 := rwkv_layer_norm (ggml_get_rows (rwkv_model.emb model) token_index)
              (rwkv_model.ln0_weight model) (rwkv_model.ln0_bias model) in
  let chain := graph_layers model input_state n_embed x0 (seq 0 (Z.to_nat n_layer)) in
  let output_state := concat (map state_parts chain.2) in
  let logits :=
    ggml_mul_mat (rwkv_model.head model)
      (rwkv_layer_norm chain.1 (rwkv_model.ln_out_weight model)
         (rwkv_model.ln_out_bias model)) in
  rwkv_single_graph ctx model n_threads
  = (rwkv_graph.mk input_state output_state token_index logits n_threads
       (logits :: output_state),
     mk_ggml_context (S (S (ggml_objects ctx))) (ggml_mem ctx) (ggml_graph_runs ctx)).
Proof.
  intros n_embed n_layer input_state token_index x0 chain output_state logits.
  unfold rwkv_single_graph. fold n_embed n_layer.
  cbn [ggml_new_tensor_1d ggml_objects ggml_mem ggml_graph_runs].
  fold input_state token_index x0.
  replace (Z.to_nat (n_layer * 5)) with (5 * Z.to_nat n_layer)%nat by lia.
  pose proof (rwkv_single_graph_layers model input_state n_embed x0 [] 0
                (Z.to_nat n_layer) eq_refl) as Hfold.
  cbn [app] in Hfold. rewrite Hfold.
  subst logits output_state chain.
  by destruct (graph_layers _ _ _ _ _) as [x layers].
Qed.

(** X16.  The graph [rwkv_single_graph] builds owns two tensors, the input
    state and the token index.  Its layers are chained: each takes the
    output of the one before, and its five state slots are views of the
    input state at the layer's five parts.  The output state lists, layer
    by layer and with no slot left null, the parts [ffn_xx], [att_xx],
    [att_aa], [att_bb], [att_pp] as the two substeps left them, in the order
    the input state has them; the logits are the head applied to the layer
    norm of the last layer's output. *)
Theorem rwkv_single_graph_layout (ctx : ggml_context) (model : rwkv_model.t)
    (n_threads : Z) :
  let n_embed := file_header.n_embed (rwkv_model.header model) in
  let n_layer := file_header.n_layer (rwkv_model.header model) in
  let input_state :=
    ggml_new_tensor (ggml_objects ctx) GGML_TYPE_F32 1 (n_layer * 5 * n_embed) 1 in
  let token_index := ggml_new_tensor (S (ggml_objects ctx)) GGML_TYPE_I32 1 1 1 in
  let x0 := rwkv_layer_norm (ggml_get_rows (rwkv_model.emb model) token_index)
              (rwkv_model.ln0_weight model) (rwkv_model.ln0_bias model) in
  let '(x, layers) :=
    graph_layers model input_state n_embed x0 (seq 0 (Z.to_nat n_layer)) in
  let '(graph, ctx') := rwkv_single_graph ctx model n_threads in
  rwkv_graph.input_state graph = input_state
  /\ rwkv_graph.token_index graph = token_index
  /\ length layers = Z.to_nat n_layer
  /\ rwkv_graph.output_state graph = concat (map state_parts layers)
  /\ rwkv_graph.logits graph
     = ggml_mul_mat (rwkv_model.head model)
         (rwkv_layer_norm x (rwkv_model.ln_out_weight model)
            (rwkv_model.ln_out_bias model))
  /\ ggml_objects ctx' = S (S (ggml_objects ctx))
  /\ ggml_mem ctx' = ggml_mem ctx.
Proof.
  intros n_embed n_layer input_state token_index x0.
  pose proof (rwkv_single_graph_fields ctx model n_threads) as Hfields.
  cbv zeta in Hfields. fold n_embed n_layer input_state token_index x0 in Hfields.
  rewrite Hfields.
  pose proof (length_graph_layers model input_state n_embed x0
                (seq 0 (Z.to_nat n_layer))) as Hlen.
  rewrite length_seq in Hlen.
  destruct (graph_layers _ _ _ _ _) as [x layers].
  cbn [rwkv_graph.input_state rwkv_graph.token_index rwkv_graph.output_state
       rwkv_graph.logits ggml_objects ggml_mem fst snd] in *.
  split_and!; done.
Qed.

End GraphLayout.

Section GraphShapes.
Context `{!rwkv_h, !ggml_backend}.

Lemma rwkv_single_att_rows (n : Z) (x : ggml_tensor) (layer : rwkv_layer.t) :
  ggml_ne0 x = n -> ggml_ne1 x = 1 ->
  ggml_ne0 (rwkv_layer.att_pp layer) = n -> ggml_ne1 (rwkv_layer.att_pp layer) = 1 ->
  let '(x', layer') := rwkv_single_att x layer in
  ggml_ne0 x' = n /\ ggml_ne1 x' = 1
  /\ rwkv_layer.ffn_xx layer' = rwkv_layer.ffn_xx layer
  /\ Forall (is_row n) (tail (state_parts layer')).
Proof.
  intros Hx0 Hx1 Hp0 Hp1. unfold rwkv_single_att, state_parts, is_row.
  unfold rwkv_layer_norm, rwkv_exp, rwkv_max, rwkv_sigmoid, rwkv_1_minus_x.
  cbn -[Z.mul]. rewrite ?Hx0, ?Hx1, ?Hp0, ?Hp1.
  split_and!; try done.
  repeat (constructor;
          [cbn -[Z.mul]; rewrite ?Hx0, ?Hx1, ?Hp0, ?Hp1; split_and!; first [done | lia]|]).
  constructor.
Qed.

Lemma rwkv_single_ffn_rows (n : Z) (x : ggml_tensor) (layer : rwkv_layer.t) :
  ggml_ne0 x = n -> ggml_ne1 x = 1 ->
  let '(x', layer') := rwkv_single_ffn x layer in
  ggml_ne0 x' = n /\ ggml_ne1 x' = 1
  /\ is_row n (rwkv_layer.ffn_xx layer')
  /\ tail (state_parts layer') = tail (state_parts layer).
Proof.
  intros Hx0 Hx1. unfold rwkv_single_ffn, state_parts, is_row.
  unfold rwkv_layer_norm, rwkv_sigmoid, rwkv_1_minus_x.
  cbn -[Z.mul]. rewrite ?Hx0, ?Hx1.
  split_and!; first [done | lia].
Qed.

Lemma graph_layers_rows model input_state (n_embed : Z) (x : ggml_tensor)
    (indices : list nat) :
  ggml_ne0 x = n_embed -> ggml_ne1 x = 1 ->
  Forall (is_row n_embed)
    (concat (map state_parts (graph_layers model input_state n_embed x indices).2)).
Proof.
  revert x. induction indices as [|i indices IH]; intros x Hx0 Hx1; [constructor|].
  cbn [graph_layers].
  pose proof (rwkv_single_att_rows n_embed x
                (graph_layer_input model input_state n_embed i) Hx0 Hx1 eq_refl eq_refl)
    as Hatt.
  destruct (rwkv_single_att x _) as [x1 layer1].
  destruct Hatt as (Hx10 & Hx11 & _ & Hparts1).
  pose proof (rwkv_single_ffn_rows n_embed x1 layer1 Hx10 Hx11) as Hffn.
  destruct (rwkv_single_ffn x1 layer1) as [x2 layer2].
  destruct Hffn as (Hx20 & Hx21 & Hxx & Hparts2).
  specialize (IH x2 Hx20 Hx21).
  destruct (graph_layers _ _ _ _ _) as [x3 layers].
  cbn [snd map concat] in *.
  apply Forall_app. split; [|exact IH].
  change (state_parts layer2) with (rwkv_layer.ffn_xx layer2 :: tail (state_parts layer2)).
  rewrite Hparts2. by constructor.
Qed.

Lemma length_state_parts (layers : list rwkv_layer.t) :
  length (concat (map state_parts layers)) = (5 * length layers)%nat.
Proof. induction layers as [|l layers IH]; simpl in *; lia. Qed.

(** The graph of a loaded context is the one [rwkv_single_graph] builds for
    its model, and the embedding matrix of the model has [n_embed]
    columns. *)
Lemma loaded_graph (ctx : rwkv_context.t) :
  loaded ctx ->
  let model := rwkv_context.model ctx in
  ggml_ne0 (rwkv_model.emb model) = file_header.n_embed (rwkv_model.header model)
  /\ exists ggml n_threads,
       rwkv_context.graph ctx = (rwkv_single_graph ggml model n_threads).1.
Proof.
  induction 1 as [file_path bytes n_threads g ctx g' Hinit
                 |ctx token state_in state_out logits_out g r ctx' so lo g' _ IH Heval
                 |ctx g e ctx' g' _ IH Hget
                 |ctx p g ctx' g' _ IH Hset].
  - pose proof (rwkv_init_from_file_inv _ _ _ _ _ _ Hinit) as Hinv. cbv zeta in Hinv.
    destruct Hinv as (_ & _ & _ & _ & _ & _ & _ & _ & _ & _ & Hne0 & _ & ggml & Hgraph & _).
    split; [done | eauto].
  - assert (rwkv_context.model ctx' = rwkv_context.model ctx
            /\ rwkv_context.graph ctx' = rwkv_context.graph ctx) as [-> ->]; [|exact IH].
    revert Heval. unfold rwkv_eval. simpl.
    destruct state_out as [s|]; [|by intros [= _ <- _ _ _]].
    destruct (negb _); by intros [= _ <- _ _ _].
  - injection Hget as _ <- _. exact IH.
  - injection Hset as <- _. exact IH.
Qed.

(** X17.  In a loaded context the output state has [n_layer * 5] parts and
    every part is one row of [n_embed] floats, so that [rwkv_eval] copies
    [n_embed] floats for each; the input state is one tensor of
    [n_layer * 5 * n_embed] floats, which is the count
    [rwkv_get_state_buffer_element_count] returns whenever it fits 32
    bits. *)
Theorem loaded_state_shape (ctx : rwkv_context.t) :
  loaded ctx ->
  let header := rwkv_model.header (rwkv_context.model ctx) in
  let n_embed := file_header.n_embed header in
  let n_layer := file_header.n_layer header in
  let graph := rwkv_context.graph ctx in
  length (rwkv_graph.output_state graph) = Z.to_nat (n_layer * 5)
  /\ Forall (is_row n_embed) (rwkv_graph.output_state graph)
  /\ ggml_nbytes (rwkv_graph.input_state graph) = 4 * (n_layer * 5 * n_embed)
  /\ (n_layer * 5 * n_embed < 4294967296 ->
      rwkv_get_state_buffer_element_count ctx
      = ggml_nbytes (rwkv_graph.input_state graph) / 4).
Proof.
  intros Hloaded header n_embed n_layer graph.
  destruct (loaded_graph ctx Hloaded) as (Hemb & ggml & n_threads & Hgraph).
  destruct (loaded_input_state ctx Hloaded) as (Hlayer & Hembed & object & Hinput).
  fold header in Hlayer, Hembed, Hinput, Hemb. fold n_embed n_layer in Hlayer, Hembed, Hinput, Hemb.
  pose proof (rwkv_single_graph_fields ggml (rwkv_context.model ctx) n_threads) as Hfields.
  cbv zeta in Hfields. fold header in Hfields. fold n_embed n_layer in Hfields.
  rewrite Hfields in Hgraph. cbn [fst] in Hgraph. fold graph in Hgraph, Hinput.
  assert (Hinbytes : ggml_nbytes (rwkv_graph.input_state graph) = 4 * (n_layer * 5 * n_embed)).
  { rewrite Hinput. cbn -[Z.mul]. lia. }
  split_and!.
  - rewrite Hgraph. cbn [rwkv_graph.output_state].
    rewrite length_state_parts, length_graph_layers, length_seq. lia.
  - rewrite Hgraph. cbn [rwkv_graph.output_state].
    apply graph_layers_rows; [|reflexivity]. cbn. exact Hemb.
  - exact Hinbytes.
  - intros Hfits. unfold rwkv_get_state_buffer_element_count.
    fold header. fold n_embed n_layer. rewrite Hinbytes.
    rewrite Z.mod_small by nia. rewrite (Z.mul_comm 4), Z.div_mul by lia. reflexivity.
Qed.

End GraphShapes.

(** ** The element-wise operators on rows of any length *)

Section OperatorRows.
Context `{!ggml_backend}.

Lemma map_lookup_total_take {B} (f : float -> B) (src : list float) (n : nat) :
  (n <= length src)%nat ->
  map (fun i => f (src !!! i)) (seq 0 n) = map f (take n src).
Proof.
  intros Hn. rewrite <- (map_lookup_total_seq f (take n src)), length_take_le by lia.
  apply map_ext_in. intros i Hi. apply in_seq in Hi.
  by rewrite lookup_total_take_lt by lia.
Qed.

Lemma zip_lookup_total_take (f : float -> float -> float) (src0 src1 : list float)
    (n : nat) :
  (n <= length src0)%nat -> (n <= length src1)%nat ->
  map (fun i => f (src0 !!! i) (src1 !!! i)) (seq 0 n)
  = zip_with f (take n src0) (take n src1).
Proof.
  intros H0 H1.
  rewrite <- (zip_lookup_total_seq f (take n src0) (take n src1)), length_take_le
    by (rewrite ?length_take_le by lia; lia).
  apply map_ext_in. intros i Hi. apply in_seq in Hi.
  by rewrite !lookup_total_take_lt by lia.
Qed.

(** X18.  Each of the four element-wise callbacks writes the first
    [n_cols] entries of the destination row, with its function of the
    entries of the source rows at the same index, and leaves every later
    entry of the destination as it was. *)
Theorem rwkv_impl_writes_n_cols (n_cols : Z) (dest src0 src1 : list float) :
  let n := Z.to_nat n_cols in
  (n <= length dest)%nat -> (n <= length src0)%nat -> (n <= length src1)%nat ->
  rwkv_exp_impl n_cols dest src0 = map expf (take n src0) ++ drop n dest
  /\ rwkv_1_minus_x_impl n_cols dest src0
     = map (fsub f_one) (take n src0) ++ drop n dest
  /\ rwkv_sigmoid_impl n_cols dest src0
     = map (fun x => fdiv f_one (fadd f_one (expf (fneg x)))) (take n src0)
       ++ drop n dest
  /\ rwkv_max_impl n_cols dest src0 src1
     = zip_with fmaxf (take n src0) (take n src1) ++ drop n dest.
Proof.
  intros n Hdest Hsrc0 Hsrc1.
  unfold rwkv_exp_impl, rwkv_1_minus_x_impl, rwkv_sigmoid_impl, rwkv_max_impl, for_cols.
  fold n. rewrite !for_cols_prefix by done.
  rewrite (map_lookup_total_take expf), (map_lookup_total_take (fsub f_one)),
    (map_lookup_total_take (fun x => fdiv f_one (fadd f_one (expf (fneg x))))),
    zip_lookup_total_take by done.
  done.
Qed.

End OperatorRows.

(** ** Evaluation *)

Section EvalFrame.
Context `{!rwkv_h, !ggml_backend}.

Lemma ggml_store_other (ctx : ggml_context) (tensor : ggml_tensor) (d : ggml_data)
    (object : nat) :
  ggml_object tensor <> Some object ->
  ggml_mem (ggml_store ctx tensor d) !! object = ggml_mem ctx !! object.
Proof.
  destruct tensor; try done. cbn. intros Hne.
  apply lookup_insert_ne. congruence.
Qed.

Lemma ggml_store_frame (ctx : ggml_context) (tensor : ggml_tensor) (d : ggml_data) :
  ggml_objects (ggml_store ctx tensor d) = ggml_objects ctx
  /\ ggml_graph_runs (ggml_store ctx tensor d) = ggml_graph_runs ctx.
Proof. by destruct tensor. Qed.

(** X19.  [rwkv_eval] never changes the model, the graph or the printing
    flag of the context, makes no tensor, and writes the data of no tensor
    but the token index and the input state: every weight the file gave
    keeps its data.  A call that returns [true] has run the graph once and
    reported nothing; a call that returns [false] has run nothing and
    written no data.  The two output arrays are null after the call exactly
    when they were before. *)
Theorem rwkv_eval_frame (ctx : rwkv_context.t) (token : Z)
    (state_in state_out logits_out : option (list float)) (g : rwkv_globals) :
  let '(result, ctx', state_out', logits_out', g') :=
    rwkv_eval ctx token state_in state_out logits_out g in
  let graph := rwkv_context.graph ctx in
  let ggml := rwkv_context.ctx ctx in
  let ggml' := rwkv_context.ctx ctx' in
  rwkv_context.model ctx' = rwkv_context.model ctx
  /\ rwkv_context.graph ctx' = graph
  /\ rwkv_context.print_errors ctx' = rwkv_context.print_errors ctx
  /\ ggml_objects ggml' = ggml_objects ggml
  /\ (forall object,
        ggml_object (rwkv_graph.token_index graph) <> Some object ->
        ggml_object (rwkv_graph.input_state graph) <> Some object ->
        ggml_mem ggml' !! object = ggml_mem ggml !! object)
  /\ (is_Some state_out' <-> is_Some state_out)
  /\ (is_Some logits_out' <-> is_Some logits_out)
  /\ (result = true ->
      ggml_graph_runs ggml' = S (ggml_graph_runs ggml) /\ g' = g
      /\ rwkv_context.last_error ctx' = RWKV_ERROR_NONE)
  /\ (result = false ->
      ggml' = ggml /\ state_out' = state_out /\ logits_out' = logits_out).
Proof.
  unfold rwkv_eval.
  destruct state_out as [s|]; [|cbn; split_and!; done].
  destruct (negb _); [cbn; split_and!; done|].
  cbn [rwkv_context.model rwkv_context.graph rwkv_context.ctx rwkv_context.print_errors
       rwkv_context.last_error rwkv_context.set_last_error rwkv_context.set_ctx].
  set (graph := rwkv_context.graph ctx). set (ggml := rwkv_context.ctx ctx).
  set (stored1 := ggml_store ggml (rwkv_graph.token_index graph) _).
  assert (Hframe : forall d,
    let stored2 := ggml_store stored1 (rwkv_graph.input_state graph) d in
    ggml_objects (ggml_graph_compute stored2) = ggml_objects ggml
    /\ (forall object,
          ggml_object (rwkv_graph.token_index graph) <> Some object ->
          ggml_object (rwkv_graph.input_state graph) <> Some object ->
          ggml_mem (ggml_graph_compute stored2) !! object = ggml_mem ggml !! object)
    /\ ggml_graph_runs (ggml_graph_compute stored2) = S (ggml_graph_runs ggml)).
  { intros d stored2. subst stored2 stored1. cbn [ggml_graph_compute ggml_objects ggml_mem
      ggml_graph_runs].
    rewrite !(proj1 (ggml_store_frame _ _ _)), !(proj2 (ggml_store_frame _ _ _)).
    split_and!; [done | | done].
    intros object Htoken Hstate. by rewrite !ggml_store_other. }
  destruct state_in as [state_in_data|]; destruct logits_out as [logits_out_data|];
    (match goal with |- context [ggml_store stored1 _ ?d] =>
       destruct (Hframe d) as (Hobjects & Hmem & Hruns) end;
     split_and!; try done; try (by split; [intros _; eexists | intros _; eexists]);
     try (intros _; split_and!; done)).
Qed.

End EvalFrame.

Section EvalInputs.
Context `{!rwkv_h, !ggml_backend}.

(** X20.  In a loaded context, an accepted call of [rwkv_eval] computes the
    graph on what it was given: the token index holds the token, so that
    the first layer reads row [token] of the embedding matrix, and the
    input state holds the first [n_layer * 5 * n_embed] floats of
    [state_in], or the fresh state when [state_in] is null. *)
Theorem rwkv_eval_feeds_graph (ctx : rwkv_context.t) (token : Z)
    (state_in : option (list float)) (s : list float)
    (logits_out : option (list float)) (g : rwkv_globals) :
  loaded ctx ->
  let model := rwkv_context.model ctx in
  let header := rwkv_model.header model in
  let n_embed := file_header.n_embed header in
  let n_layer := file_header.n_layer header in
  let graph := rwkv_context.graph ctx in
  0 <= token < 2147483648 ->
  token < file_header.n_vocab header ->
  let '(result, ctx', _, _, _) := rwkv_eval ctx token state_in (Some s) logits_out g in
  let mem := ggml_mem (rwkv_context.ctx ctx') in
  result = true
  /\ ggml_get_i32 mem (rwkv_graph.token_index graph) = [token]
  /\ ggml_get_data mem (ggml_get_rows (rwkv_model.emb model) (rwkv_graph.token_index graph))
     = ggml_row (ggml_get_data mem (rwkv_model.emb model)) n_embed token
  /\ ggml_get_data mem (rwkv_graph.input_state graph)
     = match state_in with
       | Some data => take (Z.to_nat (n_layer * 5 * n_embed)) data
       | None => spec_fresh_state n_layer n_embed
       end.
Proof.
  intros Hloaded model header n_embed n_layer graph Htoken Hvocab.
  destruct (loaded_graph ctx Hloaded) as (Hemb & ggml & n_threads & Hgraph).
  destruct (loaded_input_state ctx Hloaded) as (Hlayer & Hembed & _).
  fold model in Hemb, Hgraph. fold header in Hemb, Hlayer, Hembed.
  fold n_embed in Hemb, Hembed. fold n_layer in Hlayer. fold graph in Hgraph.
  pose proof (rwkv_single_graph_fields ggml model n_threads) as Hfields.
  cbv zeta in Hfields. fold header in Hfields. fold n_embed n_layer in Hfields.
  rewrite Hfields in Hgraph. cbn [fst] in Hgraph.
  assert (Hin : rwkv_graph.input_state graph
                = ggml_new_tensor (ggml_objects ggml) GGML_TYPE_F32 1
                    (n_layer * 5 * n_embed) 1) by (by rewrite Hgraph).
  assert (Htok : rwkv_graph.token_index graph
                 = ggml_new_tensor (S (ggml_objects ggml)) GGML_TYPE_I32 1 1 1)
    by (by rewrite Hgraph).
  clear Hfields Hgraph.
  unfold rwkv_eval.
  cbn [rwkv_context.model rwkv_context.graph rwkv_context.ctx rwkv_context.set_last_error
       rwkv_context.set_ctx].
  fold model. fold header. fold graph.
  rewrite (proj2 (Z.ltb_lt _ _) Hvocab). cbn [negb].
  assert (Has : as_int32 token = token).
  { unfold as_int32. rewrite (proj2 (Z.ltb_lt _ _)) by lia. reflexivity. }
  rewrite Has, Hin, Htok.
  assert (Hfresh : fresh_input_state header
            (ggml_new_tensor (ggml_objects ggml) GGML_TYPE_F32 1 (n_layer * 5 * n_embed) 1)
          = spec_fresh_state n_layer n_embed).
  { apply fresh_input_state_spec; [done | done | cbn; lia]. }
  assert (Hrow : forall l : list float,
            concat (map (ggml_row l (ggml_ne0 (rwkv_model.emb model))) [token])
            = ggml_row l n_embed token).
  { intros l. cbn. by rewrite app_nil_r, Hemb. }
  destruct state_in as [data|]; cbn -[Z.mul ggml_get_data ggml_row spec_fresh_state];
    (split; [done|]);
    cbn [ggml_get_data ggml_get_i32];
    rewrite ?lookup_insert_eq, ?(lookup_insert_ne _ (ggml_objects ggml) (S (ggml_objects ggml)))
      by lia;
    rewrite ?lookup_insert_eq; rewrite ?Hrow, ?Hfresh;
    (split_and!; [done | done |]).
  - cbn -[Z.mul]. do 2 f_equal. rewrite Z.mul_1_r.
    rewrite (Z.mul_comm 4), Z.div_mul by lia. reflexivity.
  - reflexivity.
Qed.

End EvalInputs.

(** ** The sizing planner *)

Lemma align_16 (length : Z) :
  Z.land (length + 15) (Z.lnot 15) = 16 * ((length + 15) / 16).
Proof.
  rewrite <- Z.ldiff_land. change 15 with (Z.ones 4) at 2.
  rewrite Z.ldiff_ones_r by lia.
  rewrite Z.shiftr_div_pow2, Z.shiftl_mul_pow2 by lia.
  change (2 ^ 4) with 16. lia.
Qed.

Section PlannerProofs.
Context `{!ggml_backend}.
Variable sizeof_ggml_tensor : Z.
Variable sizeof_pointer : Z.

Lemma ctx_size_add_tensors_fields (size : ctx_size)
    (calls : list (Z * Z * ggml_type * Z)) :
  let after := ctx_size_add_tensors sizeof_ggml_tensor size calls in
  let objects := foldr Z.add 0 (map (fun c => c.1.1.1 + c.1.1.2) calls) in
  objects_count after = objects_count size + objects
  /\ objects_size after = objects_size size + sizeof_ggml_tensor * objects
  /\ scratch_size after
     = scratch_size size
       + foldr Z.add 0
           (map (fun c => 16 * ((ggml_nbytes_of c.1.2 c.2 1 + 15) / 16) * c.1.1.1) calls).
Proof.
  revert size. induction calls as [|[[[tensors views] type] width] calls IH]; intros size.
  - cbn. split_and!; lia.
  - unfold ctx_size_add_tensors in *. cbn [foldl map foldr fst snd].
    specialize (IH (ctx_size_add_tensor sizeof_ggml_tensor size tensors views type width 1)).
    cbv zeta in IH. destruct IH as (-> & -> & ->).
    unfold ctx_size_add_tensor, ctx_size_add_scratch, ctx_size_add_objects.
    cbn [objects_count objects_size scratch_size]. rewrite align_16.
    split_and!; lia.
Qed.

(** X21.  What [rwkv_single_graph_size] plans, in closed form.  With
    [row v] the size of a row of [v] floats rounded up to a multiple of 16
    bytes, the graph is planned with 10 objects and 82 more for every
    layer, each of the size of a tensor structure, and with scratch space
    for the state, the token, five rows of [n_embed] floats and the logits,
    and for every layer 48 rows of [n_embed] floats, 13 pointer-sized
    arguments and 3 rows of [ffn_key] floats. *)
Theorem rwkv_single_graph_size_closed_form (n_vocab n_embed n_layer ffn_key : Z) :
  let row v := 16 * ((4 * v + 15) / 16) in
  let size := rwkv_single_graph_size sizeof_ggml_tensor sizeof_pointer
                n_vocab n_embed n_layer ffn_key in
  objects_count size = 10 + 82 * n_layer
  /\ objects_size size = sizeof_ggml_tensor * objects_count size
  /\ scratch_size size
     = row (n_layer * 5 * n_embed) + row 1 + 5 * row n_embed + row n_vocab
       + n_layer * (48 * row n_embed + 13 * row (sizeof_pointer / 4) + 3 * row ffn_key)
  /\ (0 <= n_embed -> 4 * n_embed <= row n_embed < 4 * n_embed + 16).
Proof.
  intros row size.
  pose proof (ctx_size_add_tensors_fields ctx_size_zero) as Hzero.
  cbv zeta in Hzero. cbn [ctx_size_zero objects_count objects_size scratch_size] in Hzero.
  assert (Hatt :
    objects_count (rwkv_single_att_size sizeof_ggml_tensor sizeof_pointer n_embed) = 55
    /\ objects_size (rwkv_single_att_size sizeof_ggml_tensor sizeof_pointer n_embed)
       = sizeof_ggml_tensor * 55
    /\ scratch_size (rwkv_single_att_size sizeof_ggml_tensor sizeof_pointer n_embed)
       = 36 * row n_embed + 10 * row (sizeof_pointer / 4)).
  { unfold rwkv_single_att_size. cbv zeta.
    match goal with |- context [ctx_size_add_tensors _ ctx_size_zero ?calls] =>
      destruct (Hzero calls) as (-> & -> & ->) end. clear Hzero.
    cbn [map foldr fst snd ggml_nbytes_of]. rewrite !Z.mul_1_r. subst row. cbv beta.
    split_and!; lia. }
  assert (Hffn :
    objects_count (rwkv_single_ffn_size sizeof_ggml_tensor sizeof_pointer n_embed ffn_key)
    = 22
    /\ objects_size (rwkv_single_ffn_size sizeof_ggml_tensor sizeof_pointer n_embed ffn_key)
       = sizeof_ggml_tensor * 22
    /\ scratch_size (rwkv_single_ffn_size sizeof_ggml_tensor sizeof_pointer n_embed ffn_key)
       = 12 * row n_embed + 3 * row (sizeof_pointer / 4) + 3 * row ffn_key).
  { unfold rwkv_single_ffn_size. cbv zeta.
    match goal with |- context [ctx_size_add_tensors _ ctx_size_zero ?calls] =>
      destruct (Hzero calls) as (-> & -> & ->) end. clear Hzero.
    cbn [map foldr fst snd ggml_nbytes_of]. rewrite !Z.mul_1_r. subst row. cbv beta.
    split_and!; lia. }
  destruct Hatt as (Ha1 & Ha2 & Ha3). destruct Hffn as (Hf1 & Hf2 & Hf3).
  subst size. unfold rwkv_single_graph_size. cbv zeta.
  match goal with
  | |- context [ctx_size_add_tensors _ (ctx_size_add_size ?inner _ _) ?calls] =>
      destruct (ctx_size_add_tensors_fields (ctx_size_add_size inner n_layer
                  (rwkv_single_ffn_size sizeof_ggml_tensor sizeof_pointer n_embed ffn_key))
                  calls) as (-> & -> & ->)
  end.
  unfold ctx_size_add_size. cbn [objects_count objects_size scratch_size].
  match goal with |- context [ctx_size_add_tensors _ ctx_size_zero ?calls] =>
      destruct (Hzero calls) as (-> & -> & ->) end. clear Hzero.
  rewrite Ha1, Ha2, Ha3, Hf1, Hf2, Hf3.
  cbn [map foldr fst snd ggml_nbytes_of]. rewrite !Z.mul_1_r. subst row. cbv beta.
  change ((4 * 1 + 15) / 16) with 1.
  split_and!; first [lia | ring | intros Hn; Z.div_mod_to_equations; lia].
Qed.

End PlannerProofs.

(** ** A failed call leaves an error flag *)

Lemma has_error_lor_pair (e a b : Z) : has_error (Z.lor e (Z.lor a b)) a.
Proof. rewrite Z.lor_assoc. apply has_error_lor_l, has_error_lor. Qed.

Lemma has_error_ASSERT_MSG ERR_VAL msg line condition g :
  has_error (global_last_error (RWKV_ASSERT_MSG_fails ERR_VAL msg line condition g)) ERR_VAL.
Proof. rewrite ASSERT_MSG_last_error. apply has_error_lor. Qed.

Lemma has_error_ASSERT_MSG_pair a b msg line condition g :
  has_error (global_last_error (RWKV_ASSERT_MSG_fails (Z.lor a b) msg line condition g)) a.
Proof. rewrite ASSERT_MSG_last_error. apply has_error_lor_pair. Qed.


Section FailureFlags.
Context `{!rwkv_h, !ggml_backend}.






End FailureFlags.

Lemma foldl_last_error {A} (f : rwkv_globals -> A -> rwkv_globals) (l : list A)
    (g : rwkv_globals) :
  (forall g a, global_last_error (f g a) = global_last_error g) ->
  global_last_error (foldl f g l) = global_last_error g.
Proof.
  intros Hf. revert g. induction l as [|a l IH]; intros g; [done|].
  cbn [foldl]. by rewrite IH, Hf.
Qed.

Lemma RWKV_MSG_last_error msg g :
  global_last_error (RWKV_MSG msg g) = global_last_error g.
Proof. by destruct (RWKV_MSG_frame msg g) as (-> & _). Qed.

Section QuantizerResult.
Context `{!rwkv_h, !ggml_backend}.

Lemma quantize_messages_last_error name header orig_size c g :
  global_last_error (quantize_messages name header orig_size c g) = global_last_error g.
Proof.
  unfold quantize_messages. cbv zeta.
  rewrite RWKV_MSG_last_error, foldl_last_error, !RWKV_MSG_last_error; [done|].
  intros. apply RWKV_MSG_last_error.
Qed.

Lemma quantize_step_result target_type target_ggml input st g b st' input' g' :
  quantize_step target_type target_ggml input st g = (b, st', input', g') ->
  if b then global_last_error g' = global_last_error g
  else Exists (has_error (global_last_error g'))
         [RWKV_ERROR_MODEL_PARAMS; RWKV_ERROR_KEY; RWKV_ERROR_DATA; RWKV_ERROR_FILE_WRITE].
Proof.
  unfold quantize_step.
  destruct (fread_tensor_header input g) as [[[header|] input1] g1] eqn:Hheader;
    [|intros [= <- _ _ <-]; apply Exists_cons_hd, has_error_ASSERT_MSG].
  apply fread_tensor_header_globals in Hheader as ->.
  destruct (fread_tensor_key input1 header) as [[key|] input2];
    [|intros [= <- _ _ <-]; apply Exists_cons_tl, Exists_cons_hd, has_error_ASSERT_MSG].
  destruct (fread_tensor_data input2 header) as [[data|] input3];
    [|intros [= <- _ _ <-];
      do 2 apply Exists_cons_tl; apply Exists_cons_hd, has_error_ASSERT_MSG].
  assert (Hwrite : forall msg line condition g0,
            Exists (has_error (global_last_error
                       (RWKV_ASSERT_MSG_fails RWKV_ERROR_FILE_WRITE msg line condition g0)))
              [RWKV_ERROR_MODEL_PARAMS; RWKV_ERROR_KEY; RWKV_ERROR_DATA;
               RWKV_ERROR_FILE_WRITE]).
  { intros. do 3 apply Exists_cons_tl. apply Exists_cons_hd, has_error_ASSERT_MSG. }
  destruct (quantize_selected header _); cbn zeta;
    rewrite fwrite_tensor_header_ok;
    (destruct (fwrite_string _ _) as [[|] bytes1];
     [destruct (fwrite_data _ _ _) as [[|] bytes2]|]);
    intros [= <- _ _ <-]; try apply Hwrite;
    rewrite ?quantize_messages_last_error, ?RWKV_MSG_last_error; reflexivity.
Qed.

Lemma quantize_loop_result fuel target_type target_ggml input size st g b st' input' g' :
  quantize_loop fuel target_type target_ggml input size st g = Some (b, st', input', g') ->
  if b then global_last_error g' = global_last_error g
  else Exists (has_error (global_last_error g'))
         [RWKV_ERROR_MODEL_PARAMS; RWKV_ERROR_KEY; RWKV_ERROR_DATA; RWKV_ERROR_FILE_WRITE].
Proof.
  revert input st g. induction fuel as [|fuel IH]; intros input st g; [discriminate|].
  cbn [quantize_loop]. destruct (ftell input <? size); [|by intros [= <- _ _ <-]].
  destruct (quantize_step _ _ _ _ _) as [[[[|] st1] input1] g1] eqn:Hstep;
    apply quantize_step_result in Hstep.
  - intros Hloop. apply IH in Hloop. destruct b; [congruence | done].
  - by intros [= <- _ _ <-].
Qed.

Lemma quantize_report_last_error st g :
  global_last_error (quantize_report st g) = global_last_error g.
Proof.
  unfold quantize_report. cbv zeta.
  rewrite RWKV_MSG_last_error, foldl_last_error, !RWKV_MSG_last_error; done.
Qed.

(** X23.  [rwkv_quantize_model_file] reports what it returns.  When it
    returns [true], it has opened both files and the thread's last error is
    clear.  When it returns [false], the last error has one of the flags
    ARGS, FILE, MODEL_PARAMS, KEY, DATA and FILE_WRITE.  In particular the
    loop over the tensor records always comes to an end. *)
Theorem rwkv_quantize_model_file_result (input_path : string)
    (opened : option (list byte)) (output_path : string) (writable : bool)
    (target_name : string) (g : rwkv_globals) :
  let '(result, written, g') :=
    rwkv_quantize_model_file input_path opened output_path writable target_name g in
  if result
  then global_last_error g' = RWKV_ERROR_NONE
       /\ is_Some opened /\ writable = true /\ is_Some written
  else Exists (has_error (global_last_error g'))
         [RWKV_ERROR_ARGS; RWKV_ERROR_FILE; RWKV_ERROR_MODEL_PARAMS; RWKV_ERROR_KEY;
          RWKV_ERROR_DATA; RWKV_ERROR_FILE_WRITE].
Proof.
  set (failed := fun g0 : rwkv_globals =>
         Exists (has_error (global_last_error g0))
           [RWKV_ERROR_ARGS; RWKV_ERROR_FILE; RWKV_ERROR_MODEL_PARAMS; RWKV_ERROR_KEY;
            RWKV_ERROR_DATA; RWKV_ERROR_FILE_WRITE]).
  assert (Hargs : forall b msg line condition g0,
            failed (RWKV_ASSERT_MSG_fails (Z.lor RWKV_ERROR_ARGS b) msg line condition g0))
    by (intros; apply Exists_cons_hd, has_error_ASSERT_MSG_pair).
  assert (Hfile2 : forall b msg line condition g0,
            failed (RWKV_ASSERT_MSG_fails (Z.lor RWKV_ERROR_FILE b) msg line condition g0))
    by (intros; apply Exists_cons_tl, Exists_cons_hd, has_error_ASSERT_MSG_pair).
  assert (Hfile : forall msg line condition g0,
            failed (RWKV_ASSERT_MSG_fails RWKV_ERROR_FILE msg line condition g0))
    by (intros; apply Exists_cons_tl, Exists_cons_hd, has_error_ASSERT_MSG).
  unfold failed in *. clear failed. unfold rwkv_quantize_model_file.
  destruct (negb (bool_decide (type_from_string target_name ≠ TYPE_UNKNOWN)));
    [by apply Hargs|].
  destruct (negb (bool_decide (type_to_ggml _ ≠ GGML_TYPE_UNKNOWN))); [by apply Hargs|].
  destruct opened as [bytes|]; [|apply Hfile2].
  destruct writable; cbn [negb]; [|apply Hfile2].
  destruct (fread_file_header _ _ _) as [[[header|] input1] g1] eqn:Hheader; [|apply Hfile].
  destruct (fread_file_header_inv _ _ _ _ _ _ Hheader) as (-> & (hb & Hread & _) & _).
  apply fread_data_position in Hread as (Hpos1 & _ & Hc1).
  cbn [position contents] in Hpos1, Hc1. unfold file_header.sizeof in Hpos1.
  destruct (negb _); [apply Hfile|].
  assert (Hw : forall h, fwrite_file_header [] h
                 (RWKV_MSG (fprintf "Loading model from '%s'\n" [arg_str input_path])
                    (global_set_error RWKV_ERROR_NONE g))
               = (true, file_header.to_bytes h,
                  RWKV_MSG (fprintf "Loading model from '%s'\n" [arg_str input_path])
                    (global_set_error RWKV_ERROR_NONE g))) by reflexivity.
  rewrite Hw.
  assert (Hsize : st_size (mk_FILE bytes 0) = st_size input1)
    by (unfold st_size; cbn [contents]; by rewrite Hc1).
  rewrite Hsize.
  match goal with |- context [quantize_loop ?f ?tt ?tg ?i ?sz ?s ?g0] =>
    pose proof (quantize_loop_returns f tt tg i sz s g0) as Hreturns;
    destruct (quantize_loop f tt tg i sz s g0) as [[[[[|] st] input2] g3]|] eqn:Hloop
  end.
  - apply quantize_loop_result in Hloop.
    rewrite quantize_report_last_error, Hloop, RWKV_MSG_last_error.
    split_and!; [done | by eexists | done | by eexists].
  - apply quantize_loop_result in Hloop. by do 2 apply Exists_cons_tl.
  - exfalso. destruct Hreturns as [? ?]; [|discriminate].
    apply enough_fuel_is_enough. lia.
Qed.

End QuantizerResult.

(** ** Skipping a record *)

Section Skip.
Context `{!rwkv_h, !ggml_backend}.

(** X24.  [fskip_tensor_data] after a tensor header moves the file to
    where reading the key and then the payload of the record would leave
    it, that is, to the next record, and reads nothing. *)
Theorem fskip_tensor_data_agrees (file : FILE) (header : tensor_header.t)
    (key data : list byte) (file2 file3 : FILE) :
  0 <= position file ->
  fread_tensor_key file header = (Some key, file2) ->
  fread_tensor_data file2 header = (Some data, file3) ->
  fskip_tensor_data file header = (true, file3)
  /\ position file3
     = position file + Z.of_nat (length key) + Z.of_nat (length data)
  /\ contents file3 = contents file.
Proof.
  intros Hpos Hkey Hdata. unfold fread_tensor_key in Hkey. unfold fread_tensor_data in Hdata.
  pose proof (fread_data_Some _ _ _ _ Hkey) as [_ ->].
  pose proof (fread_data_length _ _ _ _ Hkey) as [Hk Hklen].
  pose proof (fread_data_Some _ _ _ _ Hdata) as [_ ->].
  pose proof (fread_data_length _ _ _ _ Hdata) as [Hd Hdlen].
  cbn [position contents] in *.
  unfold fskip_tensor_data, fseek_cur.
  rewrite (proj2 (Z.leb_le _ _)) by lia.
  rewrite Z.add_assoc. split_and!; [done | lia | done].
Qed.

End Skip.

(** * Closed examples of the further properties *)

Section FurtherExamples.
#[local] Existing Instance released_rwkv_h.
#[local] Existing Instance example_backend.

Lemma file_header_write_then_read_witness :
  fread_file_header (mk_FILE (example_header 101 TYPE_F32 ++ example_tensors) 0) true
    example_globals
  = (Some (file_header.mk 0x67676d66 101 2 1 1 TYPE_F32),
     mk_FILE (example_header 101 TYPE_F32 ++ example_tensors) 24, example_globals).
Proof.
  refine (proj2 (proj2 (proj2
            (file_header_write_then_read [] example_tensors
               (file_header.mk 0x67676d66 101 2 1 1 TYPE_F32) example_globals
               _ _ _ _ _ _ _ _ _))) _ _);
    by vm_compute.
Defined.

Lemma tensor_header_write_then_read_witness :
  fread_tensor_header (example_file (example_matrix "w")) example_globals
  = (Some (tensor_header.mk 2 1 TYPE_F32 1 1), mk_FILE (example_matrix "w") 20,
     example_globals).
Proof.
  refine (proj2 (proj2
            (tensor_header_write_then_read [] [x77; x02; x00; x00; x00]
               (tensor_header.mk 2 1 TYPE_F32 1 1) example_globals _ _ _ _ _ _ _)));
    first [by vm_compute | by right].
Defined.

Lemma quantize_step_copies_verbatim_witness :
  exists st' g',
    quantize_step TYPE_Q4_0 GGML_TYPE_Q4_0 (example_file (example_vector "w"))
      example_state example_globals
    = (true, st', mk_FILE (example_vector "w") 21, g')
    /\ output st' = example_vector "w".
Proof.
  destruct (quantize_step_copies_verbatim TYPE_Q4_0 GGML_TYPE_Q4_0
              (example_file (example_vector "w")) example_state example_globals
              (tensor_header.mk 1 1 TYPE_F32 1 1) [x77] [x01; x00; x00; x00]
              (mk_FILE (example_vector "w") 16) (mk_FILE (example_vector "w") 17)
              (mk_FILE (example_vector "w") 21) example_globals
              ltac:(by vm_compute) eq_refl eq_refl eq_refl eq_refl)
    as (st' & g' & Hstep & _ & _ & Hout & _).
  exists st', g'. split; [exact Hstep | exact Hout].
Defined.

Lemma quantize_rejects_unsupported_target_witness :
  rwkv_quantize_model_file "tiny.bin" None "out.bin" false "Q4_2" example_globals
  = (false, None,
     RWKV_ASSERT_MSG_fails (Z.lor RWKV_ERROR_ARGS RWKV_ERROR_DATA_TYPE)
       (fprintf "unsupported target data type (%s)" [arg_str "Q4_2"]) 983
       "target_ggml != GGML_TYPE_UNKNOWN" (global_set_error RWKV_ERROR_NONE example_globals)).
Proof.
  refine (quantize_rejects_unsupported_target "tiny.bin" None "out.bin" false "Q4_2"
            example_globals _).
  rewrite list_elem_of_In. simpl. intuition discriminate.
Defined.

Lemma quantize_output_header_witness :
  exists out,
    (rwkv_quantize_model_file "tiny.bin" (Some example_model_file) "out.bin" true "Q4_0"
       example_globals).1.2 = Some out
    /\ take 24 out = example_header 101 TYPE_Q4_0.
Proof.
  pose proof (quantize_output_header "tiny.bin" "out.bin" "Q4_0" example_model_file
                example_globals (file_header.mk 0x67676d66 101 2 1 1 TYPE_F32)
                (mk_FILE example_model_file 24)
                (RWKV_MSG (fprintf "Loading model from '%s'\n" [arg_str "tiny.bin"])
                   (global_set_error RWKV_ERROR_NONE example_globals))
                ltac:(by vm_compute) ltac:(by vm_compute) eq_refl) as H.
  destruct (rwkv_quantize_model_file _ _ _ _ _ _) as [[result written] g'].
  destruct H as [_ H]. destruct (H (or_introl eq_refl)) as (out & -> & Htake & _).
  exists out. split; [reflexivity | exact Htake].
Defined.

Lemma rwkv_init_from_file_bad_header_witness :
  exists g',
    rwkv_init_from_file "empty.bin" (Some []) 1 example_globals = (None, g')
    /\ global_last_error g'
       = Z.lor (Z.lor RWKV_ERROR_NONE RWKV_ERROR_FILE_READ) RWKV_ERROR_FILE
    /\ global_print_errors g' = global_print_errors example_globals
    /\ stdout g' = stdout example_globals.
Proof.
  refine (proj2 (rwkv_init_from_file_bad_header "empty.bin" 1 example_globals []
                   RWKV_ERROR_FILE_READ _)).
  left. split; [simpl; lia | reflexivity].
Defined.


Lemma rwkv_init_from_file_no_tensors_witness :
  rwkv_init_from_file "header.bin" (Some (example_header 101 TYPE_F32)) 1 example_globals
  = (None,
     RWKV_ASSERT_MSG_fails (Z.lor RWKV_ERROR_MODEL_PARAMS RWKV_ERROR_PARAM_MISSING)
       (fprintf "model is missing parameter blocks.0.ffn.key.weight" [])
       865 "ffn_key" (global_set_error RWKV_ERROR_NONE example_globals)).
Proof.
  refine (rwkv_init_from_file_no_tensors "header.bin" (example_header 101 TYPE_F32) 1
            example_globals (file_header.mk 0x67676d66 101 2 1 1 TYPE_F32)
            (mk_FILE (example_header 101 TYPE_F32) 24)
            (global_set_error RWKV_ERROR_NONE example_globals) eq_refl _).
  by vm_compute.
Defined.

Lemma empty_key_rejected_witness :
  exists g',
    quantize_loop 1 TYPE_Q4_0 GGML_TYPE_Q4_0
      (example_file (tensor_record 1 EmptyString TYPE_F32 1 1 [x01; x00; x00; x00])) 20
      example_state example_globals
    = Some (false, example_state,
            mk_FILE (tensor_record 1 EmptyString TYPE_F32 1 1 [x01; x00; x00; x00]) 16, g')
    /\ global_last_error g' = Z.lor (global_last_error example_globals) RWKV_ERROR_KEY.
Proof.
  refine (proj2 (proj2
            (empty_key_rejected
               (example_file (tensor_record 1 EmptyString TYPE_F32 1 1 [x01; x00; x00; x00]))
               example_globals (tensor_header.mk 1 0 TYPE_F32 1 1)
               (mk_FILE (tensor_record 1 EmptyString TYPE_F32 1 1 [x01; x00; x00; x00]) 16)
               example_globals 0 20 0 ggml_init ∅ TYPE_Q4_0 GGML_TYPE_Q4_0 example_state
               _ _ _)));
    by vm_compute.
Defined.


Lemma loaded_state_shape_witness :
  length (rwkv_graph.output_state (rwkv_context.graph example_loaded)) = 5%nat
  /\ Forall (is_row 1) (rwkv_graph.output_state (rwkv_context.graph example_loaded))
  /\ rwkv_get_state_buffer_element_count example_loaded = 5.
Proof.
  pose proof (loaded_state_shape example_loaded example_loaded_is_loaded) as H.
  cbv zeta in H. destruct H as (H1 & H2 & _ & H4).
  split_and!; [exact H1 | exact H2 | exact (H4 ltac:(by vm_compute))].
Defined.

Lemma rwkv_impl_writes_n_cols_witness :
  rwkv_max_impl 2 [0; 0; 9] [1; 2; 3] [5; 0; 0] = [5; 2; 9].
Proof.
  refine (proj2 (proj2 (proj2
            (rwkv_impl_writes_n_cols 2 [0; 0; 9] [1; 2; 3] [5; 0; 0] _ _ _))));
    vm_compute; lia.
Defined.

Lemma rwkv_eval_feeds_graph_witness :
  ggml_get_i32
    (ggml_mem (rwkv_context.ctx
       (rwkv_eval example_loaded 1 None (Some [7; 7; 7; 7; 7]) (Some [9; 9])
          example_globals).1.1.1.2))
    (rwkv_graph.token_index (rwkv_context.graph example_loaded))
  = [1].
Proof.
  pose proof (rwkv_eval_feeds_graph example_loaded 1 None [7; 7; 7; 7; 7] (Some [9; 9])
                example_globals example_loaded_is_loaded
                ltac:(by vm_compute) ltac:(by vm_compute)) as H.
  destruct (rwkv_eval example_loaded 1 None _ _ _) as [[[[result ctx'] so] lo] g'].
  destruct H as (_ & H & _). exact H.
Defined.


Lemma fskip_tensor_data_agrees_witness :
  fskip_tensor_data (mk_FILE (example_vector "w") 16) (tensor_header.mk 1 1 TYPE_F32 1 1)
  = (true, mk_FILE (example_vector "w") 21).
Proof.
  refine (proj1 (fskip_tensor_data_agrees (mk_FILE (example_vector "w") 16)
                   (tensor_header.mk 1 1 TYPE_F32 1 1) [x77] [x01; x00; x00; x00]
                   (mk_FILE (example_vector "w") 17) (mk_FILE (example_vector "w") 21)
                   _ _ _));
    by vm_compute.
Defined.

End FurtherExamples.
